(** * Equipment booking bot: availability engine, resource parser and
      selection workflow of [main.py], embedded and verified.

    The embedding follows [main.py] function by function.  Python values are
    modelled as follows.

    - [str] is a [string] holding the UTF-8 bytes of the text.  Whitespace
      ([str.strip]), digits ([str.isdigit], [int]) and case ([str.lower]) are
      modelled on ASCII, [str.lower] additionally on the Cyrillic block
      U+0400..U+042F that the sheet headers of the program use; on text of
      ASCII and Cyrillic U+0400..U+045F characters they are Python's.  Module
      [Generic] takes these library operations as parameters instead, and
      the properties of the parser and of the matching of names are proved
      there for Python's own operations.
    - [int] is [Z].
    - [dict] is an insertion-ordered association list with unique keys
      (module [Dict]); iteration order is the list order, as in Python.
    - [datetime.time] values only arise from [strptime(.., "%H:%M")], so a
      time is an hour and a minute; [datetime.date] is year, month, day.
    - The spreadsheet (inventory and bookings sheets) is an explicit value
      passed to, and returned from, the handlers that read or write it. *)

From Stdlib Require Import String Ascii List ZArith Lia Bool Arith.
From Stdlib Require Import DecimalString Decimal DecimalNat DecimalZ.
Import ListNotations.
Open Scope string_scope.
Open Scope Z_scope.

(* ================================================================== *)
(** ** Python string operations *)
(* ================================================================== *)

Module PyStr.

(** Code of a character. *)
Definition code (c : ascii) : nat := nat_of_ascii c.

Definition char_eqb (a b : ascii) : bool := Ascii.eqb a b.

(** [str.isspace] on one ASCII character: TAB, LF, VT, FF, CR, the four
    separators FS..US and the space. *)
Definition is_space (c : ascii) : bool :=
  let n := code c in
  ((9 <=? n) && (n <=? 13) || (28 <=? n) && (n <=? 32))%nat.

Definition is_digit (c : ascii) : bool :=
  let n := code c in ((48 <=? n) && (n <=? 57))%nat.

Definition digit_val (c : ascii) : Z := Z.of_nat (code c) - 48.

Definition semicolon : ascii := ";"%char.
Definition comma : ascii := ","%char.
Definition newline : ascii := "010"%char.
Definition colon : ascii := ":"%char.
Definition space : ascii := " "%char.
Definition underscore : ascii := "_"%char.

(** [s.lstrip()] *)
Fixpoint lstrip (s : string) : string :=
  match s with
  | EmptyString => EmptyString
  | String c s' => if is_space c then lstrip s' else s
  end.

(** [s.rstrip()] *)
Fixpoint rstrip (s : string) : string :=
  match s with
  | EmptyString => EmptyString
  | String c s' =>
      match rstrip s' with
      | EmptyString => if is_space c then EmptyString else String c EmptyString
      | r => String c r
      end
  end.

(** [s.strip()] *)
Definition strip (s : string) : string := rstrip (lstrip s).

(** [s.replace(old, new)] for one-character [old] and [new]. *)
Fixpoint replace (old new : ascii) (s : string) : string :=
  match s with
  | EmptyString => EmptyString
  | String c s' =>
      String (if char_eqb c old then new else c) (replace old new s')
  end.

(** [s.split(sep)] for a one-character separator: never empty, the empty
    string gives one empty piece. *)
Fixpoint split (sep : ascii) (s : string) : list string :=
  match s with
  | EmptyString => [EmptyString]
  | String c s' =>
      if char_eqb c sep then EmptyString :: split sep s'
      else match split sep s' with
           | h :: t => String c h :: t
           | [] => [String c EmptyString]
           end
  end.

(** [sep in s] for a one-character [sep]. *)
Fixpoint contains_char (sep : ascii) (s : string) : bool :=
  match s with
  | EmptyString => false
  | String c s' => char_eqb c sep || contains_char sep s'
  end.

(** [s.split(sep, 1)] when [sep in s]: the text before the first separator
    and the text after it; [None] when there is no separator. *)
Fixpoint split_first (sep : ascii) (s : string) : option (string * string) :=
  match s with
  | EmptyString => None
  | String c s' =>
      if char_eqb c sep then Some (EmptyString, s')
      else match split_first sep s' with
           | Some (a, b) => Some (String c a, b)
           | None => None
           end
  end.

(** [s.rsplit(sep, 1)]: [Some (a, b)] for the two-element result [[a, b]]
    (cut at the last separator), [None] for the one-element result [[s]]. *)
Fixpoint rsplit_last (sep : ascii) (s : string) : option (string * string) :=
  match s with
  | EmptyString => None
  | String c s' =>
      match rsplit_last sep s' with
      | Some (a, b) => Some (String c a, b)
      | None => if char_eqb c sep then Some (EmptyString, s') else None
      end
  end.

Fixpoint all_digits (s : string) : bool :=
  match s with
  | EmptyString => true
  | String c s' => is_digit c && all_digits s'
  end.

(** [s.isdigit()]: non-empty and only digits. *)
Definition isdigit (s : string) : bool :=
  match s with
  | EmptyString => false
  | _ => all_digits s
  end.

(** The digit part of an [int] literal: digits, with single underscores
    allowed between two digits.  [prev] tells whether the previous character
    was a digit. *)
Fixpoint int_digits (acc : Z) (prev : bool) (s : string) : option Z :=
  match s with
  | EmptyString => if prev then Some acc else None
  | String c s' =>
      if is_digit c then int_digits (acc * 10 + digit_val c) true s'
      else if char_eqb c underscore then
             (if prev then int_digits acc false s' else None)
      else None
  end.

(** [int(s)]: surrounding whitespace, an optional sign, then the digits;
    [None] stands for [ValueError]. *)
Definition int (s : string) : option Z :=
  match strip s with
  | String "-" d => option_map Z.opp (int_digits 0 false d)
  | String "+" d => int_digits 0 false d
  | d => int_digits 0 false d
  end.

(** [str(n)] and [f"{n}"] for an integer. *)
Definition of_Z (n : Z) : string := NilZero.string_of_int (Z.to_int n).
Definition of_nat (n : nat) : string := NilZero.string_of_uint (Nat.to_uint n).

(** ["%02d"] and ["%04d"] for a natural number. *)
Fixpoint zeros (n : nat) : string :=
  match n with
  | O => EmptyString
  | S n' => String "0" (zeros n')
  end.

Definition pad (width : nat) (n : nat) : string :=
  let s := of_nat n in zeros (width - String.length s) ++ s.

(** [s.lower()]: ASCII letters, and the Cyrillic capitals U+0400..U+042F in
    their two-byte UTF-8 form (lead byte 0xD0). *)
Fixpoint lower (s : string) : string :=
  match s with
  | EmptyString => EmptyString
  | String c s' =>
      let n := code c in
      if ((65 <=? n) && (n <=? 90))%nat then
        String (ascii_of_nat (n + 32)) (lower s')
      else if (n =? 208)%nat then
        match s' with
        | String d s'' =>
            let m := code d in
            if ((128 <=? m) && (m <=? 143))%nat then
              String (ascii_of_nat 209) (String (ascii_of_nat (m + 16)) (lower s''))
            else if ((144 <=? m) && (m <=? 159))%nat then
              String c (String (ascii_of_nat (m + 32)) (lower s''))
            else if ((160 <=? m) && (m <=? 175))%nat then
              String (ascii_of_nat 209) (String (ascii_of_nat (m - 32)) (lower s''))
            else String c (String d (lower s''))
        | EmptyString => String c EmptyString
        end
      else String c (lower s')
  end.

Fixpoint prefix (p s : string) : bool :=
  match p, s with
  | EmptyString, _ => true
  | String a p', String b s' => char_eqb a b && prefix p' s'
  | String _ _, EmptyString => false
  end.

(** [p in s] for strings. *)
Fixpoint contains (p s : string) : bool :=
  prefix p s ||
  match s with
  | EmptyString => false
  | String _ s' => contains p s'
  end.

(** [sep.join(l)] *)
Fixpoint join (sep : string) (l : list string) : string :=
  match l with
  | [] => EmptyString
  | [x] => x
  | x :: t => x ++ sep ++ join sep t
  end.

End PyStr.

(* ================================================================== *)
(** ** Python dictionaries with string keys *)
(* ================================================================== *)

Module Dict.

(** An insertion-ordered dictionary: the items in iteration order. *)
Definition t (V : Type) : Type := list (string * V).

Definition empty {V : Type} : t V := [].

(** [d.get(k)] *)
Fixpoint get {V : Type} (d : t V) (k : string) : option V :=
  match d with
  | [] => None
  | (k', v) :: rest => if String.eqb k' k then Some v else get rest k
  end.

(** [d.get(k, dflt)] *)
Definition get_default {V : Type} (d : t V) (k : string) (dflt : V) : V :=
  match get d k with
  | Some v => v
  | None => dflt
  end.

(** [d[k] = v]: an existing key keeps its position, a new key goes last. *)
Fixpoint set {V : Type} (d : t V) (k : string) (v : V) : t V :=
  match d with
  | [] => [(k, v)]
  | (k', v') :: rest =>
      if String.eqb k' k then (k', v) :: rest else (k', v') :: set rest k v
  end.

(** [d.pop(k, None)] *)
Fixpoint pop {V : Type} (d : t V) (k : string) : t V :=
  match d with
  | [] => []
  | (k', v') :: rest =>
      if String.eqb k' k then rest else (k', v') :: pop rest k
  end.

(** [k in d] *)
Definition mem {V : Type} (d : t V) (k : string) : bool :=
  match get d k with
  | Some _ => true
  | None => false
  end.

(** [list(d.keys())] *)
Definition keys {V : Type} (d : t V) : list string := map fst d.

(** [not d] *)
Definition is_empty {V : Type} (d : t V) : bool :=
  match d with
  | [] => true
  | _ => false
  end.

End Dict.

(* ================================================================== *)
(** ** [parse_resources] *)
(* ================================================================== *)

(** The body of [for sep in [';', ',', '\n']: text = text.replace(sep, ';')]. *)
Definition normalize_separators (text : string) : string :=
  fold_left (fun t sep => PyStr.replace sep PyStr.semicolon t)
            [PyStr.semicolon; PyStr.comma; PyStr.newline] text.

(** [try: cnt_i = int(cnt.strip()) except: cnt_i = 1] *)
Definition count_of (cnt : string) : Z :=
  match PyStr.int (PyStr.strip cnt) with
  | Some z => z
  | None => 1
  end.

(** The pair [(name, cnt)] chosen for a stripped, non-empty chunk.  (With
    [PyStr.isdigit], a final token counts as digits when it is a run of
    ASCII digits; [Generic.split_chunk] takes [str.isdigit] as it is.) *)
Definition split_chunk (chunk : string) : string * string :=
  if PyStr.contains_char PyStr.colon chunk then
    match PyStr.split_first PyStr.colon chunk with
    | Some (name, cnt) => (name, cnt)
    | None => (chunk, "1")
    end
  else
    match PyStr.rsplit_last PyStr.space (PyStr.strip chunk) with
    | Some (t0, t1) => if PyStr.isdigit t1 then (t0, t1) else (chunk, "1")
    | None => (chunk, "1")
    end.

(** One iteration of the loop over chunks: [None] is [continue], otherwise
    the key and value of the assignment [res[name.strip()] = cnt_i]. *)
Definition parse_chunk (chunk : string) : option (string * Z) :=
  let chunk := PyStr.strip chunk in
  match chunk with
  | EmptyString => None
  | _ =>
      let '(name, cnt) := split_chunk chunk in
      Some (PyStr.strip name, count_of cnt)
  end.

Definition parse_step (res : Dict.t Z) (chunk : string) : Dict.t Z :=
  match parse_chunk chunk with
  | Some (name, cnt_i) => Dict.set res name cnt_i
  | None => res
  end.

Definition parse_resources (text : string) : Dict.t Z :=
  fold_left parse_step
            (PyStr.split PyStr.semicolon (normalize_separators text))
            Dict.empty.

(* ================================================================== *)
(** ** Dates and times of day *)
(* ================================================================== *)

Record time : Type := mkTime { hour : nat; minute : nat }.

Record date : Type := mkDate { year : nat; month : nat; day : nat }.

(** [a < b] on [datetime.time]: hours first, then minutes. *)
Definition time_ltb (a b : time) : bool :=
  ((hour a <? hour b) || (hour a =? hour b) && (minute a <? minute b))%nat.

(** [a <= b] on [datetime.time]. *)
Definition time_leb (a b : time) : bool := negb (time_ltb b a).

(** [a != b] is the negation of this equality on [datetime.date]. *)
Definition date_eqb (a b : date) : bool :=
  ((year a =? year b) && (month a =? month b) && (day a =? day b))%nat.

(** Minutes since midnight. *)
Definition minutes_of (t : time) : Z :=
  Z.of_nat (hour t) * 60 + Z.of_nat (minute t).

(** A time as [datetime.time] can hold it. *)
Definition valid_time (t : time) : Prop :=
  (hour t < 24)%nat /\ (minute t < 60)%nat.

(** [t.strftime('%H:%M')] *)
Definition strftime_HM (t : time) : string :=
  PyStr.pad 2 (hour t) ++ ":" ++ PyStr.pad 2 (minute t).

(** [d.isoformat()] *)
Definition isoformat (d : date) : string :=
  PyStr.pad 4 (year d) ++ "-" ++ PyStr.pad 2 (month d) ++ "-" ++ PyStr.pad 2 (day d).

Definition times_overlap (s1 e1 s2 e2 : time) : bool :=
  time_ltb s1 e2 && time_ltb s2 e1.

(* ================================================================== *)
(** ** [datetime.strptime] for the two formats the program uses *)
(* ================================================================== *)

(** [strptime] turns the format into a regular expression, matches it at the
    start of the text with backtracking, and then rejects text that is left
    over.  The alternatives of each directive are listed in the order in
    which the regular expression tries them; [None] is [ValueError]. *)
Module Strptime.

Definition dval (c : ascii) : nat := PyStr.code c - 48.

(** Two digits [a b] with [pa a] and [pb b]. *)
Definition two (pa pb : nat -> bool) (s : string) : list (nat * string) :=
  match s with
  | String a (String b r) =>
      if PyStr.is_digit a && PyStr.is_digit b && pa (dval a) && pb (dval b)
      then [((10 * dval a + dval b)%nat, r)] else []
  | _ => []
  end.

(** One digit [a] with [pa a]. *)
Definition one (pa : nat -> bool) (s : string) : list (nat * string) :=
  match s with
  | String a r => if PyStr.is_digit a && pa (dval a) then [(dval a, r)] else []
  | EmptyString => []
  end.

(** A literal character. *)
Definition lit (c : ascii) (s : string) : list string :=
  match s with
  | String a r => if PyStr.char_eqb a c then [r] else []
  | EmptyString => []
  end.

Definition any (_ : nat) : bool := true.
Definition exactly (k n : nat) : bool := (n =? k)%nat.
Definition upto (k n : nat) : bool := (n <=? k)%nat.
Definition between (lo hi n : nat) : bool := ((lo <=? n) && (n <=? hi))%nat.

(** [%H]: [2[0-3]|[0-1]\d|\d] *)
Definition dir_H (s : string) : list (nat * string) :=
  two (exactly 2) (upto 3) s ++ two (upto 1) any s ++ one any s.

(** [%M]: [[0-5]\d|\d] *)
Definition dir_M (s : string) : list (nat * string) :=
  two (upto 5) any s ++ one any s.

(** [%Y]: [\d\d\d\d] *)
Definition dir_Y (s : string) : list (nat * string) :=
  flat_map (fun '(hi, r) => map (fun '(lo, r') => ((100 * hi + lo)%nat, r'))
                                (two any any r))
           (two any any s).

(** [%m]: [1[0-2]|0[1-9]|[1-9]] *)
Definition dir_m (s : string) : list (nat * string) :=
  two (exactly 1) (upto 2) s ++ two (exactly 0) (between 1 9) s ++ one (between 1 9) s.

(** [%d]: [3[01]|[12]\d|0[1-9]|[1-9]| [1-9]] *)
Definition dir_d (s : string) : list (nat * string) :=
  two (exactly 3) (upto 1) s ++ two (between 1 2) any s
  ++ two (exactly 0) (between 1 9) s ++ one (between 1 9) s
  ++ flat_map (one (between 1 9)) (lit PyStr.space s).

(** All matches of ["%H:%M"] at the start of [s], in backtracking order. *)
Definition matches_HM (s : string) : list (nat * nat * string) :=
  flat_map (fun '(h, r1) =>
    flat_map (fun r2 => map (fun '(m, r3) => (h, m, r3)) (dir_M r2))
             (lit PyStr.colon r1))
    (dir_H s).

(** [datetime.strptime(s, "%H:%M").time()] *)
Definition time_HM (s : string) : option time :=
  match matches_HM s with
  | (h, m, EmptyString) :: _ => Some (mkTime h m)
  | _ => None
  end.

Definition is_leap (y : nat) : bool :=
  ((y mod 4 =? 0) && (negb (y mod 100 =? 0) || (y mod 400 =? 0)))%nat.

Definition days_in_month (y m : nat) : nat :=
  match m with
  | 2 => if is_leap y then 29 else 28
  | 4 | 6 | 9 | 11 => 30
  | _ => 31
  end%nat.

(** All matches of ["%Y-%m-%d"] at the start of [s], in backtracking order. *)
Definition matches_Ymd (s : string) : list (nat * nat * nat * string) :=
  flat_map (fun '(y, r1) =>
    flat_map (fun r2 =>
      flat_map (fun '(m, r3) =>
        flat_map (fun r4 => map (fun '(d, r5) => (y, m, d, r5)) (dir_d r4))
                 (lit "-"%char r3))
        (dir_m r2))
      (lit "-"%char r1))
    (dir_Y s).

(** [datetime.strptime(s, "%Y-%m-%d").date()]: the matched fields must also
    form a date ([1 <= year], and the day exists in the month). *)
Definition date_Ymd (s : string) : option date :=
  match matches_Ymd s with
  | (y, m, d, EmptyString) :: _ =>
      if ((1 <=? y) && (d <=? days_in_month y m))%nat
      then Some (mkDate y m d) else None
  | _ => None
  end.

End Strptime.

(* ================================================================== *)
(** ** [check_availability] *)
(* ================================================================== *)

(** A record of the bookings sheet as [get_all_records] gives it: header to
    cell, the cell already converted by [str(..)]. *)
Definition row : Type := Dict.t string.

(** The nested [find_key]: the first key whose lower-cased text contains one
    of [substrs]. *)
Fixpoint find_key (row_keys : list string) (substrs : list string) : option string :=
  match row_keys with
  | [] => None
  | k :: rest =>
      let klow := PyStr.lower k in
      if existsb (fun s => PyStr.contains s klow) substrs then Some k
      else find_key rest substrs
  end.

(** [not key] for the result of [find_key]: [None] and the empty string. *)
Definition falsy (key : option string) : bool :=
  match key with
  | None | Some EmptyString => true
  | Some _ => false
  end.

(** [str(row[key])] for a key taken from the row's own keys. *)
Definition cell (r : row) (key : option string) : string :=
  match key with
  | Some k => Dict.get_default r k EmptyString
  | None => EmptyString
  end.

Definition date_substrs : list string := ["дата"; "date"].
Definition start_substrs : list string := ["время начала"; "start"; "начало"].
Definition end_substrs : list string := ["время окончания"; "end"; "конец"].
Definition resources_substrs : list string := ["ресурс"; "resource"; "необходим"].

(** One iteration of [for row in bookings] up to [parse_resources]: [None]
    when the iteration ends in [continue], otherwise [row_resources]. *)
Definition row_resources (booking_date : date) (start_time end_time : time)
    (r : row) : option (Dict.t Z) :=
  let keys := Dict.keys r in
  let date_key := find_key keys date_substrs in
  let start_key := find_key keys start_substrs in
  let end_key := find_key keys end_substrs in
  let resources_key := find_key keys resources_substrs in
  if falsy date_key || falsy start_key || falsy end_key || falsy resources_key
  then None
  else
    match Strptime.date_Ymd (PyStr.strip (cell r date_key)) with
    | None => None
    | Some row_date =>
        if negb (date_eqb row_date booking_date) then None
        else
          match Strptime.time_HM (PyStr.strip (cell r start_key)),
                Strptime.time_HM (PyStr.strip (cell r end_key)) with
          | Some row_start, Some row_end =>
              if negb (times_overlap start_time end_time row_start row_end)
              then None
              else Some (parse_resources (cell r resources_key))
          | _, _ => None
          end
    end.

(** [conflicts_counts[name] = conflicts_counts.get(name, 0) + cnt] *)
Definition add_usage (conflicts_counts : Dict.t Z) (item : string * Z) : Dict.t Z :=
  let '(name, cnt) := item in
  Dict.set conflicts_counts name (Dict.get_default conflicts_counts name 0 + cnt).

Definition conflicts_step (booking_date : date) (start_time end_time : time)
    (conflicts_counts : Dict.t Z) (r : row) : Dict.t Z :=
  match row_resources booking_date start_time end_time r with
  | Some res => fold_left add_usage res conflicts_counts
  | None => conflicts_counts
  end.

(** The first loop of [check_availability]. *)
Definition conflicts_counts (bookings : list row) (booking_date : date)
    (start_time end_time : time) : Dict.t Z :=
  fold_left (conflicts_step booking_date start_time end_time) bookings Dict.empty.

(** [s.strip().lower()], with the operations of [PyStr]: Python's on text
    of ASCII and Cyrillic U+0400..U+045F characters.  ([Generic.inv_cnt]
    takes the normalisation as a parameter.) *)
Definition normalize (s : string) : string := PyStr.lower (PyStr.strip s).

(** The inner loop over [inventory.items()]: the quantity of the first entry
    whose normalized name equals the normalized [name], else the initial 0. *)
Fixpoint inv_cnt (inventory : Dict.t Z) (name : string) : Z :=
  match inventory with
  | [] => 0
  | (inv_name, inv_num) :: rest =>
      if String.eqb (normalize inv_name) (normalize name) then inv_num
      else inv_cnt rest name
  end.

Definition msg_not_found (name : string) : string :=
  "Оборудование '" ++ name ++ "' не найдено в инвентаре или его количество равно 0.".

Definition msg_shortage (booking_date : date) (start_time end_time : time)
    (free : Z) (name : string) (cnt : Z) : string :=
  "На " ++ isoformat booking_date ++ " с " ++ strftime_HM start_time
  ++ " до " ++ strftime_HM end_time ++ " свободно только " ++ PyStr.of_Z free
  ++ " шт '" ++ name ++ "', а запрошено " ++ PyStr.of_Z cnt ++ ".".

Definition msg_available : string := "Доступно".

(** The second loop of [check_availability], over [requested.items()]. *)
Fixpoint check_requested (inventory : Dict.t Z) (used_map : Dict.t Z)
    (booking_date : date) (start_time end_time : time)
    (requested : Dict.t Z) : bool * string :=
  match requested with
  | [] => (true, msg_available)
  | (name, cnt) :: rest =>
      let n := inv_cnt inventory name in
      if n =? 0 then (false, msg_not_found name)
      else
        let used := Dict.get_default used_map name 0 in
        let free := n - used in
        if free <? cnt
        then (false, msg_shortage booking_date start_time end_time free name cnt)
        else check_requested inventory used_map booking_date start_time end_time rest
  end.

(** [check_availability], with the two sheets it reads as arguments. *)
Definition check_availability (inventory : Dict.t Z) (bookings : list row)
    (booking_date : date) (start_time end_time : time)
    (requested : Dict.t Z) : bool * string :=
  check_requested inventory
    (conflicts_counts bookings booking_date start_time end_time)
    booking_date start_time end_time requested.

(* ================================================================== *)
(** ** Inline keyboards and [build_inventory_keyboard] *)
(* ================================================================== *)

Record button : Type := mkButton { text : string; callback_data : string }.

(** [InlineKeyboardMarkup(inline_keyboard=rows)] *)
Definition keyboard : Type := list (list button).

Definition PAGE_SIZE : Z := 10.

(** [math.ceil(a / b)] for integers, as exact ceiling division.  (Python
    divides in floating point, which is exact for catalog sizes far beyond
    any sheet; [b = 0] raises there and no caller passes it.) *)
Definition ceil_div (a b : Z) : Z := - ((- a) / b).

(** [enumerate(l)] *)
Definition enumerate {A : Type} (l : list A) : list (nat * A) :=
  combine (seq 0 (length l)) l.

(** [range(a, b)] *)
Definition range (a b : Z) : list Z :=
  map (fun i => a + Z.of_nat i) (seq 0 (Z.to_nat (b - a))).

(** [f"i{idx}"] *)
Definition item_key (idx : nat) : string := "i" ++ PyStr.of_nat idx.

Definition total_pages_of (total page_size : Z) : Z :=
  Z.max 1 (ceil_div total page_size).

(** [max(0, min(page, total_pages - 1))] *)
Definition clamp_page (page total_pages : Z) : Z :=
  Z.max 0 (Z.min page (total_pages - 1)).

(** The loop [for idx, (name, _) in enumerate(items): callback_map[f"i{idx}"] = name] *)
Definition build_callback_map (items : list (string * Z)) : Dict.t string :=
  fold_left (fun cm '(idx, (name, _)) => Dict.set cm (item_key idx) name)
            (enumerate items) Dict.empty.

Definition item_button (items : list (string * Z)) (idx : Z) : list button :=
  let '(name, cnt) := nth (Z.to_nat idx) items (EmptyString, 0) in
  [mkButton (name ++ " (" ++ PyStr.of_Z cnt ++ ")")
            ("select:" ++ item_key (Z.to_nat idx))].

Definition nav_row (page total_pages : Z) : list (list button) :=
  if 1 <? total_pages then
    [ ((if 0 <? page
        then [mkButton "◀️" ("page:" ++ PyStr.of_Z (page - 1))] else [])
       ++ [mkButton (PyStr.of_Z (page + 1) ++ "/" ++ PyStr.of_Z total_pages)
                    ("page:" ++ PyStr.of_Z page)]
       ++ (if page <? total_pages - 1
           then [mkButton "▶️" ("page:" ++ PyStr.of_Z (page + 1))] else []))%list ]
  else [].

(** [build_inventory_keyboard(inventory, page, page_size)]; every caller
    leaves [page_size] at its default [PAGE_SIZE]. *)
Definition build_inventory_keyboard (inventory : Dict.t Z) (page : Z)
    (page_size : Z) : keyboard * Dict.t string * Z :=
  let items := inventory in
  let total := Z.of_nat (length items) in
  let total_pages := total_pages_of total page_size in
  let page := clamp_page page total_pages in
  let callback_map := build_callback_map items in
  let start := page * page_size in
  let end_ := start + page_size in
  let rows := map (item_button items) (range start (Z.min end_ total)) in
  let rows := (rows ++
    [[mkButton "Просмотреть корзину" "view_cart";
      mkButton "Завершить выбор" "finish_selection"]])%list in
  let rows := (rows ++ [[mkButton "Ввести вручную (текст)" "manual_input"]])%list in
  let rows := (rows ++ nav_row page total_pages)%list in
  (rows, callback_map, total_pages).

(* ================================================================== *)
(** ** The booking dialogue: FSM context and handlers *)
(* ================================================================== *)

Inductive BookingStates : Type :=
| waiting_for_date
| waiting_for_start
| waiting_for_end
| waiting_for_name
| waiting_for_resources
| waiting_for_manager
| confirm.

(** The value stored under ['temp_select']. *)
Record temp_selection : Type :=
  mkTemp { ts_key : string; ts_name : string; ts_count : Z }.

(** The FSM data dictionary; a field is [None] while its key is absent. *)
Record session_data : Type := mkData {
  d_booking_date : option string;
  d_start_time : option string;
  d_end_time : option string;
  d_employee_name : option string;
  d_resources : option string;
  d_requested_parsed : option (Dict.t Z);
  d_manager_name : option string;
  d_cart : option (Dict.t Z);
  d_callback_map : option (Dict.t string);
  d_cart_map : option (Dict.t string);
  d_inv_page : option Z;
  d_temp_select : option temp_selection
}.

Definition no_data : session_data :=
  mkData None None None None None None None None None None None None.

(** [FSMContext]: the current state ([None] once cleared) and the data. *)
Record fsm : Type := mkFsm { state : option BookingStates; data : session_data }.

(** [state.clear()] *)
Definition cleared : fsm := mkFsm None no_data.

Definition set_callback_map (cm : Dict.t string) (page : option Z)
    (d : session_data) : session_data :=
  mkData (d_booking_date d) (d_start_time d) (d_end_time d) (d_employee_name d)
         (d_resources d) (d_requested_parsed d) (d_manager_name d) (d_cart d)
         (Some cm) (d_cart_map d)
         (match page with Some p => Some p | None => d_inv_page d end)
         (d_temp_select d).

Definition set_temp_select (t : temp_selection) (d : session_data) : session_data :=
  mkData (d_booking_date d) (d_start_time d) (d_end_time d) (d_employee_name d)
         (d_resources d) (d_requested_parsed d) (d_manager_name d) (d_cart d)
         (d_callback_map d) (d_cart_map d) (d_inv_page d) (Some t).

Definition set_cart (c : Dict.t Z) (d : session_data) : session_data :=
  mkData (d_booking_date d) (d_start_time d) (d_end_time d) (d_employee_name d)
         (d_resources d) (d_requested_parsed d) (d_manager_name d) (Some c)
         (d_callback_map d) (d_cart_map d) (d_inv_page d) (d_temp_select d).

Definition set_cart_map (cm : Dict.t string) (d : session_data) : session_data :=
  mkData (d_booking_date d) (d_start_time d) (d_end_time d) (d_employee_name d)
         (d_resources d) (d_requested_parsed d) (d_manager_name d) (d_cart d)
         (d_callback_map d) (Some cm) (d_inv_page d) (d_temp_select d).

Definition set_manager_name (m : string) (d : session_data) : session_data :=
  mkData (d_booking_date d) (d_start_time d) (d_end_time d) (d_employee_name d)
         (d_resources d) (d_requested_parsed d) (Some m) (d_cart d)
         (d_callback_map d) (d_cart_map d) (d_inv_page d) (d_temp_select d).

Definition with_data (f : session_data -> session_data) (ctx : fsm) : fsm :=
  mkFsm (state ctx) (f (data ctx)).

(** [data.get(key, {})] for a dictionary-valued key. *)
Definition or_empty {V : Type} (o : option (Dict.t V)) : Dict.t V :=
  match o with
  | Some d => d
  | None => Dict.empty
  end.

(** What a handler sends: [message.answer(text, reply_markup=kb)] and
    [call.answer()]. *)
Inductive action : Type :=
| Answer (msg : string) (reply_markup : option keyboard)
| CallAnswer.

Definition nl : string := String PyStr.newline EmptyString.

(** The quantity keyboard of [select_equipment] and [qty_handler]. *)
Definition qty_keyboard (key : string) (count : Z) : keyboard :=
  [ [mkButton "➖" ("qty:" ++ key ++ ":dec");
     mkButton (PyStr.of_Z count) ("qty:" ++ key ++ ":noop");
     mkButton "➕" ("qty:" ++ key ++ ":inc")];
    [mkButton "Добавить в корзину" ("qty:" ++ key ++ ":add");
     mkButton "Отмена" "qty:cancel"] ].

Definition msg_stale_select : string :=
  "Эта кнопка устарела. Обновляю список — выберите снова:".

(** [callback_map.get(key)] followed by [if not name]: [None] when the key
    is missing or bound to the empty string. *)
Definition lookup_name (m : Dict.t string) (key : string) : option string :=
  match Dict.get m key with
  | Some (String c s) => Some (String c s)
  | _ => None
  end.

(** [select_equipment], registered for callback data starting with
    ["select:"].  [None] is the [IndexError] of [split(':', 1)[1]] on data
    without a colon, which the filter excludes. *)
Definition select_equipment (inventory : Dict.t Z) (call_data : string)
    (ctx : fsm) : option (fsm * list action) :=
  match PyStr.split_first PyStr.colon call_data with
  | None => None
  | Some (_, key) =>
      let callback_map := or_empty (d_callback_map (data ctx)) in
      match lookup_name callback_map key with
      | None =>
          let '(kb, cmap, _) := build_inventory_keyboard inventory 0 PAGE_SIZE in
          Some (with_data (set_callback_map cmap (Some 0)) ctx,
                [Answer msg_stale_select (Some kb); CallAnswer])
      | Some name =>
          let max_cnt := Dict.get_default inventory name 0 in
          Some (with_data (set_temp_select (mkTemp key name 1)) ctx,
                [Answer ("Выбрано: " ++ name ++ nl ++ "Доступно: "
                         ++ PyStr.of_Z max_cnt ++ nl ++ "Количество: 1")
                        (Some (qty_keyboard key 1));
                 CallAnswer])
      end
  end.

(** [f"c{idx}"] *)
Definition cart_key (idx : nat) : string := "c" ++ PyStr.of_nat idx.

(** The rendering of a non-empty cart, written out three times in the
    source (in [view_cart] and twice in [cart_actions]): the text, the
    keyboard and the map from cart keys to names. *)
Definition render_cart (cart : Dict.t Z) : string * keyboard * Dict.t string :=
  let text_lines :=
    "Ваша корзина:" ::
    map (fun '(idx, (name, qty)) =>
           PyStr.of_nat (idx + 1) ++ ". " ++ name ++ ": " ++ PyStr.of_Z qty)
        (enumerate cart) in
  let cart_map :=
    fold_left (fun cm '(idx, (name, _)) => Dict.set cm (cart_key idx) name)
              (enumerate cart) Dict.empty in
  let rows :=
    map (fun '(idx, _) =>
           [mkButton ("−1 (" ++ PyStr.of_nat (idx + 1) ++ ")")
                     ("cart:dec:" ++ cart_key idx);
            mkButton "Удалить" ("cart:remove:" ++ cart_key idx)])
        (enumerate cart) in
  let rows := (rows ++ [[mkButton "Очистить корзину" "cart:clear";
                         mkButton "Закрыть" "cart:close"]])%list in
  (PyStr.join nl text_lines, rows, cart_map).

Definition msg_cart_empty : string := "Корзина пуста.".

(** [view_cart], registered for the callback data ["view_cart"]. *)
Definition view_cart (ctx : fsm) : fsm * list action :=
  let cart := or_empty (d_cart (data ctx)) in
  if Dict.is_empty cart then (ctx, [Answer msg_cart_empty None; CallAnswer])
  else
    let '(txt, kb, cart_map) := render_cart cart in
    (with_data (set_cart_map cart_map) ctx, [Answer txt (Some kb); CallAnswer]).

Definition msg_stale_cart : string :=
  "Кнопка устарела — откройте корзину ещё раз.".

(** The end of the [dec] and [remove] branches: read the cart back and show
    it again, or say that it is empty. *)
Definition show_cart_again (ctx : fsm) (sent : list action) : fsm * list action :=
  let cart2 := or_empty (d_cart (data ctx)) in
  if Dict.is_empty cart2 then (ctx, (sent ++ [Answer msg_cart_empty None])%list)
  else
    let '(txt, kb, new_cart_map) := render_cart cart2 in
    (with_data (set_cart_map new_cart_map) ctx,
     (sent ++ [Answer txt (Some kb)])%list).

(** [cart_actions], registered for callback data starting with ["cart:"]. *)
Definition cart_actions (inventory : Dict.t Z) (call_data : string)
    (ctx : fsm) : fsm * list action :=
  match PyStr.split PyStr.colon call_data with
  | _ :: act :: rest =>
      let cart := or_empty (d_cart (data ctx)) in
      let cart_map := or_empty (d_cart_map (data ctx)) in
      if String.eqb act "clear" then
        (with_data (set_cart Dict.empty) ctx,
         [Answer "Корзина очищена." None; CallAnswer])
      else if String.eqb act "close" then
        let page := match d_inv_page (data ctx) with Some p => p | None => 0 end in
        let '(kb, cmap, _) := build_inventory_keyboard inventory page PAGE_SIZE in
        (with_data (set_callback_map cmap None) ctx,
         [Answer "Выберите ещё или завершите выбор:" (Some kb); CallAnswer])
      else if String.eqb act "dec" || String.eqb act "remove" then
        match rest with
        | [key] =>
            match lookup_name cart_map key with
            | None => (ctx, [Answer msg_stale_cart None; CallAnswer])
            | Some name =>
                if String.eqb act "dec" then
                  let current := Dict.get_default cart name 0 in
                  if current <=? 1 then
                    show_cart_again
                      (with_data (set_cart (Dict.pop cart name)) ctx)
                      [Answer ("Позиция '" ++ name ++ "' удалена из корзины.") None;
                       CallAnswer]
                  else
                    show_cart_again
                      (with_data (set_cart (Dict.set cart name (current - 1))) ctx)
                      [Answer ("Уменьшено: " ++ name ++ " на 1. Теперь: "
                               ++ PyStr.of_Z (current - 1)) None;
                       CallAnswer]
                else
                  if Dict.mem cart name then
                    show_cart_again
                      (with_data (set_cart (Dict.pop cart name)) ctx)
                      [Answer ("Позиция '" ++ name
                               ++ "' полностью удалена из корзины.") None;
                       CallAnswer]
                  else
                    show_cart_again ctx
                      [Answer "Позиция уже отсутствует в корзине." None;
                       CallAnswer]
            end
        | _ => (ctx, [CallAnswer])
        end
      else (ctx, [CallAnswer])
  | _ => (ctx, [CallAnswer])
  end.

(* ================================================================== *)
(** ** The spreadsheet and the confirmation handlers *)
(* ================================================================== *)

(** The two sheets as the program sees them: the inventory as
    [get_inventory] returns it, and the bookings sheet as its header row and
    its data rows, first data row first.  A cell is the text that
    [str(row[key])] gives for it. *)
Record sheets : Type := mkSheets {
  inventory_sheet : Dict.t Z;
  bookings_headers : list string;
  bookings_rows : list (list string)
}.

(** [dict(zip(headers, values))] *)
Definition to_record (headers values : list string) : row :=
  fold_left (fun d '(k, v) => Dict.set d k v) (combine headers values) Dict.empty.

(** [get_inventory()] *)
Definition get_inventory (w : sheets) : Dict.t Z := inventory_sheet w.

(** [get_bookings()]: one record per data row, header to cell.  The cells
    are taken as the text that [get_all_records] hands over.  That function
    belongs to the spreadsheet library, not to the program: it turns a cell
    that reads as a number into that number (['007'] is handed over as 7)
    and raises on the sheets it does not accept. *)
Definition get_bookings (w : sheets) : list row :=
  map (to_record (bookings_headers w)) (bookings_rows w).

(** [append_booking_row(row)]: [insert_row(row, index=2)] puts the row right
    under the header row. *)
Definition append_booking_row (new_row : list string) (w : sheets) : sheets :=
  mkSheets (inventory_sheet w) (bookings_headers w) (new_row :: bookings_rows w).

(** The request stored in the FSM data, as the three handlers that call
    [check_availability] read it; [None] is a [KeyError] or [ValueError]. *)
Definition stored_request (d : session_data)
    : option (date * time * time * Dict.t Z) :=
  match d_booking_date d, d_start_time d, d_end_time d with
  | Some bd, Some st, Some et =>
      match Strptime.date_Ymd bd, Strptime.time_HM st, Strptime.time_HM et with
      | Some booking_date, Some start_time, Some end_time =>
          Some (booking_date, start_time, end_time,
                or_empty (d_requested_parsed d))
      | _, _, _ => None
      end
  | _, _, _ => None
  end.

(** The list [row] written on success; [None] is a [KeyError]. *)
Definition booking_row (d : session_data) : option (list string) :=
  match d_booking_date d, d_employee_name d, d_resources d,
        d_start_time d, d_end_time d, d_manager_name d with
  | Some bd, Some en, Some rs, Some st, Some et, Some mn =>
      Some [bd; en; rs; st; et; mn]
  | _, _, _, _, _, _ => None
  end.

Definition msg_cancelled : string := "Бронирование отменено.".
Definition msg_impossible (msg : string) : string :=
  "К сожалению, бронирование невозможно: " ++ msg.
Definition msg_written : string := "Бронирование успешно записано в таблицу.".
Definition msg_confirm_hint : string :=
  "Нажмите кнопку 'Подтвердить' или 'Отмена' внизу, или напишите 'да'/'отмена'.".

(** The part shared by [confirm_handler] (any action but ["cancel"]) and by
    [process_confirm_text] (an affirmative word): check again, then write.
    [ack] is the trailing [call.answer()] of the button handler. *)
Definition confirm_yes (w : sheets) (ctx : fsm) (ack : list action)
    : option (sheets * fsm * list action) :=
  match stored_request (data ctx) with
  | None => None
  | Some (booking_date, start_time, end_time, requested) =>
      let '(ok, msg) :=
        check_availability (get_inventory w) (get_bookings w)
                           booking_date start_time end_time requested in
      if negb ok then
        Some (w, cleared, (Answer (msg_impossible msg) None :: ack))
      else
        match booking_row (data ctx) with
        | None => None
        | Some new_row =>
            Some (append_booking_row new_row w, cleared,
                  (Answer msg_written None :: ack))
        end
  end.

(** [confirm_handler], registered for callback data starting with
    ["confirm:"].  [None] is an exception raised before anything is sent or
    written. *)
Definition confirm_handler (w : sheets) (call_data : string) (ctx : fsm)
    : option (sheets * fsm * list action) :=
  match PyStr.split_first PyStr.colon call_data with
  | None => None
  | Some (_, act) =>
      if String.eqb act "cancel" then
        Some (w, cleared, [Answer msg_cancelled None; CallAnswer])
      else confirm_yes w ctx [CallAnswer]
  end.

Definition negative_words : list string := ["отмена"; "cancel"; "нет"; "no"].
Definition affirmative_words : list string := ["да"; "ok"; "yes"].

Definition word_in (txt : string) (words : list string) : bool :=
  existsb (String.eqb txt) words.

(** [process_confirm_text], registered for messages in state [confirm]. *)
Definition process_confirm_text (w : sheets) (message_text : string) (ctx : fsm)
    : option (sheets * fsm * list action) :=
  let txt := PyStr.lower (PyStr.strip message_text) in
  if word_in txt negative_words then
    Some (w, cleared, [Answer msg_cancelled None])
  else if word_in txt affirmative_words then confirm_yes w ctx []
  else Some (w, ctx, [Answer msg_confirm_hint None]).

Definition confirm_keyboard : keyboard :=
  [ [mkButton "Подтвердить ✅" "confirm:yes";
     mkButton "Отмена ❌" "confirm:cancel"] ].

Definition get_or_empty (o : option string) : string :=
  match o with
  | Some s => s
  | None => EmptyString
  end.

(** [process_manager], registered for messages in state
    [waiting_for_manager]: the first availability check, before the summary
    is shown and the state becomes [confirm].  The second component is
    [None] when the handler raises ([KeyError], [ValueError]); that can only
    happen after [manager_name] was stored. *)
Definition process_manager (w : sheets) (message_text : string) (ctx : fsm)
    : fsm * option (list action) :=
  let txt := PyStr.strip message_text in
  match txt with
  | EmptyString => (ctx, Some [Answer "Укажите имя руководителя проекта." None])
  | _ =>
      let d := set_manager_name txt (data ctx) in
      let stored := mkFsm (state ctx) d in
      match stored_request d with
      | None => (stored, None)
      | Some (booking_date, start_time, end_time, requested) =>
          let '(ok, msg) :=
            check_availability (get_inventory w) (get_bookings w)
                               booking_date start_time end_time requested in
          if negb ok then (cleared, Some [Answer (msg_impossible msg) None])
          else
            match d_employee_name d with
            | None => (stored, None)
            | Some employee =>
                let summary :=
                  "Подтвердите бронирование:" ++ nl
                  ++ "Дата: " ++ isoformat booking_date ++ nl
                  ++ "Время: " ++ strftime_HM start_time ++ " - "
                  ++ strftime_HM end_time ++ nl
                  ++ "Сотрудник(-и): " ++ employee ++ nl
                  ++ "Ресурсы: " ++ get_or_empty (d_resources d) ++ nl
                  ++ "Руководитель проекта: " ++ txt ++ nl ++ nl in
                (mkFsm (Some confirm) d,
                 Some [Answer summary (Some confirm_keyboard)])
            end
      end
  end.

(* ================================================================== *)
(** ** Notions used to state the properties *)
(* ================================================================== *)



(** *** Ledger records *)





(** *** Chunks of a resources text *)

Definition is_separator (c : ascii) : bool :=
  PyStr.char_eqb c PyStr.semicolon || PyStr.char_eqb c PyStr.comma
  || PyStr.char_eqb c PyStr.newline.

(** The pieces of [s] between characters satisfying [p]. *)
Fixpoint split_on (p : ascii -> bool) (s : string) : list string :=
  match s with
  | EmptyString => [EmptyString]
  | String c s' =>
      if p c then EmptyString :: split_on p s'
      else match split_on p s' with
           | h :: t => String c h :: t
           | [] => [String c EmptyString]
           end
  end.

(** The chunks of a text: its pieces between [;], [,] and newlines. *)
Definition chunks (text : string) : list string := split_on is_separator text.

(** The entries contributed by a list of chunks, in order. *)
Definition entries (cs : list string) : list (string * Z) :=
  flat_map (fun c => match parse_chunk c with Some e => [e] | None => [] end) cs.

(** The value of the last entry named [name], if any. *)
Definition last_binding (name : string) (es : list (string * Z)) : option Z :=
  fold_left (fun acc '(k, v) => if String.eqb k name then Some v else acc) es None.

(** Characters other than ASCII whitespace. *)
Definition nonspace (c : ascii) : bool := negb (PyStr.is_space c).

Fixpoint any_char (p : ascii -> bool) (s : string) : bool :=
  match s with
  | EmptyString => false
  | String c s' => p c || any_char p s'
  end.

(** The text has a character that is neither a separator nor ASCII
    whitespace. *)
Definition has_content (text : string) : bool :=
  any_char (fun c => negb (is_separator c || PyStr.is_space c)) text.

(** The quantity rule of the specification read literally: the text after
    the last whitespace character of the chunk (any whitespace, not only the
    space), when that text is purely numeric. *)
Fixpoint cut_at_last_whitespace (s : string) : option (string * string) :=
  match s with
  | EmptyString => None
  | String c s' =>
      match cut_at_last_whitespace s' with
      | Some (a, b) => Some (String c a, b)
      | None => if PyStr.is_space c then Some (EmptyString, s') else None
      end
  end.

Definition spec_chunk_entry (chunk : string) : string * Z :=
  if PyStr.contains_char PyStr.colon chunk then
    match PyStr.split_first PyStr.colon chunk with
    | Some (name, cnt) => (PyStr.strip name, count_of cnt)
    | None => (chunk, 1)
    end
  else
    match cut_at_last_whitespace chunk with
    | Some (name, tok) =>
        if PyStr.isdigit tok then (PyStr.strip name, count_of tok) else (chunk, 1)
    | None => (chunk, 1)
    end.

(** *** Sessions *)

(** Names of the cart in iteration order. *)
Definition cart_names (ctx : fsm) : list string :=
  Dict.keys (or_empty (d_cart (data ctx))).

(** *** Sample data for the worked scenarios *)

Module Sample.

(** The header row the program writes its columns for ([BOOKING_COLUMNS]). *)
Definition headers : list string :=
  ["Дата проведения работ"; "Имя и фамилия сотрудника(-ков)";
   "Необходимые ресурсы"; "Время начала работ"; "Время окончания работ";
   "Имя руководителя проекта"].

Definition day : date := mkDate 2026 3 10.

(** A lab with two oscilloscopes and one booking of both, 09:00-10:00. *)
Definition inventory : Dict.t Z := [("Oscilloscope", 2)].

Definition booked_row : list string :=
  ["2026-03-10"; "Ann"; "Oscilloscope:2"; "09:00"; "10:00"; "Bob"].

Definition ledger : list row := [to_record headers booked_row].


(** A chunk whose quantity is set off by a TAB instead of a space. *)
Definition tab_chunk : string := "Oscilloscope" ++ String "009" "2".

(** A catalog of 23 items, [item0] .. [item22], one unit each. *)
Definition catalog23 : Dict.t Z :=
  map (fun i => ("item" ++ PyStr.of_nat i, 1)) (seq 0 23).

(** A session in the resource-selection step with two cart entries. *)
Definition shopping : fsm :=
  mkFsm (Some waiting_for_resources)
        (set_cart [("Laptop", 1); ("Oscilloscope", 1)] no_data).

(** The same session after the cart was opened, and after the first entry
    was then decremented away through the button [cart:dec:c0]. *)
Definition cart_shown : fsm := fst (view_cart shopping).
Definition cart_after_dec : fsm :=
  fst (cart_actions inventory "cart:dec:c0" cart_shown).

(** A session that has just been shown the confirmation summary for both
    oscilloscopes on [day], 09:00-10:00. *)
Definition confirming : fsm :=
  mkFsm (Some confirm)
        (mkData (Some "2026-03-10") (Some "09:00") (Some "10:00") (Some "Ann")
                (Some "Oscilloscope:2") (Some [("Oscilloscope", 2)])
                (Some "Bob") None None None None None).

(** The sheets before and after another session books both oscilloscopes. *)
Definition sheets_free : sheets := mkSheets inventory headers [].
Definition sheets_taken : sheets :=
  mkSheets inventory headers [["2026-03-10"; "Eve"; "Oscilloscope:2";
                               "09:30"; "10:30"; "Dan"]].






End Sample.

(* ================================================================== *)
(** ** The rest of the dialogue: inventory sheet, steps and quantity picker *)
(* ================================================================== *)


(** *** [get_inventory]: reading the inventory sheet *)

Definition is_name_header (h : string) : bool :=
  PyStr.contains "наимен" h || PyStr.contains "назв" h || PyStr.contains "name" h.

Definition is_count_header (h : string) : bool :=
  PyStr.contains "кол" h || PyStr.contains "count" h
  || PyStr.contains "количество" h.

(** One of the two assignments of the loop over [enumerate(headers)]: the
    index of the last header satisfying [p], [None] when there is none. *)
Definition find_col (p : string -> bool) (headers : list string) : option nat :=
  fold_left (fun col '(i, h) => if p h then Some i else col)
            (enumerate headers) None.

(** One iteration of [for row in values[1:]]. *)
Definition inventory_step (name_col count_col : nat) (inventory : Dict.t Z)
    (r : list string) : Dict.t Z :=
  if (length r <=? Nat.max name_col count_col)%nat then inventory
  else
    let name := PyStr.strip (nth name_col r EmptyString) in
    let count_raw := PyStr.strip (nth count_col r EmptyString) in
    match name with
    | EmptyString => inventory
    | _ =>
        let count := match PyStr.int count_raw with
                     | Some z => z
                     | None => 0
                     end in
        Dict.set inventory name count
    end.

(** The body of [_read] in [get_inventory], from [values =
    w.get_all_values()] on. *)
Definition read_inventory (values : list (list string)) : Dict.t Z :=
  match values with
  | header :: first_row :: more_rows =>
      let headers := map (fun h => PyStr.lower (PyStr.strip h)) header in
      match find_col is_name_header headers,
            find_col is_count_header headers with
      | Some name_col, Some count_col =>
          fold_left (inventory_step name_col count_col)
                    (first_row :: more_rows) Dict.empty
      | _, _ => Dict.empty
      end
  | _ => Dict.empty
  end.

(** *** Setters for the remaining FSM data keys *)

Definition set_booking_date (v : string) (d : session_data) : session_data :=
  mkData (Some v) (d_start_time d) (d_end_time d) (d_employee_name d)
         (d_resources d) (d_requested_parsed d) (d_manager_name d) (d_cart d)
         (d_callback_map d) (d_cart_map d) (d_inv_page d) (d_temp_select d).

Definition set_start_time (v : string) (d : session_data) : session_data :=
  mkData (d_booking_date d) (Some v) (d_end_time d) (d_employee_name d)
         (d_resources d) (d_requested_parsed d) (d_manager_name d) (d_cart d)
         (d_callback_map d) (d_cart_map d) (d_inv_page d) (d_temp_select d).

Definition set_end_time (v : string) (d : session_data) : session_data :=
  mkData (d_booking_date d) (d_start_time d) (Some v) (d_employee_name d)
         (d_resources d) (d_requested_parsed d) (d_manager_name d) (d_cart d)
         (d_callback_map d) (d_cart_map d) (d_inv_page d) (d_temp_select d).

Definition set_employee_name (v : string) (d : session_data) : session_data :=
  mkData (d_booking_date d) (d_start_time d) (d_end_time d) (Some v)
         (d_resources d) (d_requested_parsed d) (d_manager_name d) (d_cart d)
         (d_callback_map d) (d_cart_map d) (d_inv_page d) (d_temp_select d).

(** [update_data(resources=.., requested_parsed=..)] *)
Definition set_resources (txt : string) (requested : Dict.t Z)
    (d : session_data) : session_data :=
  mkData (d_booking_date d) (d_start_time d) (d_end_time d) (d_employee_name d)
         (Some txt) (Some requested) (d_manager_name d) (d_cart d)
         (d_callback_map d) (d_cart_map d) (d_inv_page d) (d_temp_select d).

Definition set_state (s : BookingStates) (ctx : fsm) : fsm :=
  mkFsm (Some s) (data ctx).

(** *** The steps before the resource selection *)

(** [cmd_book] *)
Definition cmd_book (ctx : fsm) : fsm * list action :=
  (set_state waiting_for_date cleared,
   [Answer ("Начинаем бронирование." ++ nl
            ++ "Введите дату работ в формате YYYY-MM-DD (например 2026-03-10):")
           None]).

(** [process_date], registered for messages in state [waiting_for_date]. *)
Definition process_date (message_text : string) (ctx : fsm) : fsm * list action :=
  let txt := PyStr.strip message_text in
  match Strptime.date_Ymd txt with
  | None => (ctx, [Answer "Неправильный формат даты. Введите YYYY-MM-DD." None])
  | Some dt =>
      (set_state waiting_for_start
                 (with_data (set_booking_date (isoformat dt)) ctx),
       [Answer "Введите время начала в формате HH:MM (например 09:00):" None])
  end.

(** [process_start], registered for messages in state [waiting_for_start]. *)
Definition process_start (message_text : string) (ctx : fsm) : fsm * list action :=
  let txt := PyStr.strip message_text in
  match Strptime.time_HM txt with
  | None => (ctx, [Answer "Неправильный формат времени. Введите HH:MM." None])
  | Some t =>
      (set_state waiting_for_end
                 (with_data (set_start_time (strftime_HM t)) ctx),
       [Answer "Введите время окончания в формате HH:MM (например 12:30):" None])
  end.

(** [process_end], registered for messages in state [waiting_for_end].
    [None] is the [KeyError] or [ValueError] of reading the stored start
    time, raised before anything is stored. *)
Definition process_end (message_text : string) (ctx : fsm)
    : option (fsm * list action) :=
  let txt := PyStr.strip message_text in
  match Strptime.time_HM txt with
  | None =>
      Some (ctx, [Answer "Неправильный формат времени. Введите HH:MM." None])
  | Some t =>
      match d_start_time (data ctx) with
      | None => None
      | Some stored =>
          match Strptime.time_HM stored with
          | None => None
          | Some start =>
              if time_leb t start then
                Some (ctx, [Answer "Время окончания должно быть позже времени начала."
                                   None])
              else
                Some (set_state waiting_for_name
                                (with_data (set_end_time (strftime_HM t)) ctx),
                      [Answer "Введите имя и фамилию сотрудника(-ков), кто будет работать:"
                              None])
          end
      end
  end.

(** [update_data(cart={}, callback_map=cmap, inv_page=0)] *)
Definition start_selection (cmap : Dict.t string) (d : session_data) : session_data :=
  mkData (d_booking_date d) (d_start_time d) (d_end_time d) (d_employee_name d)
         (d_resources d) (d_requested_parsed d) (d_manager_name d)
         (Some Dict.empty) (Some cmap) (d_cart_map d) (Some 0) (d_temp_select d).

(** [process_name], registered for messages in state [waiting_for_name]. *)
Definition process_name (inventory : Dict.t Z) (message_text : string)
    (ctx : fsm) : fsm * list action :=
  let txt := PyStr.strip message_text in
  match txt with
  | EmptyString => (ctx, [Answer "Напишите имя и фамилию." None])
  | _ =>
      let '(kb, cmap, _) := build_inventory_keyboard inventory 0 PAGE_SIZE in
      (set_state waiting_for_resources
         (with_data (start_selection cmap)
                    (with_data (set_employee_name txt) ctx)),
       [Answer "Выберите необходимые ресурсы через кнопки. Можно добавлять несколько позиций."
               (Some kb)])
  end.

(** *** The quantity picker and the page buttons *)

(** What these two handlers send: the usual actions, and the two
    [try: edit.. except: answer..] pairs, each recorded as one action
    because either way the user sees the same text and keyboard. *)
Inductive ui_action : Type :=
| Do (a : action)
| EditTextOrAnswer (msg : string) (kb : keyboard)
| EditMarkupOrAnswer (fallback_msg : string) (kb : keyboard).

Definition msg_stale_qty : string :=
  "Кнопка устарела. Обновляю список — выберите снова:".

(** [temp.get('count', 1)] when the stored selection is for [key], else 1. *)
Definition picked_count (tmp : option temp_selection) (key : string) : Z :=
  match tmp with
  | Some t => if String.eqb (ts_key t) key then ts_count t else 1
  | None => 1
  end.

(** [qty_handler], registered for callback data starting with ["qty:"]. *)
Definition qty_handler (inventory : Dict.t Z) (call_data : string)
    (ctx : fsm) : fsm * list ui_action :=
  match PyStr.split PyStr.colon call_data with
  | _ :: p1 :: rest =>
      if String.eqb p1 "cancel" then
        let '(kb, cmap, _) := build_inventory_keyboard inventory 0 PAGE_SIZE in
        (with_data (set_callback_map cmap (Some 0)) ctx,
         [Do (Answer "Выбор отменён." None); Do CallAnswer;
          Do (Answer "Выберите ещё:" (Some kb))])
      else
        match rest with
        | [act] =>
            let key := p1 in
            let callback_map := or_empty (d_callback_map (data ctx)) in
            match lookup_name callback_map key with
            | None =>
                let '(kb, cmap, _) := build_inventory_keyboard inventory 0 PAGE_SIZE in
                (with_data (set_callback_map cmap (Some 0)) ctx,
                 [Do (Answer msg_stale_qty (Some kb)); Do CallAnswer])
            | Some name =>
                let count := picked_count (d_temp_select (data ctx)) key in
                let max_cnt := Dict.get_default inventory name 0 in
                if String.eqb act "add" then
                  let cart := or_empty (d_cart (data ctx)) in
                  let cart := Dict.set cart name (Dict.get_default cart name 0 + count) in
                  let page := match d_inv_page (data ctx) with
                              | Some p => p
                              | None => 0
                              end in
                  let '(kb, cmap, _) :=
                    build_inventory_keyboard inventory page PAGE_SIZE in
                  (with_data (set_callback_map cmap None)
                             (with_data (set_cart cart) ctx),
                   [Do (Answer ("Добавлено: " ++ PyStr.of_Z count ++ " x " ++ name
                                ++ " в корзину.") None);
                    Do CallAnswer;
                    Do (Answer "Выберите ещё или завершите выбор:" (Some kb))])
                else
                  let count :=
                    if String.eqb act "inc" then
                      (if count <? max_cnt then count + 1 else count)
                    else if String.eqb act "dec" then
                      (if 1 <? count then count - 1 else count)
                    else count in
                  (with_data (set_temp_select (mkTemp key name count)) ctx,
                   [EditTextOrAnswer
                      ("Выбрано: " ++ name ++ nl ++ "Доступно: "
                       ++ PyStr.of_Z max_cnt ++ nl ++ "Количество: "
                       ++ PyStr.of_Z count)
                      (qty_keyboard key count);
                    Do CallAnswer])
            end
        | _ => (ctx, [Do CallAnswer])
        end
  | _ => (ctx, [Do CallAnswer])
  end.

(** [page_handler], registered for callback data starting with ["page:"]. *)
Definition page_handler (inventory : Dict.t Z) (call_data : string)
    (ctx : fsm) : fsm * list ui_action :=
  match PyStr.split_first PyStr.colon call_data with
  | None => (ctx, [Do CallAnswer])
  | Some (_, p) =>
      match PyStr.int p with
      | None => (ctx, [Do CallAnswer])
      | Some page =>
          let '(kb, cmap, _) := build_inventory_keyboard inventory page PAGE_SIZE in
          (with_data (set_callback_map cmap (Some page)) ctx,
           [EditMarkupOrAnswer "Обновляю список:" kb; Do CallAnswer])
      end
  end.

(** *** Leaving the resource selection *)

(** [manual_input], registered for the callback data ["manual_input"]. *)
Definition manual_input (ctx : fsm) : fsm * list action :=
  (with_data (set_cart Dict.empty) ctx,
   [Answer ("Введите необходимые ресурсы текстом в формате:" ++ nl
            ++ "Oscilloscope:2; Laptop:1" ++ nl
            ++ "(или как раньше — без чисел считается 1)") None;
    CallAnswer]).

(** ['; '.join([f"{k}:{v}" for k, v in cart.items()])] *)
Definition resources_text (cart : Dict.t Z) : string :=
  PyStr.join "; " (map (fun '(k, v) => k ++ ":" ++ PyStr.of_Z v) cart).

(** [finish_selection], registered for the callback data
    ["finish_selection"]. *)
Definition finish_selection (ctx : fsm) : fsm * list action :=
  let cart := or_empty (d_cart (data ctx)) in
  if Dict.is_empty cart then
    (ctx, [Answer "Корзина пуста — выберите хотя бы один ресурс или введите вручную."
                  None;
           CallAnswer])
  else
    let txt := resources_text cart in
    (set_state waiting_for_manager (with_data (set_resources txt cart) ctx),
     [Answer ("Вы выбрали:" ++ nl ++ txt ++ nl ++ nl
              ++ "Введите имя руководителя проекта:") None;
      CallAnswer]).

(** [process_resources], registered for messages in state
    [waiting_for_resources]. *)
Definition process_resources (message_text : string) (ctx : fsm)
    : fsm * list action :=
  let txt := PyStr.strip message_text in
  match txt with
  | EmptyString => (ctx, [Answer "Нужно указать хотя бы один ресурс." None])
  | _ =>
      (set_state waiting_for_manager
                 (with_data (set_resources txt (parse_resources txt)) ctx),
       [Answer "Введите имя руководителя проекта:" None])
  end.

(* ================================================================== *)
(** ** Further notions used to state properties *)
(* ================================================================== *)

(** A date as [datetime.date] can hold it. *)
Definition valid_date (d : date) : Prop :=
  1 <= Z.of_nat (year d) <= 9999
  /\ (1 <= month d <= 12)%nat
  /\ (1 <= day d <= Strptime.days_in_month (year d) (month d))%nat.

(** The month and day part of the matches of ["%Y-%m-%d"]. *)
Definition matches_md (s : string) : list (nat * nat * string) :=
  flat_map (fun '(m, r3) =>
    flat_map (fun r4 => map (fun '(d, r5) => (m, d, r5)) (Strptime.dir_d r4))
             (Strptime.lit "-"%char r3))
    (Strptime.dir_m s).

(** Checks run once over all hours and minutes, all four-digit years, and
    all month and day numbers. *)
Definition time_roundtrip_ok (h m : nat) : bool :=
  match Strptime.matches_HM (strftime_HM (mkTime h m)) with
  | (h', m', EmptyString) :: _ => ((h' =? h) && (m' =? m))%nat
  | _ => false
  end.

Definition year_roundtrip_ok (y : nat) : bool :=
  match PyStr.pad 4 y with
  | String _ (String _ (String _ (String _ EmptyString))) =>
      match Strptime.dir_Y (PyStr.pad 4 y) with
      | [(y', EmptyString)] => (y' =? y)%nat
      | _ => false
      end
  | _ => false
  end.

Definition month_day_roundtrip_ok (m d : nat) : bool :=
  match matches_md (PyStr.pad 2 m ++ "-" ++ PyStr.pad 2 d) with
  | (m', d', EmptyString) :: _ => ((m' =? m) && (d' =? d))%nat
  | _ => false
  end.

(** A resource name that survives being written as [name:qty] and parsed
    again: trimmed, and free of separators and colons. *)
Definition plain_name (k : string) : Prop :=
  PyStr.strip k = k
  /\ any_char is_separator k = false
  /\ PyStr.contains_char PyStr.colon k = false.

(** A dictionary as Python holds it (no key twice) whose names are plain. *)
Definition plain_cart (cart : Dict.t Z) : Prop :=
  NoDup (Dict.keys cart) /\ Forall plain_name (Dict.keys cart).

(** The state of a resource selection is sound: the cart holds no name
    twice and only quantities of at least 1, a quantity being picked is at
    least 1, and a stored request is non-empty with quantities of at least
    1. *)
Definition cart_sound (ctx : fsm) : Prop :=
  NoDup (Dict.keys (or_empty (d_cart (data ctx))))
  /\ Forall (fun item => 1 <= snd item) (or_empty (d_cart (data ctx)))
  /\ (forall t, d_temp_select (data ctx) = Some t -> 1 <= ts_count t)
  /\ (forall r, d_requested_parsed (data ctx) = Some r ->
                r <> [] /\ Forall (fun item => 1 <= snd item) r).

(** One button press during the resource selection, whatever the callback
    data and whatever the inventory sheet holds at that moment. *)
Inductive button_step : fsm -> fsm -> Prop :=
| press_select inventory call_data ctx ctx' sent :
    select_equipment inventory call_data ctx = Some (ctx', sent) ->
    button_step ctx ctx'
| press_qty inventory call_data ctx :
    button_step ctx (fst (qty_handler inventory call_data ctx))
| press_page inventory call_data ctx :
    button_step ctx (fst (page_handler inventory call_data ctx))
| press_view_cart ctx :
    button_step ctx (fst (view_cart ctx))
| press_cart inventory call_data ctx :
    button_step ctx (fst (cart_actions inventory call_data ctx))
| press_manual_input ctx :
    button_step ctx (fst (manual_input ctx))
| press_finish ctx :
    button_step ctx (fst (finish_selection ctx)).

(** Any number of button presses. *)
Inductive button_steps : fsm -> fsm -> Prop :=
| no_press ctx : button_steps ctx ctx
| more_presses ctx ctx' ctx'' :
    button_steps ctx ctx' -> button_step ctx' ctx'' -> button_steps ctx ctx''.



(** A session in the quantity picker: the key [i0] stands for
    "Oscilloscope", of which the cart already holds two, and the picked
    count is 2. *)
Definition picking : fsm :=
  mkFsm (Some waiting_for_resources)
        (set_temp_select (mkTemp "i0" "Oscilloscope" 2)
           (set_callback_map [("i0", "Oscilloscope")] None
              (set_cart [("Oscilloscope", 2)] no_data))).


(* ================================================================== *)
(** ** The library calls as parameters *)
(* ================================================================== *)

(** [parse_resources] and the second loop of [check_availability] once more,
    with the calls they make into Python's string library taken as
    parameters.  Module [PyStr] models [str.strip], [str.isdigit], [int] and
    [str.lower] on ASCII (and [str.lower] on the Cyrillic capitals); Python's
    own operations also know the other Unicode whitespace, digits and
    letters.  What is proved of the definitions below is proved for every
    choice of these operations, hence for Python's own, and the definitions
    above are their instances at the operations of [PyStr].  Everything else
    (cutting at [;], [,], newline, [:] and the space character, the
    dictionary, the arithmetic) is as above: these are single ASCII bytes,
    which in UTF-8 occur only as themselves. *)
Module Generic.

Section Parser.

(** [s.strip()], [s.isdigit()] and [int(s)] ([None] for [ValueError]). *)
Variable strip : string -> string.
Variable isdigit : string -> bool.
Variable int : string -> option Z.

(** [try: cnt_i = int(cnt.strip()) except: cnt_i = 1] *)
Definition count_of (cnt : string) : Z :=
  match int (strip cnt) with
  | Some z => z
  | None => 1
  end.

(** The pair [(name, cnt)] chosen for a stripped, non-empty chunk. *)
Definition split_chunk (chunk : string) : string * string :=
  if PyStr.contains_char PyStr.colon chunk then
    match PyStr.split_first PyStr.colon chunk with
    | Some (name, cnt) => (name, cnt)
    | None => (chunk, "1")
    end
  else
    match PyStr.rsplit_last PyStr.space (strip chunk) with
    | Some (t0, t1) => if isdigit t1 then (t0, t1) else (chunk, "1")
    | None => (chunk, "1")
    end.

(** One iteration of the loop over chunks: [None] is [continue], otherwise
    the key and value of the assignment [res[name.strip()] = cnt_i]. *)
Definition parse_chunk (chunk : string) : option (string * Z) :=
  let chunk := strip chunk in
  match chunk with
  | EmptyString => None
  | _ =>
      let '(name, cnt) := split_chunk chunk in
      Some (strip name, count_of cnt)
  end.

Definition parse_step (res : Dict.t Z) (chunk : string) : Dict.t Z :=
  match parse_chunk chunk with
  | Some (name, cnt_i) => Dict.set res name cnt_i
  | None => res
  end.

Definition parse_resources (text : string) : Dict.t Z :=
  fold_left parse_step
            (PyStr.split PyStr.semicolon (normalize_separators text))
            Dict.empty.

(** The entries contributed by a list of chunks, in order. *)
Definition entries (cs : list string) : list (string * Z) :=
  flat_map (fun c => match parse_chunk c with Some e => [e] | None => [] end) cs.

End Parser.

Section Matching.

(** [s.strip().lower()] *)
Variable norm : string -> string.

(** The inner loop over [inventory.items()]: the quantity of the first entry
    with [inv_name.strip().lower() == name.strip().lower()], else the
    initial 0. *)
Fixpoint inv_cnt (inventory : Dict.t Z) (name : string) : Z :=
  match inventory with
  | [] => 0
  | (inv_name, inv_num) :: rest =>
      if String.eqb (norm inv_name) (norm name) then inv_num
      else inv_cnt rest name
  end.

(** The second loop of [check_availability], over [requested.items()];
    [used_map] is [conflicts_counts] as the first loop left it. *)
Fixpoint check_requested (inventory : Dict.t Z) (used_map : Dict.t Z)
    (booking_date : date) (start_time end_time : time)
    (requested : Dict.t Z) : bool * string :=
  match requested with
  | [] => (true, msg_available)
  | (name, cnt) :: rest =>
      let n := inv_cnt inventory name in
      if n =? 0 then (false, msg_not_found name)
      else
        let used := Dict.get_default used_map name 0 in
        let free := n - used in
        if free <? cnt
        then (false, msg_shortage booking_date start_time end_time free name cnt)
        else check_requested inventory used_map booking_date start_time end_time rest
  end.

(** [name] resolves to the quantity [q]: [q] belongs to the first inventory
    entry whose trimmed, lower-cased name equals that of [name]. *)
Definition resolves (inventory : Dict.t Z) (name : string) (q : Z) : Prop :=
  exists before inv_name after,
    inventory = (before ++ (inv_name, q) :: after)%list
    /\ norm inv_name = norm name
    /\ Forall (fun entry => norm (fst entry) <> norm name) before.

(** [name] is not found, or is found with quantity 0. *)
Definition unavailable (inventory : Dict.t Z) (name : string) : Prop :=
  forall q, resolves inventory name q -> q = 0.

(** The request for [cnt] of [name] passes: the name resolves to a non-zero
    quantity of which, after the [used] ones, at least [cnt] are free. *)
Definition passes (inventory used : Dict.t Z) (item : string * Z) : Prop :=
  exists q, resolves inventory (fst item) q /\ q <> 0
            /\ snd item <= q - Dict.get_default used (fst item) 0.

End Matching.

End Generic.

(* ================================================================== *)
(** ** Facts about dictionaries *)
(* ================================================================== *)

Module DictFacts.

Section Lookup.
Context {V : Type}.
Implicit Types (d : Dict.t V) (k : string) (v : V).

Lemma get_set_same d k v : Dict.get (Dict.set d k v) k = Some v.
Proof.
  induction d as [|[k' v'] d IH]; simpl.
  - now rewrite String.eqb_refl.
  - destruct (String.eqb k' k) eqn:E; simpl; rewrite E; auto.
Qed.

Lemma get_set_other d k k' v :
  k <> k' -> Dict.get (Dict.set d k v) k' = Dict.get d k'.
Proof.
  intros Hne. induction d as [|[k0 v0] d IH]; simpl.
  - destruct (String.eqb k k') eqn:E; auto.
    apply String.eqb_eq in E. contradiction.
  - destruct (String.eqb k0 k) eqn:E; simpl.
    + apply String.eqb_eq in E. subst k0.
      destruct (String.eqb k k') eqn:E'; auto.
      apply String.eqb_eq in E'. contradiction.
    + now rewrite IH.
Qed.

Lemma set_not_empty d k v : Dict.set d k v <> [].
Proof. destruct d as [|[k' v'] d]; simpl; [|destruct (String.eqb k' k)]; discriminate. Qed.

Lemma get_none_not_in d k : Dict.get d k = None <-> ~ In k (Dict.keys d).
Proof.
  induction d as [|[k' v'] d IH]; simpl.
  - tauto.
  - destruct (String.eqb k' k) eqn:E.
    + apply String.eqb_eq in E. split; [discriminate | intros H; exfalso; auto].
    + apply String.eqb_neq in E. rewrite IH. tauto.
Qed.

Lemma keys_set d k v :
  Dict.keys (Dict.set d k v)
  = if Dict.mem d k then Dict.keys d else (Dict.keys d ++ [k])%list.
Proof.
  unfold Dict.mem. induction d as [|[k' v'] d IH]; simpl; auto.
  destruct (String.eqb k' k) eqn:E; simpl; auto.
  rewrite IH. now destruct (Dict.get d k).
Qed.

Lemma set_keeps_nodup d k v :
  NoDup (Dict.keys d) -> NoDup (Dict.keys (Dict.set d k v)).
Proof.
  intros Hd. rewrite keys_set. unfold Dict.mem.
  destruct (Dict.get d k) eqn:E; auto.
  apply get_none_not_in in E.
  apply NoDup_app; auto.
  - constructor; [intros [] | constructor].
  - intros x Hx [Hk|[]]. subst. contradiction.
Qed.

(** The first entry of a dictionary with a given key is the only one. *)
Lemma get_in_nodup d k v :
  NoDup (Dict.keys d) -> In (k, v) d -> Dict.get d k = Some v.
Proof.
  induction d as [|[k' v'] d IH]; simpl; intros Hnd Hin; [contradiction|].
  inversion Hnd as [|? ? Hnotin Hnd']; subst.
  destruct Hin as [Heq|Hin].
  - inversion Heq; subst. now rewrite String.eqb_refl.
  - destruct (String.eqb k' k) eqn:E.
    + apply String.eqb_eq in E. subst k'. exfalso. apply Hnotin.
      change k with (fst (k, v)). now apply in_map.
    + auto.
Qed.

Lemma get_some_in d k v : Dict.get d k = Some v -> In (k, v) d.
Proof.
  induction d as [|[k' v'] d IH]; simpl; [discriminate|].
  destruct (String.eqb k' k) eqn:E.
  - apply String.eqb_eq in E. intros H; inversion H; subst. now left.
  - intros H. right. auto.
Qed.

End Lookup.

End DictFacts.

(* ================================================================== *)
(** ** Half-open overlap (claim C3) *)
(* ================================================================== *)

Lemma time_ltb_minutes (a b : time) :
  valid_time a -> valid_time b ->
  (time_ltb a b = true <-> minutes_of a < minutes_of b).
Proof.
  intros [_ Ha] [_ Hb]. unfold time_ltb, minutes_of.
  rewrite orb_true_iff, andb_true_iff.
  rewrite !Nat.ltb_lt, Nat.eqb_eq. lia.
Qed.

(** C3.  [times_overlap s1 e1 s2 e2] is true exactly when [s1 < e2] and
    [s2 < e1] as times of day (half-open intervals): 09:00-10:00 and
    10:00-11:00, which only touch, do not overlap, and 09:00-10:30 and
    10:00-11:00 do. *)
Theorem times_overlap_half_open (s1 e1 s2 e2 : time) :
  valid_time s1 -> valid_time e1 -> valid_time s2 -> valid_time e2 ->
  (times_overlap s1 e1 s2 e2 = true
   <-> minutes_of s1 < minutes_of e2 /\ minutes_of s2 < minutes_of e1)
  /\ times_overlap (mkTime 9 0) (mkTime 10 0) (mkTime 10 0) (mkTime 11 0) = false
  /\ times_overlap (mkTime 9 0) (mkTime 10 30) (mkTime 10 0) (mkTime 11 0) = true.
Proof.
  intros H1 H2 H3 H4. split; [|split; reflexivity].
  unfold times_overlap. rewrite andb_true_iff.
  now rewrite (time_ltb_minutes s1 e2), (time_ltb_minutes s2 e1).
Qed.

Lemma valid_time_intro (h m : nat) :
  (h <? 24)%nat = true -> (m <? 60)%nat = true -> valid_time (mkTime h m).
Proof. intros Hh Hm. split; simpl; now apply Nat.ltb_lt. Qed.

Lemma times_overlap_half_open_witness :
  (times_overlap (mkTime 9 0) (mkTime 10 30) (mkTime 10 0) (mkTime 11 0) = true
   <-> minutes_of (mkTime 9 0) < minutes_of (mkTime 11 0)
       /\ minutes_of (mkTime 10 0) < minutes_of (mkTime 10 30))
  /\ times_overlap (mkTime 9 0) (mkTime 10 0) (mkTime 10 0) (mkTime 11 0) = false
  /\ times_overlap (mkTime 9 0) (mkTime 10 30) (mkTime 10 0) (mkTime 11 0) = true.
Proof.
  apply (times_overlap_half_open (mkTime 9 0) (mkTime 10 30) (mkTime 10 0) (mkTime 11 0));
    apply valid_time_intro; reflexivity.
Defined.

(* ================================================================== *)
(** ** Accumulated usage (claim C1) *)
(* ================================================================== *)









Lemma parse_step_nodup (res : Dict.t Z) (chunk : string) :
  NoDup (Dict.keys res) -> NoDup (Dict.keys (parse_step res chunk)).
Proof.
  intros H. unfold parse_step.
  destruct (parse_chunk chunk) as [[n c]|]; auto.
  now apply DictFacts.set_keeps_nodup.
Qed.

Lemma parse_resources_nodup (text : string) :
  NoDup (Dict.keys (parse_resources text)).
Proof.
  unfold parse_resources.
  generalize (PyStr.split PyStr.semicolon (normalize_separators text)).
  intros cs.
  assert (G : forall acc : Dict.t Z, NoDup (Dict.keys acc) ->
              NoDup (Dict.keys (fold_left parse_step cs acc))).
  { induction cs as [|c cs IH]; simpl; auto.
    intros acc Hacc. apply IH. now apply parse_step_nodup. }
  apply G. constructor.
Qed.




(* ================================================================== *)
(** ** First failure wins (claim C2) *)
(* ================================================================== *)

Section SecondLoop.

Variable norm : string -> string.

Lemma inv_cnt_resolves (inventory : Dict.t Z) (name : string) (q : Z) :
  Generic.resolves norm inventory name q -> Generic.inv_cnt norm inventory name = q.
Proof.
  intros (before & inv_name & after & -> & Hmatch & Hbefore).
  induction before as [|[n0 q0] before IH]; simpl.
  - rewrite Hmatch. now rewrite String.eqb_refl.
  - inversion Hbefore as [|? ? Hne Hrest]; subst. simpl in Hne.
    apply String.eqb_neq in Hne. rewrite Hne. auto.
Qed.

Lemma inv_cnt_cases (inventory : Dict.t Z) (name : string) :
  Generic.resolves norm inventory name (Generic.inv_cnt norm inventory name)
  \/ (Generic.inv_cnt norm inventory name = 0
      /\ forall q, ~ Generic.resolves norm inventory name q).
Proof.
  induction inventory as [|[n0 q0] inventory IH]; simpl.
  - right. split; [reflexivity|].
    intros q (before & inv_name & after & Heq & _).
    destruct before; discriminate.
  - destruct (String.eqb (norm n0) (norm name)) eqn:E.
    + left. apply String.eqb_eq in E.
      exists [], n0, inventory. repeat split; auto.
    + apply String.eqb_neq in E.
      destruct IH as [(before & inv_name & after & Heq & Hm & Hb)|[Hz Hno]].
      * left. exists ((n0, q0) :: before), inv_name, after.
        split; [|split].
        -- simpl. now rewrite <- Heq.
        -- assumption.
        -- constructor; auto.
      * right. split; [assumption|].
        intros q (before & inv_name & after & Heq & Hm & Hb).
        destruct before as [|b0 before]; simpl in Heq; inversion Heq; subst.
        -- contradiction.
        -- inversion Hb; subst. apply (Hno q).
           exists before, inv_name, after. auto.
Qed.

Lemma unavailable_inv_cnt (inventory : Dict.t Z) (name : string) :
  Generic.unavailable norm inventory name -> Generic.inv_cnt norm inventory name = 0.
Proof.
  intros Hun. destruct (inv_cnt_cases inventory name) as [Hres|[Hz _]]; auto.
Qed.

Lemma check_requested_skips_passing
    (inventory used : Dict.t Z) (d : date) (s e : time)
    (before rest : Dict.t Z) :
  Forall (Generic.passes norm inventory used) before ->
  Generic.check_requested norm inventory used d s e (before ++ rest)%list
  = Generic.check_requested norm inventory used d s e rest.
Proof.
  induction 1 as [|[name cnt] before (q & Hres & Hq & Hfree) _ IH]; simpl; auto.
  simpl in Hres, Hfree. rewrite (inv_cnt_resolves _ _ _ Hres).
  destruct (Z.eqb_spec q 0) as [|_]; [contradiction|].
  destruct (Z.ltb_spec (q - Dict.get_default used name 0) cnt); [lia|].
  exact IH.
Qed.

End SecondLoop.

(** The loops above are the instances at [normalize]. *)
Lemma inv_cnt_instance (inventory : Dict.t Z) (name : string) :
  Generic.inv_cnt normalize inventory name = inv_cnt inventory name.
Proof. induction inventory as [|[n q] inventory IH]; simpl; now rewrite ?IH. Qed.

Lemma check_requested_instance
    (inventory used : Dict.t Z) (d : date) (s e : time) (requested : Dict.t Z) :
  Generic.check_requested normalize inventory used d s e requested
  = check_requested inventory used d s e requested.
Proof.
  induction requested as [|[name cnt] requested IH]; simpl; [reflexivity|].
  now rewrite inv_cnt_instance, IH.
Qed.

Lemma prefix_app (p s : string) : PyStr.prefix p (p ++ s) = true.
Proof.
  induction p as [|c p IH]; simpl; auto.
  unfold PyStr.char_eqb. now rewrite Ascii.eqb_refl.
Qed.

Lemma contains_app (a p b : string) : PyStr.contains p (a ++ p ++ b) = true.
Proof.
  induction a as [|c a IH].
  - cbn [append]. pose proof (prefix_app p b) as H.
    destruct (p ++ b); cbn [PyStr.contains]; now rewrite H.
  - cbn [append PyStr.contains]. rewrite IH. apply orb_true_r.
Qed.

Lemma append_assoc (a b c : string) : (a ++ b) ++ c = a ++ (b ++ c).
Proof. induction a as [|x a IH]; simpl; congruence. Qed.

(** The shortage message names the resource, the window, the free count and
    the requested count; the not-found message names the resource. *)
Lemma reasons_name_their_cause (d : date) (s e : time) (free cnt : Z) (name : string) :
  let m := msg_shortage d s e free name cnt in
  PyStr.contains name m = true
  /\ PyStr.contains (isoformat d) m = true
  /\ PyStr.contains (strftime_HM s) m = true
  /\ PyStr.contains (strftime_HM e) m = true
  /\ PyStr.contains (PyStr.of_Z free) m = true
  /\ PyStr.contains (PyStr.of_Z cnt) m = true
  /\ PyStr.contains name (msg_not_found name) = true.
Proof.
  unfold msg_shortage, msg_not_found.
  repeat split.
  - set (pre := "На " ++ isoformat d ++ " с " ++ strftime_HM s ++ " до "
                ++ strftime_HM e ++ " свободно только " ++ PyStr.of_Z free
                ++ " шт '").
    replace (_ ++ _) with (pre ++ name ++ "', а запрошено " ++ PyStr.of_Z cnt ++ ".").
    + apply contains_app.
    + unfold pre. now rewrite !append_assoc.
  - apply (contains_app "На ").
  - replace (_ ++ _) with (("На " ++ isoformat d ++ " с ") ++ strftime_HM s
       ++ " до " ++ strftime_HM e ++ " свободно только " ++ PyStr.of_Z free
       ++ " шт '" ++ name ++ "', а запрошено " ++ PyStr.of_Z cnt ++ ".").
    + apply contains_app.
    + now rewrite !append_assoc.
  - replace (_ ++ _) with (("На " ++ isoformat d ++ " с " ++ strftime_HM s
       ++ " до ") ++ strftime_HM e ++ " свободно только " ++ PyStr.of_Z free
       ++ " шт '" ++ name ++ "', а запрошено " ++ PyStr.of_Z cnt ++ ".").
    + apply contains_app.
    + now rewrite !append_assoc.
  - replace (_ ++ _) with (("На " ++ isoformat d ++ " с " ++ strftime_HM s
       ++ " до " ++ strftime_HM e ++ " свободно только ") ++ PyStr.of_Z free
       ++ " шт '" ++ name ++ "', а запрошено " ++ PyStr.of_Z cnt ++ ".").
    + apply contains_app.
    + now rewrite !append_assoc.
  - replace (_ ++ _) with (("На " ++ isoformat d ++ " с " ++ strftime_HM s
       ++ " до " ++ strftime_HM e ++ " свободно только " ++ PyStr.of_Z free
       ++ " шт '" ++ name ++ "', а запрошено ") ++ PyStr.of_Z cnt ++ ".").
    + apply contains_app.
    + now rewrite !append_assoc.
  - apply (contains_app "Оборудование '").
Qed.

(** C2.  The second loop of [check_availability] examines the requested
    resources in the caller's order and stops at the first failure, whatever
    usage map the first loop left.  With every earlier request passing: a
    name that does not resolve against the inventory (equal after
    [s.strip().lower()], taken here as the parameter [norm]) or resolves to
    quantity 0 is rejected with the not-found reason; a name with fewer free
    units than requested is rejected with a reason naming the resource, the
    window, the free count and the requested count; the requests after it
    play no part; and when every request passes the answer is Ok. *)
Theorem first_failure_wins
    (norm : string -> string)
    (inventory used : Dict.t Z) (d : date) (s e : time)
    (before : Dict.t Z) (name : string) (cnt : Z) (after : Dict.t Z) :
  Forall (Generic.passes norm inventory used) before ->
  (Generic.unavailable norm inventory name ->
   Generic.check_requested norm inventory used d s e
     (before ++ (name, cnt) :: after)%list
   = (false, msg_not_found name))
  /\ (forall q,
        Generic.resolves norm inventory name q -> q <> 0 ->
        q - Dict.get_default used name 0 < cnt ->
        Generic.check_requested norm inventory used d s e
          (before ++ (name, cnt) :: after)%list
        = (false, msg_shortage d s e (q - Dict.get_default used name 0) name cnt)
        /\ PyStr.contains name
             (msg_shortage d s e (q - Dict.get_default used name 0) name cnt) = true
        /\ PyStr.contains (isoformat d)
             (msg_shortage d s e (q - Dict.get_default used name 0) name cnt) = true
        /\ PyStr.contains (strftime_HM s)
             (msg_shortage d s e (q - Dict.get_default used name 0) name cnt) = true
        /\ PyStr.contains (strftime_HM e)
             (msg_shortage d s e (q - Dict.get_default used name 0) name cnt) = true
        /\ PyStr.contains (PyStr.of_Z (q - Dict.get_default used name 0))
             (msg_shortage d s e (q - Dict.get_default used name 0) name cnt) = true
        /\ PyStr.contains (PyStr.of_Z cnt)
             (msg_shortage d s e (q - Dict.get_default used name 0) name cnt) = true)
  /\ Generic.check_requested norm inventory used d s e before = (true, msg_available)
  /\ PyStr.contains name (msg_not_found name) = true.
Proof.
  intros Hbefore.
  split; [|split; [|split]].
  - intros Hun. rewrite check_requested_skips_passing by assumption.
    simpl. now rewrite (unavailable_inv_cnt _ _ _ Hun).
  - intros q Hres Hq Hshort. split.
    + rewrite check_requested_skips_passing by assumption.
      simpl. rewrite (inv_cnt_resolves _ _ _ _ Hres).
      destruct (Z.eqb_spec q 0) as [|_]; [contradiction|].
      destruct (Z.ltb_spec (q - Dict.get_default used name 0) cnt); [|lia].
      reflexivity.
    + pose proof (reasons_name_their_cause d s e
                    (q - Dict.get_default used name 0) cnt name) as H.
      cbv zeta in H. tauto.
  - rewrite <- (app_nil_r before).
    now rewrite check_requested_skips_passing.
  - pose proof (reasons_name_their_cause d s e 0 cnt name) as H.
    cbv zeta in H. tauto.
Qed.

Lemma first_failure_wins_witness :
  Generic.check_requested normalize Sample.inventory
    (conflicts_counts Sample.ledger Sample.day (mkTime 9 30) (mkTime 10 30))
    Sample.day (mkTime 9 30) (mkTime 10 30)
    [("oscilloscope ", 0); ("Oscilloscope", 1); ("Laptop", 1)]
  = (false, "На 2026-03-10 с 09:30 до 10:30 свободно только 0 шт 'Oscilloscope', а запрошено 1.").
Proof.
  refine (proj1 (proj1 (proj2
    (first_failure_wins normalize Sample.inventory
       (conflicts_counts Sample.ledger Sample.day (mkTime 9 30) (mkTime 10 30))
       Sample.day (mkTime 9 30) (mkTime 10 30)
       [("oscilloscope ", 0)] "Oscilloscope" 1 [("Laptop", 1)] _)) 2 _ _ _)).
  - constructor; [|constructor].
    exists 2. split; [|split; [lia | vm_compute; discriminate]].
    exists [], "Oscilloscope", []. split; [reflexivity|].
    split; [reflexivity | constructor].
  - exists [], "Oscilloscope", []. split; [reflexivity|].
    split; [reflexivity | constructor].
  - lia.
  - vm_compute. reflexivity.
Defined.

(* ================================================================== *)
(** ** Pagination and the catalog key map (claim C6) *)
(* ================================================================== *)

Lemma ceil_div_bounds (a b : Z) :
  0 < b -> a <= ceil_div a b * b /\ (ceil_div a b - 1) * b < a.
Proof.
  intros Hb. unfold ceil_div.
  pose proof (Z.div_mod (- a) b ltac:(lia)) as Hdm.
  pose proof (Z.mod_pos_bound (- a) b Hb) as Hr.
  nia.
Qed.

Lemma total_pages_bounds (total page_size : Z) :
  0 < page_size ->
  let tp := total_pages_of total page_size in
  1 <= tp /\ total <= tp * page_size /\ (1 < tp -> (tp - 1) * page_size < total).
Proof.
  intros Hp tp. unfold tp, total_pages_of.
  destruct (ceil_div_bounds total page_size Hp) as [Hup Hlow].
  destruct (Z.max_spec 1 (ceil_div total page_size)) as [[Hlt ->]|[Hge ->]];
    nia.
Qed.

Lemma clamp_page_range (page total_pages : Z) :
  1 <= total_pages ->
  0 <= clamp_page page total_pages <= total_pages - 1
  /\ (0 <= page <= total_pages - 1 -> clamp_page page total_pages = page)
  /\ (page < 0 -> clamp_page page total_pages = 0)
  /\ (total_pages - 1 < page -> clamp_page page total_pages = total_pages - 1).
Proof. unfold clamp_page. lia. Qed.

Lemma clamp_page_idempotent (page total_pages : Z) :
  1 <= total_pages ->
  clamp_page (clamp_page page total_pages) total_pages
  = clamp_page page total_pages.
Proof. unfold clamp_page. lia. Qed.

Lemma to_uint_nonnil (n : nat) : Nat.to_uint n <> Nil.
Proof.
  rewrite <- (Unsigned.of_to n) at 1. rewrite Unsigned.to_of.
  apply DecimalFacts.unorm_nonnil.
Qed.

Lemma of_nat_inj (a b : nat) : PyStr.of_nat a = PyStr.of_nat b -> a = b.
Proof.
  unfold PyStr.of_nat. intros H.
  apply (f_equal NilZero.uint_of_string) in H.
  rewrite !NilZero.usu in H by apply to_uint_nonnil.
  inversion H as [H']. now apply Unsigned.to_uint_inj.
Qed.

Lemma item_key_inj (a b : nat) : item_key a = item_key b -> a = b.
Proof. unfold item_key. simpl. intros H. inversion H. now apply of_nat_inj. Qed.

(** Keys made from indices: the result of binding [key i] to the name of the
    [i]-th item, for the items numbered from [a]. *)
Lemma get_indexed_fold (key : nat -> string)
      (Hinj : forall a b, key a = key b -> a = b)
      (items : list (string * Z)) :
  forall (a : nat) (acc : Dict.t string) (i : nat),
    Dict.get
      (fold_left (fun cm '(idx, (name, _)) => Dict.set cm (key idx) name)
                 (combine (seq a (length items)) items) acc)
      (key i)
    = match (if (a <=? i)%nat then nth_error items (i - a) else None) with
      | Some (name, _) => Some name
      | None => Dict.get acc (key i)
      end.
Proof.
  induction items as [|[name0 q0] items IH]; intros a acc i.
  - simpl. destruct (a <=? i)%nat; [destruct (i - a)%nat|]; reflexivity.
  - cbn [length seq combine fold_left]. rewrite IH.
    destruct (Nat.leb_spec (S a) i) as [Hlt|Hge].
    + destruct (Nat.leb_spec a i) as [_|]; [|lia].
      replace (i - a)%nat with (S (i - S a)) by lia. cbn [nth_error].
      destruct (nth_error items (i - S a)) as [[n q]|]; [reflexivity|].
      apply DictFacts.get_set_other. intros Hk. apply Hinj in Hk. lia.
    + destruct (Nat.leb_spec a i) as [Hle|Hlt].
      * assert (i = a) by lia. subst i.
        rewrite Nat.sub_diag. cbn [nth_error].
        apply DictFacts.get_set_same.
      * apply DictFacts.get_set_other. intros Hk. apply Hinj in Hk. lia.
Qed.

Lemma callback_map_spans_catalog (items : list (string * Z)) (idx : nat)
      (name : string) (qty : Z) :
  nth_error items idx = Some (name, qty) ->
  Dict.get (build_callback_map items) (item_key idx) = Some name.
Proof.
  intros Hnth. unfold build_callback_map, enumerate.
  rewrite (get_indexed_fold item_key item_key_inj).
  cbn [Nat.leb]. rewrite Nat.sub_0_r, Hnth. reflexivity.
Qed.

(** C6.  [build_inventory_keyboard] cuts the catalog into pages of a fixed
    size, with [max(1, ceil(total / page_size))] pages (3 pages for 23 items
    of page size 10); it renders the requested page clamped into
    [[0, total_pages - 1]]; and the key map it returns binds the key of every
    catalog item, whatever page is rendered. *)
Theorem pagination_and_full_key_map
    (inventory : Dict.t Z) (page page_size : Z) :
  0 < page_size ->
  let total := Z.of_nat (length inventory) in
  let shown := clamp_page page (total_pages_of total page_size) in
  let '(kb, callback_map, total_pages) :=
    build_inventory_keyboard inventory page page_size in
  (1 <= total_pages /\ total <= total_pages * page_size
   /\ (1 < total_pages -> (total_pages - 1) * page_size < total))
  /\ (total = 23 -> page_size = 10 -> total_pages = 3)
  /\ (0 <= shown <= total_pages - 1
      /\ (0 <= page <= total_pages - 1 -> shown = page)
      /\ (page < 0 -> shown = 0)
      /\ (total_pages - 1 < page -> shown = total_pages - 1))
  /\ firstn (Z.to_nat (Z.min (shown * page_size + page_size) total
                       - shown * page_size)) kb
     = map (item_button inventory)
           (range (shown * page_size)
                  (Z.min (shown * page_size + page_size) total))
  /\ build_inventory_keyboard inventory shown page_size
     = (kb, callback_map, total_pages)
  /\ (forall idx name qty,
        nth_error inventory idx = Some (name, qty) ->
        Dict.get callback_map (item_key idx) = Some name).
Proof.
  intros Hps total shown. unfold build_inventory_keyboard.
  fold total. fold shown.
  pose proof (total_pages_bounds total page_size Hps) as Htp.
  cbv zeta in Htp.
  split; [exact Htp|]. split.
  { intros H23 H10. rewrite H23, H10. reflexivity. }
  split; [apply clamp_page_range; tauto|]. split.
  { rewrite <- !app_assoc.
    set (visible := map _ (range _ _)).
    assert (Hlen : length visible
                   = Z.to_nat (Z.min (shown * page_size + page_size) total
                               - shown * page_size)).
    { unfold visible, range. now rewrite !length_map, length_seq. }
    rewrite <- Hlen. rewrite firstn_app, Nat.sub_diag, firstn_all.
    simpl. now rewrite app_nil_r. }
  split.
  { assert (Hidem : clamp_page shown (total_pages_of total page_size) = shown)
      by (apply clamp_page_idempotent; tauto).
    rewrite Hidem. reflexivity. }
  intros idx name qty. apply callback_map_spans_catalog.
Qed.

Lemma pagination_and_full_key_map_witness :
  let '(kb, callback_map, total_pages) :=
    build_inventory_keyboard Sample.catalog23 0 PAGE_SIZE in
  total_pages = 3 /\ Dict.get callback_map "i15" = Some "item15"
  /\ length kb = 13%nat.
Proof.
  pose proof (pagination_and_full_key_map Sample.catalog23 0 10 ltac:(lia)) as H.
  cbv zeta in H. unfold PAGE_SIZE.
  destruct (build_inventory_keyboard Sample.catalog23 0 10)
    as [[kb callback_map] total_pages] eqn:E.
  destruct H as (_ & H23 & _ & _ & _ & Hkeys).
  split; [apply H23; reflexivity|].
  split; [apply (Hkeys 15%nat "item15" 1); reflexivity|].
  inversion E. reflexivity.
Defined.

(* ================================================================== *)
(** ** Facts about the string operations *)
(* ================================================================== *)

Module StrFacts.
Import PyStr.

Lemma rstrip_cons_nonspace (c : ascii) (s : string) :
  is_space c = false -> rstrip (String c s) = String c (rstrip s).
Proof. intros Hc. simpl. rewrite Hc. now destruct (rstrip s). Qed.

Lemma lstrip_idem (s : string) : lstrip (lstrip s) = lstrip s.
Proof.
  induction s as [|c s IH]; simpl; auto.
  destruct (is_space c) eqn:E; auto. simpl. now rewrite E.
Qed.

Lemma rstrip_idem (s : string) : rstrip (rstrip s) = rstrip s.
Proof.
  induction s as [|c s IH]; simpl; auto.
  destruct (rstrip s) as [|c' r] eqn:E.
  - destruct (is_space c) eqn:Ec; simpl; auto. now rewrite Ec.
  - cbn [rstrip] in *. cbn [rstrip]. rewrite IH. reflexivity.
Qed.

Lemma lstrip_rstrip (s : string) : lstrip (rstrip s) = rstrip (lstrip s).
Proof.
  induction s as [|c s IH]; auto.
  destruct (is_space c) eqn:Ec.
  - cbn [lstrip]. rewrite Ec, <- IH. cbn [rstrip].
    destruct (rstrip s) as [|c' r].
    + rewrite Ec. reflexivity.
    + cbn [lstrip]. rewrite Ec. reflexivity.
  - cbn [lstrip]. rewrite Ec. rewrite (rstrip_cons_nonspace c s Ec).
    simpl. now rewrite Ec.
Qed.

Lemma strip_idem (s : string) : strip (strip s) = strip s.
Proof.
  unfold strip. now rewrite lstrip_rstrip, lstrip_idem, rstrip_idem.
Qed.

Lemma strip_lstrip (s : string) : strip (lstrip s) = strip s.
Proof. unfold strip. now rewrite lstrip_idem. Qed.

Lemma strip_rstrip (s : string) : strip (rstrip s) = strip s.
Proof. unfold strip. now rewrite lstrip_rstrip, rstrip_idem. Qed.

Lemma lstrip_app_nonspace (a : string) (c : ascii) (b : string) :
  is_space c = false -> lstrip (a ++ String c b) = lstrip a ++ String c b.
Proof.
  intros Hc. induction a as [|x a IH]; simpl.
  - now rewrite Hc.
  - destruct (is_space x); auto.
Qed.

Lemma rstrip_app_nonspace (a : string) (c : ascii) (b : string) :
  is_space c = false -> rstrip (a ++ String c b) = a ++ String c (rstrip b).
Proof.
  intros Hc. induction a as [|x a IH].
  - simpl append. now apply rstrip_cons_nonspace.
  - cbn [append rstrip]. rewrite IH.
    destruct a; reflexivity.
Qed.

Lemma strip_around_nonspace (a : string) (c : ascii) (b : string) :
  is_space c = false ->
  strip (a ++ String c b) = lstrip a ++ String c (rstrip b).
Proof.
  intros Hc. unfold strip.
  now rewrite lstrip_app_nonspace, rstrip_app_nonspace.
Qed.

Lemma rstrip_empty (s : string) :
  rstrip s = EmptyString <-> any_char nonspace s = false.
Proof.
  induction s as [|c s IH]; simpl; [tauto|].
  unfold nonspace at 1.
  destruct (rstrip s) as [|c' r] eqn:E.
  - destruct (is_space c); simpl.
    + tauto.
    + split; discriminate.
  - split; [discriminate|]. intros H.
    apply orb_false_iff in H. destruct H as [_ H].
    apply IH in H. discriminate.
Qed.

Lemma any_nonspace_lstrip (s : string) :
  any_char nonspace (lstrip s) = any_char nonspace s.
Proof.
  induction s as [|c s IH]; simpl; auto.
  unfold nonspace at 2. destruct (is_space c) eqn:E; simpl; auto.
  unfold nonspace at 1. now rewrite E.
Qed.

Lemma strip_empty (s : string) :
  strip s = EmptyString <-> any_char nonspace s = false.
Proof. unfold strip. now rewrite rstrip_empty, any_nonspace_lstrip. Qed.

Lemma rstrip_no_space (s : string) :
  any_char is_space s = false -> rstrip s = s.
Proof.
  induction s as [|c s IH]; simpl; auto.
  intros H. apply orb_false_iff in H. destruct H as [Hc Hs].
  rewrite IH by assumption. rewrite Hc. now destruct s.
Qed.

Lemma strip_no_space (s : string) :
  any_char is_space s = false -> strip s = s.
Proof.
  intros H. unfold strip.
  assert (Hl : lstrip s = s).
  { destruct s as [|c s]; simpl in *; auto.
    apply orb_false_iff in H. now rewrite (proj1 H). }
  rewrite Hl. now apply rstrip_no_space.
Qed.

Lemma split_first_app (sep : ascii) (a b : string) :
  contains_char sep a = false ->
  split_first sep (a ++ String sep b) = Some (a, b).
Proof.
  induction a as [|x a IH]; simpl.
  - unfold char_eqb. now rewrite Ascii.eqb_refl.
  - intros H. apply orb_false_iff in H. destruct H as [Hx Ha].
    rewrite Hx, IH by assumption. reflexivity.
Qed.

Lemma contains_char_app (sep : ascii) (a b : string) :
  contains_char sep (a ++ b) = contains_char sep a || contains_char sep b.
Proof.
  induction a as [|x a IH]; simpl; auto.
  now rewrite IH, orb_assoc.
Qed.

Lemma rsplit_last_none (sep : ascii) (s : string) :
  contains_char sep s = false -> rsplit_last sep s = None.
Proof.
  induction s as [|x s IH]; simpl; auto.
  intros H. apply orb_false_iff in H. destruct H as [Hx Hs].
  now rewrite IH, Hx.
Qed.

Lemma rsplit_last_app (sep : ascii) (a b : string) :
  contains_char sep b = false ->
  rsplit_last sep (a ++ String sep b) = Some (a, b).
Proof.
  intros Hb. induction a as [|x a IH]; simpl.
  - rewrite (rsplit_last_none sep b Hb).
    unfold char_eqb. now rewrite Ascii.eqb_refl.
  - now rewrite IH.
Qed.

(** A run of digits is read by [int] as a natural number. *)
Lemma int_digits_all_digits (s : string) :
  forall (acc : Z) (prev : bool),
    0 <= acc -> all_digits s = true -> (prev = true \/ s <> EmptyString) ->
    exists z, 0 <= z /\ int_digits acc prev s = Some z.
Proof.
  induction s as [|c s IH]; intros acc prev Hacc Hall Hne.
  - destruct Hne as [->|Hne]; [|contradiction]. simpl. eauto.
  - simpl in *. apply andb_true_iff in Hall. destruct Hall as [Hc Hs].
    rewrite Hc. apply IH; auto.
    unfold digit_val. unfold is_digit in Hc.
    apply andb_true_iff in Hc. destruct Hc as [Hlo _].
    apply Nat.leb_le in Hlo. lia.
Qed.

Lemma digits_no_space (s : string) :
  all_digits s = true -> any_char is_space s = false.
Proof.
  induction s as [|c s IH]; simpl; auto.
  intros H. apply andb_true_iff in H. destruct H as [Hc Hs].
  rewrite IH by assumption. rewrite orb_false_r.
  unfold is_digit in Hc. unfold is_space.
  apply andb_true_iff in Hc. destruct Hc as [Hlo Hhi].
  apply Nat.leb_le in Hlo. apply Nat.leb_le in Hhi.
  destruct (Nat.leb_spec 9 (code c)), (Nat.leb_spec (code c) 13),
           (Nat.leb_spec 28 (code c)), (Nat.leb_spec (code c) 32);
    simpl; auto; lia.
Qed.

Lemma int_of_digits (s : string) :
  isdigit s = true -> exists z, 0 <= z /\ int s = Some z.
Proof.
  intros H. destruct s as [|c s]; [discriminate|].
  unfold isdigit in H.
  unfold int. rewrite (strip_no_space _ (digits_no_space _ H)).
  assert (Hc : is_digit c = true) by (simpl in H; now apply andb_true_iff in H).
  destruct (int_digits_all_digits (String c s) 0 false) as [z [Hz Hi]];
    auto; [lia | right; discriminate |].
  exists z. split; auto.
  destruct c as [b0 b1 b2 b3 b4 b5 b6 b7].
  destruct b0, b1, b2, b3, b4, b5, b6, b7; try exact Hi; discriminate Hc.
Qed.

(** [int] ignores surrounding whitespace. *)
Lemma int_strip (s : string) : int (strip s) = int s.
Proof. unfold int. now rewrite strip_idem. Qed.

Lemma int_rstrip (s : string) : int (rstrip s) = int s.
Proof. unfold int. now rewrite strip_rstrip. Qed.

End StrFacts.

(* ================================================================== *)
(** ** The resource parser (claims C7, C8, C10) *)
(* ================================================================== *)

Lemma normalize_separators_cons (c : ascii) (s : string) :
  normalize_separators (String c s)
  = String (if is_separator c then PyStr.semicolon else c)
           (normalize_separators s).
Proof.
  unfold normalize_separators, is_separator. cbn [fold_left PyStr.replace].
  f_equal. unfold PyStr.char_eqb.
  destruct (Ascii.eqb c PyStr.semicolon) eqn:E1; cbn [orb].
  - reflexivity.
  - destruct (Ascii.eqb c PyStr.comma) eqn:E2; cbn [orb].
    + reflexivity.
    + destruct (Ascii.eqb c PyStr.newline) eqn:E3; reflexivity.
Qed.

Lemma normalize_separators_nil : normalize_separators EmptyString = EmptyString.
Proof. reflexivity. Qed.

(** Replacing the separators by [;] and splitting at [;] cuts the text at
    every separator. *)
Lemma split_normalized (text : string) :
  PyStr.split PyStr.semicolon (normalize_separators text) = chunks text.
Proof.
  unfold chunks. induction text as [|c s IH].
  - reflexivity.
  - rewrite normalize_separators_cons. cbn [PyStr.split split_on].
    rewrite IH. unfold is_separator at 2.
    destruct (is_separator c) eqn:E.
    + reflexivity.
    + unfold is_separator in E.
      apply orb_false_iff in E. destruct E as [E _].
      apply orb_false_iff in E. destruct E as [E _].
      now rewrite E.
Qed.

Lemma parse_steps_entries (cs : list string) (acc : Dict.t Z) :
  fold_left parse_step cs acc
  = fold_left (fun d '(k, v) => Dict.set d k v) (entries cs) acc.
Proof.
  revert acc. induction cs as [|c cs IH]; intros acc; [reflexivity|].
  cbn [fold_left entries flat_map]. rewrite fold_left_app, IH.
  unfold parse_step. now destruct (parse_chunk c) as [[k v]|].
Qed.

Lemma parse_resources_entries (text : string) :
  parse_resources text
  = fold_left (fun d '(k, v) => Dict.set d k v) (entries (chunks text)) Dict.empty.
Proof.
  unfold parse_resources. now rewrite split_normalized, parse_steps_entries.
Qed.

Lemma get_fold_set (name : string) (es : list (string * Z)) (acc : Dict.t Z) :
  Dict.get (fold_left (fun d '(k, v) => Dict.set d k v) es acc) name
  = fold_left (fun o '(k, v) => if String.eqb k name then Some v else o)
              es (Dict.get acc name).
Proof.
  revert acc. induction es as [|[k v] es IH]; intros acc; [reflexivity|].
  cbn [fold_left]. rewrite IH. f_equal.
  destruct (String.eqb k name) eqn:E.
  - apply String.eqb_eq in E. subst. apply DictFacts.get_set_same.
  - apply String.eqb_neq in E. now apply DictFacts.get_set_other.
Qed.

Lemma parse_resources_last_binding (text name : string) :
  Dict.get (parse_resources text) name = last_binding name (entries (chunks text)).
Proof. rewrite parse_resources_entries. apply get_fold_set. Qed.

Lemma parse_chunk_blank (c : string) :
  PyStr.strip c = EmptyString -> parse_chunk c = None.
Proof. intros H. unfold parse_chunk. now rewrite H. Qed.

Lemma parse_chunk_some (c : string) :
  PyStr.strip c <> EmptyString ->
  parse_chunk c
  = Some (PyStr.strip (fst (split_chunk (PyStr.strip c))),
          count_of (snd (split_chunk (PyStr.strip c)))).
Proof.
  intros H. unfold parse_chunk.
  destruct (PyStr.strip c) eqn:E; [contradiction|].
  destruct (split_chunk (String a s)); reflexivity.
Qed.

Lemma count_of_int (cnt : string) :
  count_of cnt = match PyStr.int cnt with Some z => z | None => 1 end.
Proof. unfold count_of. now rewrite StrFacts.int_strip. Qed.

Lemma colon_not_space : PyStr.is_space PyStr.colon = false.
Proof. reflexivity. Qed.

Lemma append_not_empty (a : string) (c : ascii) (b : string) :
  a ++ String c b <> EmptyString.
Proof. destruct a; discriminate. Qed.

Lemma split_chunk_colon (a b : string) :
  PyStr.contains_char PyStr.colon a = false ->
  split_chunk (a ++ String PyStr.colon b) = (a, b).
Proof.
  intros Ha. unfold split_chunk.
  rewrite StrFacts.contains_char_app. cbn [PyStr.contains_char].
  unfold PyStr.char_eqb at 1. rewrite Ascii.eqb_refl.
  rewrite orb_true_r.
  now rewrite StrFacts.split_first_app.
Qed.

(** A chunk with a colon: the name is the text before the first colon, the
    quantity the integer after it, or 1 when that text is not an integer. *)
Lemma parse_chunk_colon (c a b : string) :
  PyStr.strip c = a ++ String PyStr.colon b ->
  PyStr.contains_char PyStr.colon a = false ->
  parse_chunk c
  = Some (PyStr.strip a, match PyStr.int b with Some z => z | None => 1 end).
Proof.
  intros Hc Ha. rewrite parse_chunk_some.
  2:{ rewrite Hc. apply append_not_empty. }
  rewrite Hc, split_chunk_colon by assumption.
  cbn [fst snd]. now rewrite count_of_int.
Qed.

(** *** The parser over any string library *)

Section ParserLaws.

Variable strip : string -> string.
Variable isdigit : string -> bool.
Variable int : string -> option Z.

Lemma generic_parse_steps_entries (cs : list string) (acc : Dict.t Z) :
  fold_left (Generic.parse_step strip isdigit int) cs acc
  = fold_left (fun d '(k, v) => Dict.set d k v)
              (Generic.entries strip isdigit int cs) acc.
Proof.
  revert acc. induction cs as [|c cs IH]; intros acc; [reflexivity|].
  cbn [fold_left Generic.entries flat_map]. rewrite fold_left_app.
  fold (Generic.entries strip isdigit int cs). rewrite IH.
  unfold Generic.parse_step.
  now destruct (Generic.parse_chunk strip isdigit int c) as [[k v]|].
Qed.

Lemma generic_parse_resources_entries (text : string) :
  Generic.parse_resources strip isdigit int text
  = fold_left (fun d '(k, v) => Dict.set d k v)
              (Generic.entries strip isdigit int (chunks text)) Dict.empty.
Proof.
  unfold Generic.parse_resources.
  now rewrite split_normalized, generic_parse_steps_entries.
Qed.

Lemma generic_parse_resources_last_binding (text name : string) :
  Dict.get (Generic.parse_resources strip isdigit int text) name
  = last_binding name (Generic.entries strip isdigit int (chunks text)).
Proof. rewrite generic_parse_resources_entries. apply get_fold_set. Qed.

Lemma generic_parse_chunk_blank (c : string) :
  strip c = EmptyString -> Generic.parse_chunk strip isdigit int c = None.
Proof. intros H. unfold Generic.parse_chunk. now rewrite H. Qed.

Lemma generic_parse_chunk_some (c : string) :
  strip c <> EmptyString ->
  Generic.parse_chunk strip isdigit int c
  = Some (strip (fst (Generic.split_chunk strip isdigit (strip c))),
          Generic.count_of strip int
            (snd (Generic.split_chunk strip isdigit (strip c)))).
Proof.
  intros H. unfold Generic.parse_chunk.
  destruct (strip c) eqn:E; [contradiction|].
  destruct (Generic.split_chunk strip isdigit (String a s)); reflexivity.
Qed.

Lemma generic_split_chunk_colon (a b : string) :
  PyStr.contains_char PyStr.colon a = false ->
  Generic.split_chunk strip isdigit (a ++ String PyStr.colon b) = (a, b).
Proof.
  intros Ha. unfold Generic.split_chunk.
  rewrite StrFacts.contains_char_app. cbn [PyStr.contains_char].
  unfold PyStr.char_eqb at 1. rewrite Ascii.eqb_refl.
  rewrite orb_true_r.
  now rewrite StrFacts.split_first_app.
Qed.

Lemma generic_parse_chunk_colon (c a b : string) :
  strip c = a ++ String PyStr.colon b ->
  PyStr.contains_char PyStr.colon a = false ->
  Generic.parse_chunk strip isdigit int c
  = Some (strip a, Generic.count_of strip int b).
Proof.
  intros Hc Ha. rewrite generic_parse_chunk_some.
  2:{ rewrite Hc. apply append_not_empty. }
  now rewrite Hc, generic_split_chunk_colon by assumption.
Qed.

Lemma generic_entries_cons (c : string) (cs : list string) :
  Generic.entries strip isdigit int (c :: cs)
  = (match Generic.parse_chunk strip isdigit int c with
     | Some e => [e]
     | None => []
     end ++ Generic.entries strip isdigit int cs)%list.
Proof. reflexivity. Qed.

Lemma generic_entries_app (cs1 cs2 : list string) :
  Generic.entries strip isdigit int (cs1 ++ cs2)
  = (Generic.entries strip isdigit int cs1
     ++ Generic.entries strip isdigit int cs2)%list.
Proof. unfold Generic.entries. apply flat_map_app. Qed.

(** Some entry is contributed exactly when some chunk is not blank. *)
Lemma generic_entries_nonempty (cs : list string) :
  Generic.entries strip isdigit int cs <> []
  <-> exists c, In c cs /\ strip c <> EmptyString.
Proof.
  induction cs as [|c cs IH].
  - split; [intros H; now contradiction H | intros (c & [] & _)].
  - rewrite generic_entries_cons.
    destruct (strip c) eqn:E.
    + rewrite (generic_parse_chunk_blank c E). cbn [Datatypes.app].
      rewrite IH. split.
      * intros (c' & Hin & Hne). exists c'. split; [now right | assumption].
      * intros (c' & [<-|Hin] & Hne); [congruence|]. now exists c'.
    + rewrite generic_parse_chunk_some by (rewrite E; discriminate).
      split; [|discriminate].
      intros _. exists c. split; [now left | rewrite E; discriminate].
Qed.

Hypothesis strip_idem : forall s, strip (strip s) = strip s.

Lemma generic_split_chunk_space (s a b : string) :
  strip s = s ->
  s = a ++ String PyStr.space b ->
  PyStr.contains_char PyStr.colon s = false ->
  PyStr.contains_char PyStr.space b = false ->
  Generic.split_chunk strip isdigit s = if isdigit b then (a, b) else (s, "1").
Proof.
  intros Hs Heq Hcolon Hb. unfold Generic.split_chunk.
  rewrite Hcolon, Hs. rewrite Heq at 1.
  now rewrite StrFacts.rsplit_last_app.
Qed.

Lemma generic_split_chunk_no_space (s : string) :
  strip s = s ->
  PyStr.contains_char PyStr.colon s = false ->
  PyStr.contains_char PyStr.space s = false ->
  Generic.split_chunk strip isdigit s = (s, "1").
Proof.
  intros Hs Hcolon Hsp. unfold Generic.split_chunk.
  now rewrite Hcolon, Hs, StrFacts.rsplit_last_none.
Qed.

Lemma generic_parse_chunk_space_digits (c a b : string) :
  strip c = a ++ String PyStr.space b ->
  PyStr.contains_char PyStr.colon (strip c) = false ->
  PyStr.contains_char PyStr.space b = false ->
  isdigit b = true ->
  Generic.parse_chunk strip isdigit int c
  = Some (strip a, Generic.count_of strip int b).
Proof.
  intros Hc Hcolon Hb Hdig.
  rewrite generic_parse_chunk_some.
  2:{ rewrite Hc. apply append_not_empty. }
  rewrite (generic_split_chunk_space (strip c) a b); auto.
  now rewrite Hdig.
Qed.

Hypothesis int_one : int (strip "1") = Some 1.

Lemma generic_parse_chunk_plain (c : string) :
  strip c <> EmptyString ->
  PyStr.contains_char PyStr.colon (strip c) = false ->
  (PyStr.contains_char PyStr.space (strip c) = false
   \/ exists a b, strip c = a ++ String PyStr.space b
                  /\ PyStr.contains_char PyStr.space b = false
                  /\ isdigit b = false) ->
  Generic.parse_chunk strip isdigit int c = Some (strip c, 1).
Proof.
  intros Hne Hcolon Hcase. rewrite generic_parse_chunk_some by assumption.
  destruct Hcase as [Hnosp|(a & b & Hc & Hb & Hdig)].
  - rewrite generic_split_chunk_no_space; auto.
    cbn [fst snd]. unfold Generic.count_of. now rewrite strip_idem, int_one.
  - rewrite (generic_split_chunk_space (strip c) a b); auto.
    rewrite Hdig. cbn [fst snd]. unfold Generic.count_of.
    now rewrite strip_idem, int_one.
Qed.

End ParserLaws.

(** The parser above is the instance at the operations of [PyStr]. *)
Lemma parse_resources_instance (text : string) :
  Generic.parse_resources PyStr.strip PyStr.isdigit PyStr.int text
  = parse_resources text.
Proof. reflexivity. Qed.

(** C7 (amended).  [parse_resources] cuts the text at [;], [,] and newlines
    and reads each chunk that trimming does not empty.  With a colon, the
    name is the text before the first colon and the quantity text the text
    after it.  Without a colon, when the trimmed chunk has a space character
    and the text after its last space satisfies [str.isdigit], that text is
    the quantity text and the text before it the name; otherwise the whole
    chunk is the name and the quantity is 1.  The quantity is the integer
    value of the trimmed quantity text, or 1 when [int] rejects it.  Names
    are trimmed, and a name that occurs again takes the quantity of its last
    occurrence.  This holds whatever [str.strip], [str.isdigit] and [int] do,
    given that trimming twice is trimming once and that [int("1")] is 1. *)
Theorem parse_resources_rules
    (strip : string -> string) (isdigit : string -> bool)
    (int : string -> option Z) (text c : string) :
  (forall s, strip (strip s) = strip s) ->
  int (strip "1") = Some 1 ->
  Generic.parse_resources strip isdigit int text
  = fold_left (fun d '(k, v) => Dict.set d k v)
              (Generic.entries strip isdigit int (chunks text)) Dict.empty
  /\ (forall name,
        Dict.get (Generic.parse_resources strip isdigit int text) name
        = last_binding name (Generic.entries strip isdigit int (chunks text)))
  /\ (strip c = EmptyString -> Generic.parse_chunk strip isdigit int c = None)
  /\ (forall a b,
        strip c = a ++ String PyStr.colon b ->
        PyStr.contains_char PyStr.colon a = false ->
        Generic.parse_chunk strip isdigit int c
        = Some (strip a, Generic.count_of strip int b))
  /\ (forall a b,
        strip c = a ++ String PyStr.space b ->
        PyStr.contains_char PyStr.colon (strip c) = false ->
        PyStr.contains_char PyStr.space b = false ->
        isdigit b = true ->
        Generic.parse_chunk strip isdigit int c
        = Some (strip a, Generic.count_of strip int b))
  /\ (strip c <> EmptyString ->
      PyStr.contains_char PyStr.colon (strip c) = false ->
      (PyStr.contains_char PyStr.space (strip c) = false
       \/ exists a b, strip c = a ++ String PyStr.space b
                      /\ PyStr.contains_char PyStr.space b = false
                      /\ isdigit b = false) ->
      Generic.parse_chunk strip isdigit int c = Some (strip c, 1))
  /\ (forall cnt,
        Generic.count_of strip int cnt
        = match int (strip cnt) with Some z => z | None => 1 end)
  /\ parse_resources "Oscilloscope:2; Laptop:1" = [("Oscilloscope", 2); ("Laptop", 1)]
  /\ parse_resources "Oscilloscope 2, Laptop" = [("Oscilloscope", 2); ("Laptop", 1)]
  /\ parse_resources "Widget" = [("Widget", 1)]
  /\ parse_resources "Laptop:2; Laptop:5" = [("Laptop", 5)].
Proof.
  intros Hidem Hone.
  split; [apply generic_parse_resources_entries|].
  split; [intros name; apply generic_parse_resources_last_binding|].
  split; [apply generic_parse_chunk_blank|].
  split; [intros a b; apply generic_parse_chunk_colon|].
  split; [intros a b; now apply generic_parse_chunk_space_digits|].
  split; [now apply generic_parse_chunk_plain|].
  repeat split; reflexivity.
Qed.

Lemma parse_resources_rules_witness :
  Generic.parse_chunk PyStr.strip PyStr.isdigit PyStr.int " Oscilloscope 2"
  = Some ("Oscilloscope", 2)
  /\ Generic.parse_chunk PyStr.strip PyStr.isdigit PyStr.int "Laptop"
     = Some ("Laptop", 1)
  /\ Generic.parse_chunk PyStr.strip PyStr.isdigit PyStr.int "Laptop : many"
     = Some ("Laptop", 1).
Proof.
  pose proof (parse_resources_rules PyStr.strip PyStr.isdigit PyStr.int
                "" " Oscilloscope 2" StrFacts.strip_idem eq_refl) as H1.
  pose proof (parse_resources_rules PyStr.strip PyStr.isdigit PyStr.int
                "" "Laptop" StrFacts.strip_idem eq_refl) as H2.
  pose proof (parse_resources_rules PyStr.strip PyStr.isdigit PyStr.int
                "" "Laptop : many" StrFacts.strip_idem eq_refl) as H3.
  split; [|split].
  - apply (proj1 (proj2 (proj2 (proj2 (proj2 H1)))) "Oscilloscope" "2");
      reflexivity.
  - apply (proj1 (proj2 (proj2 (proj2 (proj2 (proj2 H2)))))).
    + discriminate.
    + reflexivity.
    + left. reflexivity.
  - apply (proj1 (proj2 (proj2 (proj2 H3))) "Laptop " " many"); reflexivity.
Defined.

(** C7, as stated, fails: a quantity set off by a TAB is the final
    whitespace-separated token of its chunk and is purely numeric, yet the
    parser keeps the whole chunk as the name with quantity 1. *)
Lemma tab_separated_quantity_ignored :
  spec_chunk_entry Sample.tab_chunk = ("Oscilloscope", 2)
  /\ parse_resources Sample.tab_chunk = [(Sample.tab_chunk, 1)]
  /\ parse_resources Sample.tab_chunk <> [spec_chunk_entry Sample.tab_chunk].
Proof.
  split; [reflexivity|]. split; [reflexivity|].
  vm_compute. discriminate.
Qed.

(** *** Empty results (claim C8) *)

Lemma fold_set_empty (es : list (string * Z)) (acc : Dict.t Z) :
  fold_left (fun d '(k, v) => Dict.set d k v) es acc = []
  <-> es = [] /\ acc = [].
Proof.
  revert acc. induction es as [|[k v] es IH]; intros acc; cbn [fold_left].
  - tauto.
  - rewrite IH. split.
    + intros [_ H]. now apply DictFacts.set_not_empty in H.
    + intros [H _]. discriminate.
Qed.

Lemma entries_empty (cs : list string) :
  entries cs = [] <-> existsb (any_char nonspace) cs = false.
Proof.
  induction cs as [|c cs IH]; cbn [entries flat_map existsb]; [tauto|].
  rewrite orb_false_iff, <- IH, <- StrFacts.strip_empty.
  fold (entries cs).
  destruct (PyStr.strip c) eqn:E.
  - rewrite (parse_chunk_blank c E). simpl. tauto.
  - rewrite parse_chunk_some by (rewrite E; discriminate).
    simpl. split; [discriminate | intros [H _]; discriminate].
Qed.

Lemma split_on_not_empty (p : ascii -> bool) (s : string) : split_on p s <> [].
Proof.
  destruct s as [|c s]; simpl; [discriminate|].
  destruct (p c); [discriminate|]. destruct (split_on p s); discriminate.
Qed.

Lemma chunks_content (text : string) :
  existsb (any_char nonspace) (chunks text) = has_content text.
Proof.
  unfold chunks, has_content. induction text as [|c s IH]; [reflexivity|].
  cbn [split_on any_char]. rewrite <- IH.
  destruct (is_separator c) eqn:E; cbn [orb negb existsb any_char].
  - reflexivity.
  - destruct (split_on is_separator s) as [|h t] eqn:Es.
    + now apply split_on_not_empty in Es.
    + cbn [existsb any_char]. unfold nonspace at 1.
      now rewrite orb_assoc.
Qed.

(** C8 (amended).  [parse_resources] returns a non-empty mapping exactly
    when some chunk of the text (a piece between [;], [,] and newlines) is
    not blank, that is, is not emptied by [str.strip]; so the empty text,
    and every text all of whose chunks are blank, gives the empty mapping.
    This holds whatever [str.strip], [str.isdigit] and [int] do, given that
    trimming the empty string leaves it empty. *)
Theorem parse_resources_nonempty_iff
    (strip : string -> string) (isdigit : string -> bool)
    (int : string -> option Z) (text : string) :
  strip EmptyString = EmptyString ->
  (Generic.parse_resources strip isdigit int text <> []
   <-> exists chunk, In chunk (chunks text) /\ strip chunk <> EmptyString)
  /\ ((forall chunk, In chunk (chunks text) -> strip chunk = EmptyString) ->
      Generic.parse_resources strip isdigit int text = [])
  /\ Generic.parse_resources strip isdigit int EmptyString = [].
Proof.
  intros Hempty.
  assert (Hiff : Generic.parse_resources strip isdigit int text <> []
                 <-> exists chunk, In chunk (chunks text)
                                   /\ strip chunk <> EmptyString).
  { rewrite generic_parse_resources_entries,
      <- (generic_entries_nonempty strip isdigit int).
    rewrite fold_set_empty. split.
    - intros H He. apply H. split; [assumption | reflexivity].
    - intros H [He _]. now apply H. }
  split; [exact Hiff|]. split.
  - intros Hblank.
    destruct (Generic.parse_resources strip isdigit int text) eqn:E;
      [reflexivity|].
    assert (Hne : p :: t <> []) by discriminate.
    apply Hiff in Hne. destruct Hne as (chunk & Hin & Hc).
    now contradiction Hc; apply Hblank.
  - unfold Generic.parse_resources. cbn [normalize_separators fold_left
      PyStr.replace PyStr.split]. unfold Generic.parse_step.
    now rewrite (generic_parse_chunk_blank strip isdigit int "" Hempty).
Qed.

Lemma parse_resources_nonempty_iff_witness :
  Generic.parse_resources PyStr.strip PyStr.isdigit PyStr.int " Widget;" <> [].
Proof.
  apply (proj1 (parse_resources_nonempty_iff PyStr.strip PyStr.isdigit PyStr.int
                  " Widget;" eq_refl)).
  exists " Widget". split; [left; reflexivity | discriminate].
Defined.

(** C8, as stated, fails: texts made of separators or blanks are not empty
    and still give the empty mapping. *)
Lemma blank_text_parses_to_nothing :
  ";" <> EmptyString /\ parse_resources ";" = []
  /\ " " <> EmptyString /\ parse_resources " " = [].
Proof. repeat split; discriminate. Qed.

(** *** Explicit quantities are not constrained (claim C10) *)

Lemma contains_char_lstrip (sep : ascii) (s : string) :
  PyStr.contains_char sep s = false ->
  PyStr.contains_char sep (PyStr.lstrip s) = false.
Proof.
  induction s as [|c s IH]; simpl; auto.
  intros H. apply orb_false_iff in H. destruct H as [Hc Hs].
  destruct (PyStr.is_space c); auto. simpl. now rewrite Hc, Hs.
Qed.

(** A chunk [name:q] with an integer [q] gives exactly that integer. *)
Lemma parse_chunk_name_colon_int (name q : string) (z : Z) :
  PyStr.contains_char PyStr.colon name = false ->
  PyStr.int q = Some z ->
  parse_chunk (name ++ String PyStr.colon q) = Some (PyStr.strip name, z).
Proof.
  intros Hname Hint.
  rewrite (parse_chunk_colon _ (PyStr.lstrip name) (PyStr.rstrip q)).
  - now rewrite StrFacts.strip_lstrip, StrFacts.int_rstrip, Hint.
  - apply StrFacts.strip_around_nonspace. reflexivity.
  - now apply contains_char_lstrip.
Qed.

Lemma last_binding_from (name : string) (es : list (string * Z)) (o : option Z) :
  fold_left (fun acc '(k, v) => if String.eqb k name then Some v else acc) es o
  = match last_binding name es with
    | Some v => Some v
    | None => o
    end.
Proof.
  unfold last_binding. revert o.
  induction es as [|[k v] es IH]; intros o; [reflexivity|].
  cbn [fold_left]. rewrite IH. rewrite (IH (if String.eqb k name then _ else _)).
  destruct (fold_left _ es None); [reflexivity|].
  now destruct (String.eqb k name).
Qed.

Lemma last_binding_app (name : string) (es1 es2 : list (string * Z)) :
  last_binding name (es1 ++ es2)
  = match last_binding name es2 with
    | Some v => Some v
    | None => last_binding name es1
    end.
Proof.
  unfold last_binding at 1. rewrite fold_left_app.
  apply last_binding_from.
Qed.

Lemma entries_app (cs1 cs2 : list string) :
  entries (cs1 ++ cs2) = (entries cs1 ++ entries cs2)%list.
Proof. unfold entries. apply flat_map_app. Qed.

(** C10 (amended).  An explicit quantity is taken as written, whatever
    its sign: when a chunk of the text reads, once trimmed, as [name:q] (the
    name being the text before its first colon) and [int] gives the trimmed
    [q] the value [z], the result binds the trimmed name to [z], provided no
    later chunk of the text gives the same trimmed name again (the last
    occurrence wins); so ["Laptop:0"] gives 0 and ["Laptop:-3"] gives -3.
    This holds whatever [str.strip], [str.isdigit] and [int] do. *)
Theorem explicit_quantity_taken_as_written
    (strip : string -> string) (isdigit : string -> bool)
    (int : string -> option Z)
    (text : string) (before after : list string) (c name q : string) (z : Z) :
  chunks text = (before ++ c :: after)%list ->
  strip c = name ++ String PyStr.colon q ->
  PyStr.contains_char PyStr.colon name = false ->
  int (strip q) = Some z ->
  last_binding (strip name) (Generic.entries strip isdigit int after) = None ->
  Dict.get (Generic.parse_resources strip isdigit int text) (strip name) = Some z
  /\ parse_resources "Laptop:0" = [("Laptop", 0)]
  /\ parse_resources "Laptop:-3" = [("Laptop", -3)].
Proof.
  intros Hchunks Hc Hname Hint Hafter.
  split; [|split; reflexivity].
  rewrite generic_parse_resources_last_binding, Hchunks.
  rewrite generic_entries_app, last_binding_app, generic_entries_cons.
  rewrite (generic_parse_chunk_colon strip isdigit int c name q Hc Hname).
  rewrite last_binding_app, Hafter.
  unfold last_binding, Generic.count_of. cbn [fold_left].
  now rewrite String.eqb_refl, Hint.
Qed.

Lemma explicit_quantity_taken_as_written_witness :
  Dict.get (Generic.parse_resources PyStr.strip PyStr.isdigit PyStr.int
              "Laptop:2, Laptop : -3; Widget") "Laptop"
  = Some (-3)
  /\ parse_resources "Laptop:0" = [("Laptop", 0)]
  /\ parse_resources "Laptop:-3" = [("Laptop", -3)].
Proof.
  apply (explicit_quantity_taken_as_written PyStr.strip PyStr.isdigit PyStr.int
           "Laptop:2, Laptop : -3; Widget" ["Laptop:2"] [" Widget"]
           " Laptop : -3" "Laptop " " -3" (-3)); reflexivity.
Defined.

(** C10, as stated, fails: the chunk [Laptop:0] has the form [name:q] and
    its [q] reads as 0, yet the mapping binds [Laptop] to 5, the quantity of
    the later chunk with the same name. *)
Lemma later_chunk_overrides_explicit_quantity :
  chunks "Laptop:0; Laptop:5" = ["Laptop:0"; " Laptop:5"]
  /\ PyStr.int "0" = Some 0
  /\ parse_resources "Laptop:0; Laptop:5" = [("Laptop", 5)]
  /\ Dict.get (parse_resources "Laptop:0; Laptop:5") "Laptop" <> Some 0.
Proof. repeat split; discriminate. Qed.

(* ================================================================== *)
(** ** Usage is looked up by the exact name (claim C9) *)
(* ================================================================== *)





(* ================================================================== *)
(** ** Stale short keys (claim C5) *)
(* ================================================================== *)

Lemma split_no_sep (sep : ascii) (s : string) :
  PyStr.contains_char sep s = false -> PyStr.split sep s = [s].
Proof.
  induction s as [|c s IH]; simpl; auto.
  intros H. apply orb_false_iff in H. destruct H as [Hc Hs].
  now rewrite Hc, IH.
Qed.

Lemma cart_call_parts (act key : string) :
  PyStr.contains_char PyStr.colon act = false ->
  PyStr.contains_char PyStr.colon key = false ->
  PyStr.split PyStr.colon ("cart:" ++ act ++ String PyStr.colon key)
  = ["cart"; act; key].
Proof.
  intros Hact Hkey.
  assert (H : PyStr.split PyStr.colon (act ++ String PyStr.colon key) = [act; key]).
  { induction act as [|c act IH]; simpl.
    - now rewrite split_no_sep.
    - simpl in Hact. apply orb_false_iff in Hact. destruct Hact as [Hc Ha].
      rewrite Hc, IH by assumption. reflexivity. }
  cbn. cbn in H. now rewrite H.
Qed.

(** C5 (amended).  A short key that the current key map does not bind is
    treated as stale: [select_equipment] rebuilds the catalog key map from
    the current inventory, goes back to page 0 and sends the fresh keyboard;
    [cart_actions] tells the user to open the cart again and changes
    nothing.  A key that the current map binds is resolved to the name bound
    there. *)
Theorem stale_key_handling (inventory : Dict.t Z) (ctx : fsm) (key : string) :
  (lookup_name (or_empty (d_callback_map (data ctx))) key = None ->
   select_equipment inventory ("select:" ++ key) ctx
   = Some (with_data (set_callback_map (build_callback_map inventory) (Some 0)) ctx,
           [Answer msg_stale_select
                   (Some (fst (fst (build_inventory_keyboard inventory 0 PAGE_SIZE))));
            CallAnswer]))
  /\ (forall name,
        lookup_name (or_empty (d_callback_map (data ctx))) key = Some name ->
        exists sent,
          select_equipment inventory ("select:" ++ key) ctx
          = Some (with_data (set_temp_select (mkTemp key name 1)) ctx, sent))
  /\ (forall act,
        act = "dec" \/ act = "remove" ->
        PyStr.contains_char PyStr.colon key = false ->
        lookup_name (or_empty (d_cart_map (data ctx))) key = None ->
        cart_actions inventory ("cart:" ++ act ++ String PyStr.colon key) ctx
        = (ctx, [Answer msg_stale_cart None; CallAnswer]))
  /\ (forall name,
        PyStr.contains_char PyStr.colon key = false ->
        lookup_name (or_empty (d_cart_map (data ctx))) key = Some name ->
        cart_names (fst (cart_actions inventory
                           ("cart:remove:" ++ key) ctx))
        = Dict.keys (Dict.pop (or_empty (d_cart (data ctx))) name)).
Proof.
  split; [|split; [|split]].
  - intros Hmiss. unfold select_equipment.
    change (PyStr.split_first PyStr.colon ("select:" ++ key))
      with (Some ("select", key)).
    cbv beta iota. rewrite Hmiss. reflexivity.
  - intros name Hhit. unfold select_equipment.
    change (PyStr.split_first PyStr.colon ("select:" ++ key))
      with (Some ("select", key)).
    cbv beta iota. rewrite Hhit. eauto.
  - intros act Hact Hkey Hmiss. unfold cart_actions.
    rewrite cart_call_parts;
      [|destruct Hact as [-> | ->]; reflexivity | assumption].
    destruct Hact as [-> | ->]; cbn [String.eqb Ascii.eqb Bool.eqb orb];
      now rewrite Hmiss.
  - intros name Hkey Hhit. unfold cart_actions.
    change ("cart:remove:" ++ key)
      with ("cart:" ++ "remove" ++ String PyStr.colon key).
    rewrite cart_call_parts by (reflexivity || assumption).
    cbn [String.eqb Ascii.eqb Bool.eqb orb]. rewrite Hhit.
    unfold Dict.mem.
    destruct (Dict.get (or_empty (d_cart (data ctx))) name) eqn:Hin.
    + unfold show_cart_again, cart_names.
      cbn [with_data data d_cart set_cart or_empty].
      destruct (Dict.is_empty _); [reflexivity|].
      destruct (render_cart _) as [[txt kb] cm]. reflexivity.
    + assert (Hpop : Dict.pop (or_empty (d_cart (data ctx))) name
                     = or_empty (d_cart (data ctx))).
      { revert Hin. generalize (or_empty (d_cart (data ctx))).
        induction t as [|[k v] t IH]; simpl; auto.
        destruct (String.eqb k name); [discriminate|].
        intros H. now rewrite IH. }
      rewrite Hpop. unfold show_cart_again, cart_names.
      destruct (Dict.is_empty _); [reflexivity|].
      destruct (render_cart _) as [[txt kb] cm]. reflexivity.
Qed.

Lemma stale_key_handling_witness :
  select_equipment Sample.inventory "select:i7" Sample.shopping
  = Some (with_data (set_callback_map [("i0", "Oscilloscope")] (Some 0))
                    Sample.shopping,
          [Answer msg_stale_select
                  (Some (fst (fst (build_inventory_keyboard Sample.inventory 0 PAGE_SIZE))));
           CallAnswer])
  /\ cart_actions Sample.inventory "cart:dec:c1" Sample.cart_after_dec
     = (Sample.cart_after_dec, [Answer msg_stale_cart None; CallAnswer]).
Proof.
  split.
  - apply (proj1 (stale_key_handling Sample.inventory Sample.shopping "i7")).
    reflexivity.
  - apply (proj1 (proj2 (proj2
      (stale_key_handling Sample.inventory Sample.cart_after_dec "c1"))) "dec").
    + left. reflexivity.
    + reflexivity.
    + reflexivity.
Defined.

(** C5, as stated, fails: the key [c0] was issued for the cart entry
    "Laptop"; after that entry is removed the cart map is regenerated and
    binds [c0] to "Oscilloscope", and a press of the old button
    [cart:remove:c0] is not recognised as stale but removes "Oscilloscope". *)
Lemma stale_cart_key_resolves_to_other_entry :
  Dict.get (or_empty (d_cart_map (data Sample.cart_shown))) "c0" = Some "Laptop"
  /\ d_cart_map (data Sample.cart_after_dec) = Some [("c0", "Oscilloscope")]
  /\ cart_names Sample.cart_after_dec = ["Oscilloscope"]
  /\ cart_actions Sample.inventory "cart:remove:c0" Sample.cart_after_dec
     = (with_data (set_cart []) Sample.cart_after_dec,
        [Answer "Позиция 'Oscilloscope' полностью удалена из корзины." None;
         CallAnswer; Answer msg_cart_empty None]).
Proof. repeat split. Qed.

(* ================================================================== *)
(** ** The check at confirmation (claim C4) *)
(* ================================================================== *)






(* ================================================================== *)
(** ** Stored dates and times read back *)
(* ================================================================== *)

Lemma forallb_seq (p : nat -> bool) (n : nat) :
  forallb p (seq 0 n) = true -> forall k, (k < n)%nat -> p k = true.
Proof.
  intros H k Hk. rewrite forallb_forall in H. apply H.
  apply in_seq. lia.
Qed.

Lemma all_times_roundtrip :
  forallb (fun h => forallb (time_roundtrip_ok h) (seq 0 60)) (seq 0 24) = true.
Proof. vm_compute. reflexivity. Qed.

(** Formatting a time of day and parsing it again gives the same time. *)
Lemma time_HM_strftime (t : time) :
  valid_time t -> Strptime.time_HM (strftime_HM t) = Some t.
Proof.
  destruct t as [h m]. intros [Hh Hm]. simpl in Hh, Hm.
  pose proof (forallb_seq _ _ all_times_roundtrip h Hh) as H1.
  pose proof (forallb_seq _ _ H1 m Hm) as H2.
  unfold time_roundtrip_ok in H2. unfold Strptime.time_HM.
  destruct (Strptime.matches_HM _) as [|[[h' m'] [|]] rest]; try discriminate.
  apply andb_true_iff in H2. destruct H2 as [Eh Em].
  apply Nat.eqb_eq in Eh. apply Nat.eqb_eq in Em. now subst.
Qed.

Lemma is_digit_dval (c : ascii) :
  PyStr.is_digit c = true -> (Strptime.dval c <= 9)%nat.
Proof.
  unfold PyStr.is_digit, Strptime.dval. intros H.
  apply andb_true_iff in H. destruct H as [_ H]. apply Nat.leb_le in H. lia.
Qed.

Lemma in_two (pa pb : nat -> bool) (s : string) (v : nat) (r : string) :
  In (v, r) (Strptime.two pa pb s) ->
  exists a b, (a <= 9 /\ b <= 9)%nat /\ pa a = true /\ pb b = true
              /\ v = (10 * a + b)%nat.
Proof.
  unfold Strptime.two. destruct s as [|a [|b r']]; try contradiction.
  destruct (PyStr.is_digit a) eqn:Da; [|contradiction].
  destruct (PyStr.is_digit b) eqn:Db; [|contradiction].
  destruct (pa _) eqn:Pa; [|contradiction].
  destruct (pb _) eqn:Pb; [|contradiction].
  simpl. intros [H|[]]. inversion H; subst.
  exists (Strptime.dval a), (Strptime.dval b).
  auto using is_digit_dval.
Qed.

Lemma in_one (pa : nat -> bool) (s : string) (v : nat) (r : string) :
  In (v, r) (Strptime.one pa s) -> (v <= 9)%nat /\ pa v = true.
Proof.
  unfold Strptime.one. destruct s as [|a r']; try contradiction.
  destruct (PyStr.is_digit a) eqn:Da; [|contradiction].
  destruct (pa _) eqn:Pa; [|contradiction].
  simpl. intros [H|[]]. inversion H; subst. auto using is_digit_dval.
Qed.

Lemma in_dir_H (s : string) (v : nat) (r : string) :
  In (v, r) (Strptime.dir_H s) -> (v < 24)%nat.
Proof.
  unfold Strptime.dir_H. rewrite !in_app_iff.
  intros [H|[H|H]].
  - apply in_two in H. destruct H as (a & b & _ & Ha & Hb & ->).
    unfold Strptime.exactly in Ha. unfold Strptime.upto in Hb.
    apply Nat.eqb_eq in Ha. apply Nat.leb_le in Hb. lia.
  - apply in_two in H. destruct H as (a & b & [_ Hb9] & Ha & _ & ->).
    unfold Strptime.upto in Ha. apply Nat.leb_le in Ha. lia.
  - apply in_one in H. lia.
Qed.

Lemma in_dir_M (s : string) (v : nat) (r : string) :
  In (v, r) (Strptime.dir_M s) -> (v < 60)%nat.
Proof.
  unfold Strptime.dir_M. rewrite !in_app_iff.
  intros [H|H].
  - apply in_two in H. destruct H as (a & b & [_ Hb9] & Ha & _ & ->).
    unfold Strptime.upto in Ha. apply Nat.leb_le in Ha. lia.
  - apply in_one in H. lia.
Qed.

(** A parsed time is a time of day. *)
Lemma time_HM_valid (s : string) (t : time) :
  Strptime.time_HM s = Some t -> valid_time t.
Proof.
  unfold Strptime.time_HM.
  destruct (Strptime.matches_HM s) as [|[[h m] [|]] rest] eqn:E; try discriminate.
  intros H. inversion H. subst t. clear H.
  assert (Hin : In (h, m, EmptyString) (Strptime.matches_HM s))
    by (rewrite E; now left).
  unfold Strptime.matches_HM in Hin.
  apply in_flat_map in Hin. destruct Hin as [[h' r1] [Hh Hin]].
  apply in_flat_map in Hin. destruct Hin as [r2 [_ Hin]].
  apply in_map_iff in Hin. destruct Hin as [[m' r3] [Heq Hm]].
  inversion Heq; subst.
  split; simpl; [eapply in_dir_H | eapply in_dir_M]; eauto.
Qed.

Lemma all_years_roundtrip :
  forallb year_roundtrip_ok (seq 0 (Z.to_nat 10000)) = true.
Proof. vm_compute. reflexivity. Qed.

Lemma all_month_days_roundtrip :
  forallb (fun m => forallb (fun d => month_day_roundtrip_ok (S m) (S d))
                            (seq 0 31)) (seq 0 12) = true.
Proof. vm_compute. reflexivity. Qed.

Lemma dir_Y_pad (y : nat) (r : string) :
  (y < Z.to_nat 10000)%nat -> Strptime.dir_Y (PyStr.pad 4 y ++ r) = [(y, r)].
Proof.
  intros Hy.
  pose proof (forallb_seq _ _ all_years_roundtrip y Hy) as H.
  unfold year_roundtrip_ok in H.
  destruct (PyStr.pad 4 y) as [|a [|b [|c [|d [|]]]]]; try discriminate.
  revert H. unfold Strptime.dir_Y, Strptime.two. cbn [append].
  destruct (PyStr.is_digit a && PyStr.is_digit b
            && Strptime.any (Strptime.dval a) && Strptime.any (Strptime.dval b));
    [|discriminate].
  cbn [flat_map].
  destruct (PyStr.is_digit c && PyStr.is_digit d
            && Strptime.any (Strptime.dval c) && Strptime.any (Strptime.dval d));
    [|discriminate].
  cbn [map Datatypes.app]. intros H. apply Nat.eqb_eq in H. now rewrite H.
Qed.

Lemma map_flat_map {A B C : Type} (g : B -> C) (f : A -> list B) (l : list A) :
  map g (flat_map f l) = flat_map (fun x => map g (f x)) l.
Proof.
  induction l as [|x l IH]; [reflexivity|].
  cbn [flat_map]. now rewrite map_app, IH.
Qed.

(** The matches of a date are those of its year followed by those of its
    month and day. *)
Lemma matches_Ymd_split (s : string) :
  Strptime.matches_Ymd s
  = flat_map (fun '(y, r1) =>
      flat_map (fun r2 => map (fun '(m, d, r) => (y, m, d, r)) (matches_md r2))
               (Strptime.lit "-"%char r1))
      (Strptime.dir_Y s).
Proof.
  unfold Strptime.matches_Ymd, matches_md.
  apply flat_map_ext. intros [y r1].
  apply flat_map_ext. intros r2.
  rewrite map_flat_map. apply flat_map_ext. intros [m r3].
  rewrite map_flat_map. apply flat_map_ext. intros r4.
  rewrite map_map. apply map_ext. now intros [d r5].
Qed.

Lemma days_in_month_le_31 (y m : nat) : (Strptime.days_in_month y m <= 31)%nat.
Proof.
  unfold Strptime.days_in_month.
  do 12 (destruct m as [|m]; [try lia; destruct (Strptime.is_leap y); lia|]).
  lia.
Qed.

(** Writing a date in ISO form and parsing it again gives the same date. *)
Lemma date_Ymd_isoformat (d : date) :
  valid_date d -> Strptime.date_Ymd (isoformat d) = Some d.
Proof.
  destruct d as [y m dd]. intros (Hy & Hm & Hd). simpl in Hy, Hm, Hd.
  unfold Strptime.date_Ymd, isoformat. cbn [year month day].
  rewrite matches_Ymd_split, dir_Y_pad by lia.
  cbn [flat_map]. rewrite app_nil_r.
  change (Strptime.lit "-"%char ("-" ++ PyStr.pad 2 m ++ "-" ++ PyStr.pad 2 dd))
    with [PyStr.pad 2 m ++ "-" ++ PyStr.pad 2 dd].
  cbn [flat_map]. rewrite app_nil_r.
  pose proof (days_in_month_le_31 y m) as H31.
  assert (Hok : month_day_roundtrip_ok m dd = true).
  { destruct m as [|m']; [lia|]. destruct dd as [|dd']; [lia|].
    pose proof (forallb_seq _ _ all_month_days_roundtrip m' ltac:(lia)) as H1.
    apply (forallb_seq _ _ H1 dd'). lia. }
  unfold month_day_roundtrip_ok in Hok.
  destruct (matches_md _) as [|[[m1 d1] [|]] rest]; try discriminate.
  apply andb_true_iff in Hok. destruct Hok as [Em Ed].
  apply Nat.eqb_eq in Em. apply Nat.eqb_eq in Ed. subst m1 d1.
  cbn [map].
  destruct (Nat.leb_spec 1 y); [|lia].
  destruct (Nat.leb_spec dd (Strptime.days_in_month y m)); [|lia].
  reflexivity.
Qed.

Lemma in_dir_Y (s : string) (v : nat) (r : string) :
  In (v, r) (Strptime.dir_Y s) -> Z.of_nat v <= 9999.
Proof.
  unfold Strptime.dir_Y. intros H.
  apply in_flat_map in H. destruct H as [[hi r1] [Hhi H]].
  apply in_map_iff in H. destruct H as [[lo r2] [Heq Hlo]].
  inversion Heq; subst.
  apply in_two in Hhi. destruct Hhi as (a & b & [Ha Hb] & _ & _ & ->).
  apply in_two in Hlo. destruct Hlo as (c & e & [Hc He] & _ & _ & ->).
  lia.
Qed.

Lemma in_dir_m (s : string) (v : nat) (r : string) :
  In (v, r) (Strptime.dir_m s) -> (1 <= v <= 12)%nat.
Proof.
  unfold Strptime.dir_m. rewrite !in_app_iff.
  unfold Strptime.exactly, Strptime.upto, Strptime.between.
  intros [H|[H|H]].
  - apply in_two in H. destruct H as (a & b & _ & Ha & Hb & ->).
    apply Nat.eqb_eq in Ha. apply Nat.leb_le in Hb. lia.
  - apply in_two in H. destruct H as (a & b & _ & Ha & Hb & ->).
    apply Nat.eqb_eq in Ha. apply andb_true_iff in Hb.
    destruct Hb as [Hb1 Hb2]. apply Nat.leb_le in Hb1. apply Nat.leb_le in Hb2.
    lia.
  - apply in_one in H. destruct H as [_ H]. apply andb_true_iff in H.
    destruct H as [H1 H2]. apply Nat.leb_le in H1. apply Nat.leb_le in H2. lia.
Qed.

(** A parsed date is a calendar date. *)
Lemma date_Ymd_valid (s : string) (d : date) :
  Strptime.date_Ymd s = Some d -> valid_date d.
Proof.
  unfold Strptime.date_Ymd.
  destruct (Strptime.matches_Ymd s) as [|[[[y m] dd] [|]] rest] eqn:E;
    try discriminate.
  destruct (Nat.leb_spec 1 y) as [Hy|]; [|discriminate].
  destruct (Nat.leb_spec dd (Strptime.days_in_month y m)) as [Hd|];
    [|discriminate].
  cbn [andb]. intros H. inversion H. subst d. clear H.
  assert (Hin : In (y, m, dd, EmptyString) (Strptime.matches_Ymd s))
    by (rewrite E; now left).
  unfold Strptime.matches_Ymd in Hin.
  apply in_flat_map in Hin. destruct Hin as [[y' r1] [HY Hin]].
  apply in_flat_map in Hin. destruct Hin as [r2 [_ Hin]].
  apply in_flat_map in Hin. destruct Hin as [[m' r3] [HM Hin]].
  apply in_flat_map in Hin. destruct Hin as [r4 [_ Hin]].
  apply in_map_iff in Hin. destruct Hin as [[d' r5] [Heq HD]].
  inversion Heq; subst.
  apply in_dir_Y in HY. apply in_dir_m in HM.
  assert (Hd1 : (1 <= dd)%nat).
  { unfold Strptime.dir_d in HD. rewrite !in_app_iff in HD.
    unfold Strptime.exactly, Strptime.upto, Strptime.between in HD.
    destruct HD as [H|[H|[H|[H|H]]]].
    - apply in_two in H. destruct H as (a & b & _ & Ha & _ & ->).
      apply Nat.eqb_eq in Ha. lia.
    - apply in_two in H. destruct H as (a & b & _ & Ha & _ & ->).
      apply andb_true_iff in Ha. destruct Ha as [Ha _].
      apply Nat.leb_le in Ha. lia.
    - apply in_two in H. destruct H as (a & b & _ & _ & Hb & ->).
      apply andb_true_iff in Hb. destruct Hb as [Hb _].
      apply Nat.leb_le in Hb. lia.
    - apply in_one in H. destruct H as [_ H]. apply andb_true_iff in H.
      destruct H as [H _]. apply Nat.leb_le in H. lia.
    - apply in_flat_map in H. destruct H as [r6 [_ H]].
      apply in_one in H. destruct H as [_ H]. apply andb_true_iff in H.
      destruct H as [H _]. apply Nat.leb_le in H. lia. }
  unfold valid_date. cbn [year month day]. lia.
Qed.

(* ================================================================== *)
(** ** The date and time steps *)
(* ================================================================== *)

(** X1.  Once [process_date] and [process_start] have accepted their texts,
    [process_end] cannot raise on the stored start time.  It accepts an end
    time exactly when it is strictly later than the start (an equal time is
    refused), and the three stored strings then read back as the date and
    the two times that were typed. *)
Theorem date_and_window_steps
    (ctx : fsm) (td ts te : string) (d : date) (s e : time) :
  Strptime.date_Ymd (PyStr.strip td) = Some d ->
  Strptime.time_HM (PyStr.strip ts) = Some s ->
  Strptime.time_HM (PyStr.strip te) = Some e ->
  let ctx2 := fst (process_start ts (fst (process_date td ctx))) in
  (time_ltb s e = true ->
   exists ctx3 sent,
     process_end te ctx2 = Some (ctx3, sent)
     /\ state ctx3 = Some waiting_for_name
     /\ stored_request (data ctx3)
        = Some (d, s, e, or_empty (d_requested_parsed (data ctx))))
  /\ (time_ltb s e = false ->
      process_end te ctx2
      = Some (ctx2, [Answer "Время окончания должно быть позже времени начала."
                            None])).
Proof.
  intros Hd Hs He ctx2.
  pose proof (date_Ymd_isoformat d (date_Ymd_valid _ _ Hd)) as Rd.
  pose proof (time_HM_strftime s (time_HM_valid _ _ Hs)) as Rs.
  pose proof (time_HM_strftime e (time_HM_valid _ _ He)) as Re.
  assert (Hctx2 : ctx2 = set_state waiting_for_end
                    (with_data (set_start_time (strftime_HM s))
                       (set_state waiting_for_start
                          (with_data (set_booking_date (isoformat d)) ctx)))).
  { unfold ctx2, process_start, process_date. now rewrite Hd, Hs. }
  unfold process_end. rewrite He, Hctx2.
  cbn [data set_state with_data set_start_time d_start_time].
  rewrite Rs. unfold time_leb.
  split; intros Hlt; rewrite Hlt; cbn [negb].
  - eexists. eexists. split; [reflexivity|].
    split; [reflexivity|].
    unfold stored_request.
    cbn [data set_state with_data set_end_time set_start_time set_booking_date
         d_booking_date d_start_time d_end_time d_requested_parsed].
    now rewrite Rd, Rs, Re.
  - reflexivity.
Qed.

Lemma date_and_window_steps_witness :
  exists ctx3 sent,
    process_end "10:00"
      (fst (process_start " 9:5" (fst (process_date "2026-3-1" cleared))))
    = Some (ctx3, sent)
    /\ state ctx3 = Some waiting_for_name
    /\ stored_request (data ctx3)
       = Some (mkDate 2026 3 1, mkTime 9 5, mkTime 10 0, []).
Proof.
  apply (proj1 (date_and_window_steps cleared "2026-3-1" " 9:5" "10:00"
                  (mkDate 2026 3 1) (mkTime 9 5) (mkTime 10 0)
                  eq_refl eq_refl eq_refl)).
  reflexivity.
Defined.

(* ================================================================== *)
(** ** The cart text reads back as the cart *)
(* ================================================================== *)

Lemma int_digits_acc (d : Decimal.uint) :
  forall p : positive,
    PyStr.int_digits (Zpos p) true (NilEmpty.string_of_uint d)
    = Some (Zpos (Pos.of_uint_acc d p)).
Proof.
  induction d; intros p; cbn [NilEmpty.string_of_uint Pos.of_uint_acc];
    [reflexivity | ..];
    cbn [PyStr.int_digits];
    match goal with
    | |- context [PyStr.is_digit ?c] =>
        change (PyStr.is_digit c) with true;
        let v := eval vm_compute in (PyStr.digit_val c) in
        change (PyStr.digit_val c) with v
    end; cbv iota;
    rewrite <- IHd; f_equal; lia.
Qed.

Lemma int_digits_zero (d : Decimal.uint) :
  forall prev : bool,
    d <> Nil \/ prev = true ->
    PyStr.int_digits 0 prev (NilEmpty.string_of_uint d)
    = Some (Z.of_N (Pos.of_uint d)).
Proof.
  induction d; intros prev Hne;
    cbn [NilEmpty.string_of_uint Pos.of_uint].
  - destruct Hne as [Hne | ->]; [contradiction | reflexivity].
  - cbn [PyStr.int_digits]. change (PyStr.is_digit "0") with true. cbv iota.
    change (0 * 10 + PyStr.digit_val "0") with 0. apply IHd. now right.
  - apply (int_digits_acc d 1).
  - apply (int_digits_acc d 2).
  - apply (int_digits_acc d 3).
  - apply (int_digits_acc d 4).
  - apply (int_digits_acc d 5).
  - apply (int_digits_acc d 6).
  - apply (int_digits_acc d 7).
  - apply (int_digits_acc d 8).
  - apply (int_digits_acc d 9).
Qed.

(** No character of a decimal numeral satisfies a test that digits fail. *)
Lemma numeral_chars (p : ascii -> bool) (d : Decimal.uint) :
  (forall c, PyStr.is_digit c = true -> p c = false) ->
  any_char p (NilEmpty.string_of_uint d) = false.
Proof.
  intros Hp. induction d; cbn [NilEmpty.string_of_uint any_char];
    [reflexivity | ..]; rewrite IHd, Hp; reflexivity.
Qed.

Lemma digit_not_space (c : ascii) : PyStr.is_digit c = true -> PyStr.is_space c = false.
Proof.
  intros H. pose proof (StrFacts.digits_no_space (String c EmptyString)) as G.
  simpl in G. rewrite H in G. specialize (G eq_refl).
  now apply orb_false_iff in G.
Qed.

Lemma digit_not_separator (c : ascii) :
  PyStr.is_digit c = true -> is_separator c = false.
Proof.
  unfold PyStr.is_digit, is_separator, PyStr.char_eqb. intros H.
  apply andb_true_iff in H. destruct H as [Hlo Hhi].
  apply Nat.leb_le in Hlo. apply Nat.leb_le in Hhi.
  destruct (Ascii.eqb_spec c PyStr.semicolon) as [->|_]; [vm_compute in Hhi; lia|].
  destruct (Ascii.eqb_spec c PyStr.comma) as [->|_]; [vm_compute in Hlo; lia|].
  destruct (Ascii.eqb_spec c PyStr.newline) as [->|_]; [vm_compute in Hlo; lia|].
  reflexivity.
Qed.

Lemma pos_numeral (p : positive) :
  PyStr.of_Z (Zpos p) = NilEmpty.string_of_uint (Pos.to_uint p).
Proof.
  unfold PyStr.of_Z. cbn [Z.to_int NilZero.string_of_int].
  unfold NilZero.string_of_uint.
  pose proof (DecimalPos.Unsigned.to_uint_nonnil p) as H.
  now destruct (Pos.to_uint p).
Qed.

Lemma neg_numeral (p : positive) :
  PyStr.of_Z (Zneg p) = String "-" (NilEmpty.string_of_uint (Pos.to_uint p)).
Proof.
  unfold PyStr.of_Z. cbn [Z.to_int NilZero.string_of_int].
  unfold NilZero.string_of_uint.
  pose proof (DecimalPos.Unsigned.to_uint_nonnil p) as H.
  now destruct (Pos.to_uint p).
Qed.

(** The decimal text of an integer has no whitespace and no separator. *)
Lemma of_Z_chars (p : ascii -> bool) (z : Z) :
  (forall c, PyStr.is_digit c = true -> p c = false) ->
  p "-"%char = false ->
  any_char p (PyStr.of_Z z) = false.
Proof.
  intros Hp Hm. destruct z as [|q|q].
  - cbn. rewrite Hp; reflexivity.
  - rewrite pos_numeral. now apply numeral_chars.
  - rewrite neg_numeral. cbn [any_char]. rewrite Hm. now apply numeral_chars.
Qed.

(** [int(str(z)) == z] *)
Lemma int_of_Z (z : Z) : PyStr.int (PyStr.of_Z z) = Some z.
Proof.
  unfold PyStr.int.
  rewrite StrFacts.strip_no_space
    by (apply of_Z_chars; [apply digit_not_space | reflexivity]).
  destruct z as [|q|q].
  - reflexivity.
  - rewrite pos_numeral.
    pose proof (int_digits_zero (Pos.to_uint q) false
                  (or_introl (DecimalPos.Unsigned.to_uint_nonnil q))) as H.
    rewrite DecimalPos.Unsigned.of_to in H. cbn [Z.of_N] in H.
    destruct (Pos.to_uint q); cbn [NilEmpty.string_of_uint] in *; exact H.
  - rewrite neg_numeral.
    pose proof (int_digits_zero (Pos.to_uint q) false
                  (or_introl (DecimalPos.Unsigned.to_uint_nonnil q))) as H.
    rewrite DecimalPos.Unsigned.of_to in H. cbn [Z.of_N] in H.
    rewrite H. reflexivity.
Qed.

Lemma split_on_no_sep (p : ascii -> bool) (s : string) :
  any_char p s = false -> split_on p s = [s].
Proof.
  induction s as [|c s IH]; cbn [any_char split_on]; [reflexivity|].
  intros H. apply orb_false_iff in H. destruct H as [Hc Hs].
  now rewrite Hc, IH.
Qed.

Lemma split_on_app_sep (p : ascii -> bool) (a : string) (c : ascii) (b : string) :
  p c = true ->
  split_on p (a ++ String c b) = (split_on p a ++ split_on p b)%list.
Proof.
  intros Hc. induction a as [|x a IH]; cbn [append split_on].
  - now rewrite Hc.
  - rewrite IH. destruct (p x); [reflexivity|].
    destruct (split_on p a) as [|h t] eqn:E; [|reflexivity].
    now apply split_on_not_empty in E.
Qed.

Lemma parse_chunk_strip (c : string) : parse_chunk (PyStr.strip c) = parse_chunk c.
Proof. unfold parse_chunk. now rewrite StrFacts.strip_idem. Qed.

Lemma parse_chunk_leading_space (c : string) :
  parse_chunk (String PyStr.space c) = parse_chunk c.
Proof.
  rewrite <- (parse_chunk_strip (String PyStr.space c)), <- (parse_chunk_strip c).
  reflexivity.
Qed.

(** The chunk written for a cart entry parses to that entry. *)
Lemma parse_chunk_item (k : string) (v : Z) :
  plain_name k ->
  parse_chunk (k ++ ":" ++ PyStr.of_Z v) = Some (k, v).
Proof.
  intros (Hstrip & _ & Hcolon).
  change (k ++ ":" ++ PyStr.of_Z v) with (k ++ String PyStr.colon (PyStr.of_Z v)).
  rewrite (parse_chunk_name_colon_int k (PyStr.of_Z v) v Hcolon (int_of_Z v)).
  now rewrite Hstrip.
Qed.

Lemma any_char_app (p : ascii -> bool) (a b : string) :
  any_char p (a ++ b) = any_char p a || any_char p b.
Proof.
  induction a as [|x a IH]; cbn [append any_char]; [reflexivity|].
  now rewrite IH, orb_assoc.
Qed.

Lemma item_no_separator (k : string) (v : Z) :
  plain_name k -> any_char is_separator (k ++ ":" ++ PyStr.of_Z v) = false.
Proof.
  intros (_ & Hsep & _). rewrite any_char_app, Hsep.
  cbn [append any_char orb].
  change (is_separator ":") with false. cbn [orb].
  apply of_Z_chars; [apply digit_not_separator | reflexivity].
Qed.

(** The entries read from the text written for a cart are the cart's. *)
Lemma entries_of_resources_text (cart : Dict.t Z) :
  Forall plain_name (Dict.keys cart) ->
  entries (chunks (resources_text cart)) = cart.
Proof.
  unfold resources_text, chunks.
  induction cart as [|[k v] cart IH]; intros Hplain; [reflexivity|].
  inversion Hplain as [|? ? Hk Hrest]; subst.
  specialize (IH Hrest).
  destruct cart as [|[k2 v2] cart].
  - cbn [map PyStr.join].
    rewrite split_on_no_sep by now apply item_no_separator.
    cbn [entries flat_map]. now rewrite parse_chunk_item.
  - cbn [map PyStr.join] in *.
    change ((k ++ ":" ++ PyStr.of_Z v) ++ "; " ++ ?s)
      with ((k ++ ":" ++ PyStr.of_Z v) ++ String PyStr.semicolon (String PyStr.space s)).
    rewrite split_on_app_sep by reflexivity.
    rewrite split_on_no_sep by now apply item_no_separator.
    rewrite entries_app. cbn [entries flat_map Datatypes.app].
    rewrite parse_chunk_item by assumption. cbn [Datatypes.app].
    f_equal. rewrite <- IH.
    cbn [split_on]. change (is_separator PyStr.space) with false. cbv iota.
    destruct (split_on is_separator _) as [|h t] eqn:E.
    + now apply split_on_not_empty in E.
    + unfold entries. cbn [flat_map]. now rewrite parse_chunk_leading_space.
Qed.

Lemma set_fresh {V : Type} (d : Dict.t V) (k : string) (v : V) :
  ~ In k (Dict.keys d) -> Dict.set d k v = (d ++ [(k, v)])%list.
Proof.
  induction d as [|[k' v'] d IH]; cbn [Dict.set Dict.keys map fst In Datatypes.app];
    [reflexivity|].
  intros H. destruct (String.eqb_spec k' k) as [->|_].
  - exfalso. apply H. now left.
  - f_equal. apply IH. intros Hin. apply H. now right.
Qed.

Lemma fold_set_fresh (es acc : Dict.t Z) :
  NoDup (Dict.keys (acc ++ es)%list) ->
  fold_left (fun d '(k, v) => Dict.set d k v) es acc = (acc ++ es)%list.
Proof.
  revert acc. induction es as [|[k v] es IH]; intros acc Hnd.
  - now rewrite app_nil_r.
  - cbn [fold_left].
    assert (Hk : ~ In k (Dict.keys acc)).
    { unfold Dict.keys in *. rewrite map_app in Hnd. cbn [map fst] in Hnd.
      apply NoDup_remove_2 in Hnd. intros Hin. apply Hnd.
      apply in_or_app. now left. }
    rewrite (set_fresh acc k v Hk), IH.
    + now rewrite <- app_assoc.
    + now rewrite <- app_assoc.
Qed.

(** X2.  The text that [finish_selection] stores for a non-empty cart, and
    that is later written to the bookings sheet, reads back through
    [parse_resources] as exactly the request it stores beside it (the cart,
    in order), when no name holds a separator or a colon. *)
Theorem cart_text_reads_back (ctx : fsm) (cart : Dict.t Z) :
  d_cart (data ctx) = Some cart ->
  cart <> [] ->
  plain_cart cart ->
  let ctx' := fst (finish_selection ctx) in
  state ctx' = Some waiting_for_manager
  /\ d_requested_parsed (data ctx') = Some cart
  /\ d_resources (data ctx') = Some (resources_text cart)
  /\ parse_resources (resources_text cart) = cart.
Proof.
  intros Hcart Hne [Hnd Hplain]. unfold finish_selection. rewrite Hcart.
  cbn [or_empty]. destruct cart as [|e cart]; [contradiction|].
  cbn [Dict.is_empty fst]. repeat split.
  rewrite parse_resources_entries, entries_of_resources_text by assumption.
  now rewrite fold_set_fresh.
Qed.

Lemma cart_text_reads_back_witness :
  parse_resources (resources_text [("Laptop", 1); ("Oscilloscope", 2)])
  = [("Laptop", 1); ("Oscilloscope", 2)].
Proof.
  apply (cart_text_reads_back
           (mkFsm None (set_cart [("Laptop", 1); ("Oscilloscope", 2)] no_data))
           [("Laptop", 1); ("Oscilloscope", 2)]).
  - reflexivity.
  - discriminate.
  - split.
    + repeat constructor; simpl; intuition discriminate.
    + repeat constructor.
Defined.

(* ================================================================== *)
(** ** Records under the program's own column headers *)
(* ================================================================== *)




(* ================================================================== *)
(** ** The cart stays sound under every button *)
(* ================================================================== *)

Lemma forall_set (P : string * Z -> Prop) (d : Dict.t Z) (k : string) (v : Z) :
  (forall k', P (k', v)) -> Forall P d -> Forall P (Dict.set d k v).
Proof.
  intros Hv. induction 1 as [|[k0 v0] d H0 Hd IH]; cbn [Dict.set].
  - constructor; [apply Hv | constructor].
  - destruct (String.eqb k0 k); constructor; auto.
Qed.

Lemma forall_pop (P : string * Z -> Prop) (d : Dict.t Z) (k : string) :
  Forall P d -> Forall P (Dict.pop d k).
Proof.
  induction 1 as [|[k0 v0] d H0 Hd IH]; cbn [Dict.pop]; [constructor|].
  destruct (String.eqb k0 k); [assumption | now constructor].
Qed.

Lemma keys_pop_incl (d : Dict.t Z) (k x : string) :
  In x (Dict.keys (Dict.pop d k)) -> In x (Dict.keys d).
Proof.
  induction d as [|[k0 v0] d IH]; cbn [Dict.pop Dict.keys map fst]; [tauto|].
  destruct (String.eqb k0 k); cbn [map fst In]; [now right|].
  intros [H|H]; [now left | right; now apply IH].
Qed.

Lemma nodup_pop (d : Dict.t Z) (k : string) :
  NoDup (Dict.keys d) -> NoDup (Dict.keys (Dict.pop d k)).
Proof.
  induction d as [|[k0 v0] d IH]; cbn [Dict.pop Dict.keys map fst];
    [constructor|].
  intros H. inversion H as [|? ? Hnot Hnd]; subst.
  destruct (String.eqb k0 k); [assumption|].
  cbn [map fst]. constructor; [|now apply IH].
  intros Hin. apply Hnot. now apply keys_pop_incl in Hin.
Qed.

Lemma get_default_ge_one (d : Dict.t Z) (k : string) :
  Forall (fun item => 1 <= snd item) d -> 0 <= Dict.get_default d k 0.
Proof.
  unfold Dict.get_default. induction 1 as [|[k0 v0] d H0 Hd IH]; cbn [Dict.get].
  - lia.
  - destruct (String.eqb k0 k); [simpl in H0; lia | assumption].
Qed.

Lemma picked_count_ge_one (tmp : option temp_selection) (key : string) :
  (forall t, tmp = Some t -> 1 <= ts_count t) -> 1 <= picked_count tmp key.
Proof.
  intros H. unfold picked_count. destruct tmp as [t|]; [|lia].
  destruct (String.eqb (ts_key t) key); [now apply H | lia].
Qed.

(** Soundness only looks at the cart, the pick and the stored request. *)
Lemma cart_sound_same (ctx ctx' : fsm) :
  d_cart (data ctx') = d_cart (data ctx) ->
  d_temp_select (data ctx') = d_temp_select (data ctx) ->
  d_requested_parsed (data ctx') = d_requested_parsed (data ctx) ->
  cart_sound ctx -> cart_sound ctx'.
Proof. unfold cart_sound. intros -> -> ->. tauto. Qed.

Lemma cart_sound_new_cart (ctx : fsm) (cart : Dict.t Z) :
  NoDup (Dict.keys cart) ->
  Forall (fun item => 1 <= snd item) cart ->
  cart_sound ctx -> cart_sound (with_data (set_cart cart) ctx).
Proof.
  unfold cart_sound. cbn. tauto.
Qed.

Lemma cart_sound_new_pick (ctx : fsm) (t : temp_selection) :
  1 <= ts_count t ->
  cart_sound ctx -> cart_sound (with_data (set_temp_select t) ctx).
Proof.
  unfold cart_sound. cbn. intros Ht (H1 & H2 & H3 & H4).
  split; [assumption|]. split; [assumption|]. split; [|assumption].
  intros t' E. inversion E; subst. assumption.
Qed.

Lemma cart_sound_show_again (ctx : fsm) (sent : list action) :
  cart_sound ctx -> cart_sound (fst (show_cart_again ctx sent)).
Proof.
  unfold show_cart_again.
  destruct (Dict.is_empty _); [trivial|].
  destruct (render_cart _) as [[txt kb] cm]. apply cart_sound_same; reflexivity.
Qed.

Lemma cart_sound_select (inventory : Dict.t Z) (call_data : string)
      (ctx ctx' : fsm) (sent : list action) :
  select_equipment inventory call_data ctx = Some (ctx', sent) ->
  cart_sound ctx -> cart_sound ctx'.
Proof.
  unfold select_equipment.
  destruct (PyStr.split_first _ _) as [[p key]|]; [|discriminate].
  destruct (lookup_name _ key) as [name|].
  - intros H. inversion H; subst. apply cart_sound_new_pick. cbn. lia.
  - destruct (build_inventory_keyboard _ _ _) as [[kb cmap] tp].
    intros H. inversion H; subst. apply cart_sound_same; reflexivity.
Qed.

Lemma cart_sound_qty (inventory : Dict.t Z) (call_data : string) (ctx : fsm) :
  cart_sound ctx -> cart_sound (fst (qty_handler inventory call_data ctx)).
Proof.
  intros Hs. unfold qty_handler.
  destruct (PyStr.split _ _) as [|p0 [|p1 rest]]; try exact Hs.
  destruct (String.eqb p1 "cancel").
  { destruct (build_inventory_keyboard _ _ _) as [[kb cmap] tp].
    revert Hs. apply cart_sound_same; reflexivity. }
  destruct rest as [|act [|]]; try exact Hs.
  destruct (lookup_name _ p1) as [name|].
  2:{ destruct (build_inventory_keyboard _ _ _) as [[kb cmap] tp].
      revert Hs. apply cart_sound_same; reflexivity. }
  pose proof Hs as (H1 & H2 & H3 & H4).
  pose proof (picked_count_ge_one _ p1 H3) as Hc.
  destruct (String.eqb act "add").
  - destruct (build_inventory_keyboard _ _ _) as [[kb cmap] tp].
    cbn [fst].
    apply (cart_sound_same (with_data (set_cart
             (Dict.set (or_empty (d_cart (data ctx))) name
                (Dict.get_default (or_empty (d_cart (data ctx))) name 0
                 + picked_count (d_temp_select (data ctx)) p1))) ctx));
      try reflexivity.
    apply cart_sound_new_cart; [| |exact Hs].
    + now apply DictFacts.set_keeps_nodup.
    + apply forall_set; [|assumption].
      intros k'. cbn. pose proof (get_default_ge_one _ name H2). lia.
  - cbn [fst]. apply cart_sound_new_pick; [|exact Hs]. cbn.
    destruct (String.eqb act "inc"); [|destruct (String.eqb act "dec")].
    + destruct (_ <? _); lia.
    + destruct (Z.ltb_spec 1 (picked_count (d_temp_select (data ctx)) p1)); lia.
    + assumption.
Qed.

Lemma cart_sound_page (inventory : Dict.t Z) (call_data : string) (ctx : fsm) :
  cart_sound ctx -> cart_sound (fst (page_handler inventory call_data ctx)).
Proof.
  intros Hs. unfold page_handler.
  destruct (PyStr.split_first _ _) as [[p0 p]|]; [|exact Hs].
  destruct (PyStr.int p); [|exact Hs].
  destruct (build_inventory_keyboard _ _ _) as [[kb cmap] tp].
  revert Hs. apply cart_sound_same; reflexivity.
Qed.

Lemma cart_sound_view (ctx : fsm) :
  cart_sound ctx -> cart_sound (fst (view_cart ctx)).
Proof.
  intros Hs. unfold view_cart.
  destruct (Dict.is_empty _); [exact Hs|].
  destruct (render_cart _) as [[txt kb] cm].
  revert Hs. apply cart_sound_same; reflexivity.
Qed.

Lemma cart_sound_cart_actions (inventory : Dict.t Z) (call_data : string)
      (ctx : fsm) :
  cart_sound ctx -> cart_sound (fst (cart_actions inventory call_data ctx)).
Proof.
  intros Hs. unfold cart_actions.
  destruct (PyStr.split _ _) as [|p0 [|act rest]]; try exact Hs.
  destruct (String.eqb act "clear").
  { apply cart_sound_new_cart; [constructor | constructor | exact Hs]. }
  destruct (String.eqb act "close").
  { destruct (build_inventory_keyboard _ _ _) as [[kb cmap] tp].
    revert Hs. apply cart_sound_same; reflexivity. }
  destruct (String.eqb act "dec" || String.eqb act "remove"); [|exact Hs].
  destruct rest as [|key [|]]; try exact Hs.
  destruct (lookup_name _ key) as [name|]; [|exact Hs].
  pose proof Hs as (H1 & H2 & _).
  destruct (String.eqb act "dec").
  - destruct (Z.leb_spec (Dict.get_default (or_empty (d_cart (data ctx))) name 0) 1).
    + apply cart_sound_show_again, cart_sound_new_cart;
        auto using nodup_pop, forall_pop.
    + apply cart_sound_show_again, cart_sound_new_cart; auto.
      * now apply DictFacts.set_keeps_nodup.
      * apply forall_set; [|assumption]. intros k'. cbn. lia.
  - destruct (Dict.mem _ name).
    + apply cart_sound_show_again, cart_sound_new_cart;
        auto using nodup_pop, forall_pop.
    + now apply cart_sound_show_again.
Qed.

Lemma cart_sound_manual (ctx : fsm) :
  cart_sound ctx -> cart_sound (fst (manual_input ctx)).
Proof.
  intros Hs. unfold manual_input. cbn [fst].
  apply cart_sound_new_cart; [constructor | constructor | exact Hs].
Qed.

Lemma cart_sound_finish (ctx : fsm) :
  cart_sound ctx -> cart_sound (fst (finish_selection ctx)).
Proof.
  intros Hs. unfold finish_selection.
  destruct (or_empty (d_cart (data ctx))) as [|item cart] eqn:E; [exact Hs|].
  cbn [Dict.is_empty fst]. destruct Hs as (H1 & H2 & H3 & H4).
  rewrite E in H1, H2. unfold cart_sound. cbn. rewrite E.
  split; [assumption|]. split; [assumption|]. split; [assumption|].
  intros r Hr. inversion Hr; subst. split; [discriminate | assumption].
Qed.

Lemma button_step_sound (ctx ctx' : fsm) :
  button_step ctx ctx' -> cart_sound ctx -> cart_sound ctx'.
Proof.
  destruct 1;
    eauto using cart_sound_select, cart_sound_qty, cart_sound_page,
                cart_sound_view, cart_sound_cart_actions, cart_sound_manual,
                cart_sound_finish.
Qed.

Lemma button_steps_sound (ctx ctx' : fsm) :
  button_steps ctx ctx' -> cart_sound ctx -> cart_sound ctx'.
Proof.
  induction 1 as [|c c' c'' _ IH Hstep]; [trivial|].
  intros Hs. eapply button_step_sound; eauto.
Qed.

(** X4.  [process_name] opens the resource selection in a sound state (when
    no pick and no request are stored, as after [cmd_book]), and every
    button handler keeps it sound.  So after any sequence of button presses
    the cart holds no name twice and only quantities of at least 1, and a
    request stored by [finish_selection] is non-empty with every quantity at
    least 1. *)
Theorem buttons_keep_cart_sound
    (inventory : Dict.t Z) (name_text : string) (ctx0 ctx : fsm) :
  d_temp_select (data ctx0) = None ->
  d_requested_parsed (data ctx0) = None ->
  PyStr.strip name_text <> EmptyString ->
  button_steps (fst (process_name inventory name_text ctx0)) ctx ->
  cart_sound ctx.
Proof.
  intros Ht Hr Hname Hsteps.
  apply (button_steps_sound _ _ Hsteps).
  unfold process_name.
  destruct (PyStr.strip name_text); [contradiction|].
  destruct (build_inventory_keyboard _ _ _) as [[kb cmap] tp].
  unfold cart_sound. cbn. rewrite Ht, Hr.
  split; [constructor|]. split; [constructor|].
  split; intros x Hx; discriminate.
Qed.

Lemma buttons_keep_cart_sound_witness :
  cart_sound
    (fst (finish_selection
       (fst (qty_handler Sample.inventory "qty:i0:add"
          (fst (qty_handler Sample.inventory "qty:i0:inc"
             (fst (process_name Sample.inventory "Ann" cleared)))))))).
Proof.
  apply (buttons_keep_cart_sound Sample.inventory "Ann" cleared);
    try reflexivity; [discriminate|].
  eapply more_presses; [|apply press_finish].
  eapply more_presses; [|apply press_qty].
  eapply more_presses; [|apply press_qty].
  apply no_press.
Defined.

(* ================================================================== *)
(** ** The quantity picker *)
(* ================================================================== *)

Lemma split_colon_pair (a b : string) :
  PyStr.contains_char PyStr.colon a = false ->
  PyStr.contains_char PyStr.colon b = false ->
  PyStr.split PyStr.colon (a ++ String PyStr.colon b) = [a; b].
Proof.
  intros Ha Hb. induction a as [|c a IH]; cbn [append PyStr.split].
  - change (PyStr.char_eqb PyStr.colon PyStr.colon) with true. cbv iota.
    now rewrite split_no_sep.
  - cbn [PyStr.contains_char] in Ha. apply orb_false_iff in Ha.
    destruct Ha as [Hc Ha]. rewrite Hc, IH by assumption. reflexivity.
Qed.

Lemma qty_call_parts (key act : string) :
  PyStr.contains_char PyStr.colon key = false ->
  PyStr.contains_char PyStr.colon act = false ->
  PyStr.split PyStr.colon ("qty:" ++ key ++ String PyStr.colon act)
  = ["qty"; key; act].
Proof.
  intros Hk Ha. pose proof (split_colon_pair key act Hk Ha) as H.
  cbn. cbn in H. now rewrite H.
Qed.

(** X5.  The button "add to cart" of the quantity picker merges by
    addition: the entry of the picked name becomes its previous quantity (0
    if absent) plus the picked count, every other entry is unchanged, and
    the inventory is not consulted, so the sum may exceed the stock. *)
Theorem add_to_cart_accumulates
    (inventory : Dict.t Z) (ctx : fsm) (key name other : string) :
  PyStr.contains_char PyStr.colon key = false ->
  key <> "cancel" ->
  lookup_name (or_empty (d_callback_map (data ctx))) key = Some name ->
  let cart := or_empty (d_cart (data ctx)) in
  let count := picked_count (d_temp_select (data ctx)) key in
  let ctx' := fst (qty_handler inventory ("qty:" ++ key ++ ":add") ctx) in
  d_cart (data ctx')
  = Some (Dict.set cart name (Dict.get_default cart name 0 + count))
  /\ Dict.get (or_empty (d_cart (data ctx'))) name
     = Some (Dict.get_default cart name 0 + count)
  /\ (other <> name ->
      Dict.get (or_empty (d_cart (data ctx'))) other = Dict.get cart other).
Proof.
  intros Hkey Hcancel Hname cart count ctx'.
  assert (E : d_cart (data ctx')
              = Some (Dict.set cart name (Dict.get_default cart name 0 + count))).
  { unfold ctx', qty_handler.
    change ("qty:" ++ key ++ ":add")
      with ("qty:" ++ key ++ String PyStr.colon "add").
    rewrite qty_call_parts by (assumption || reflexivity).
    destruct (String.eqb_spec key "cancel") as [|_]; [contradiction|].
    rewrite Hname. change (String.eqb "add" "add") with true. cbv iota.
    destruct (build_inventory_keyboard _ _ _) as [[kb cmap] tp].
    reflexivity. }
  rewrite E. cbn [or_empty]. split; [reflexivity|]. split.
  - apply DictFacts.get_set_same.
  - intros Hne. apply DictFacts.get_set_other. congruence.
Qed.

Lemma add_to_cart_accumulates_witness :
  d_cart (data (fst (qty_handler Sample.inventory "qty:i0:add" picking)))
  = Some [("Oscilloscope", 4)].
Proof.
  apply (proj1 (add_to_cart_accumulates Sample.inventory picking "i0"
                  "Oscilloscope" "" eq_refl ltac:(discriminate) eq_refl)).
Defined.

(** X6.  The plus and minus buttons of the quantity picker move the picked
    count by at most one and never out of the range from 1 to the stock of
    the name: plus does nothing at (or above) the stock, minus does nothing
    at 1.  The cart is not touched. *)
Theorem picked_count_stays_in_range
    (inventory : Dict.t Z) (ctx : fsm) (key name act : string) :
  PyStr.contains_char PyStr.colon key = false ->
  key <> "cancel" ->
  lookup_name (or_empty (d_callback_map (data ctx))) key = Some name ->
  act = "inc" \/ act = "dec" ->
  let count := picked_count (d_temp_select (data ctx)) key in
  let max_cnt := Dict.get_default inventory name 0 in
  let ctx' := fst (qty_handler inventory ("qty:" ++ key ++ String PyStr.colon act) ctx) in
  let count' := picked_count (d_temp_select (data ctx')) key in
  d_temp_select (data ctx') = Some (mkTemp key name count')
  /\ (act = "inc" -> count' = if count <? max_cnt then count + 1 else count)
  /\ (act = "dec" -> count' = if 1 <? count then count - 1 else count)
  /\ (1 <= count <= max_cnt -> 1 <= count' <= max_cnt)
  /\ d_cart (data ctx') = d_cart (data ctx).
Proof.
  intros Hkey Hcancel Hname Hact count max_cnt ctx' count'.
  assert (E : exists c,
             ctx' = with_data (set_temp_select (mkTemp key name c)) ctx
             /\ (act = "inc" -> c = if count <? max_cnt then count + 1 else count)
             /\ (act = "dec" -> c = if 1 <? count then count - 1 else count)).
  { unfold ctx', qty_handler.
    rewrite qty_call_parts;
      [|assumption | destruct Hact as [-> | ->]; reflexivity].
    destruct (String.eqb_spec key "cancel") as [|_]; [contradiction|].
    rewrite Hname.
    destruct Hact as [-> | ->]; cbn [String.eqb Ascii.eqb Bool.eqb fst];
      eexists; (split; [reflexivity|]); split; intros H;
      try discriminate H; reflexivity. }
  destruct E as (c & Ectx & Hinc & Hdec).
  assert (Ec : count' = c).
  { unfold count'. rewrite Ectx. cbn. now rewrite String.eqb_refl. }
  rewrite Ec. rewrite Ectx. cbn.
  split; [reflexivity|]. split; [exact Hinc|]. split; [exact Hdec|].
  split; [|reflexivity].
  intros Hrange. destruct Hact as [-> | ->].
  - rewrite (Hinc eq_refl). destruct (Z.ltb_spec count max_cnt); lia.
  - rewrite (Hdec eq_refl). destruct (Z.ltb_spec 1 count); lia.
Qed.

Lemma picked_count_stays_in_range_witness :
  d_temp_select (data (fst (qty_handler Sample.inventory "qty:i0:inc" picking)))
  = Some (mkTemp "i0" "Oscilloscope" 2)
  /\ d_temp_select (data (fst (qty_handler Sample.inventory "qty:i0:dec" picking)))
     = Some (mkTemp "i0" "Oscilloscope" 1).
Proof.
  pose proof (picked_count_stays_in_range Sample.inventory picking "i0"
                "Oscilloscope" "inc" eq_refl ltac:(discriminate) eq_refl
                (or_introl eq_refl)) as Hinc.
  pose proof (picked_count_stays_in_range Sample.inventory picking "i0"
                "Oscilloscope" "dec" eq_refl ltac:(discriminate) eq_refl
                (or_intror eq_refl)) as Hdec.
  cbv zeta in Hinc, Hdec.
  destruct Hinc as (Hinc & _). destruct Hdec as (Hdec & _).
  split; [exact Hinc | exact Hdec].
Defined.

(* ================================================================== *)
(** ** The key maps bind exactly the keys that were issued *)
(* ================================================================== *)

Lemma get_indexed_fold_inv (key : nat -> string)
      (items : list (string * Z)) :
  forall (a : nat) (acc : Dict.t string) (k name : string),
    Dict.get
      (fold_left (fun cm '(idx, (name, _)) => Dict.set cm (key idx) name)
                 (combine (seq a (length items)) items) acc) k
    = Some name ->
    (exists i q, (a <= i)%nat /\ k = key i
                 /\ nth_error items (i - a) = Some (name, q))
    \/ Dict.get acc k = Some name.
Proof.
  induction items as [|[name0 q0] items IH]; intros a acc k name.
  - cbn. now right.
  - cbn [length seq combine fold_left]. intros H.
    apply IH in H. destruct H as [(i & q & Hi & Hk & Hnth)|H].
    + left. exists i, q. split; [lia|]. split; [assumption|].
      replace (i - a)%nat with (S (i - S a)) by lia. exact Hnth.
    + destruct (String.eqb_spec (key a) k) as [Heq|Hne].
      * subst k. rewrite DictFacts.get_set_same in H. inversion H; subst.
        left. exists a, q0. split; [lia|]. split; [reflexivity|].
        now rewrite Nat.sub_diag.
      * right. now rewrite DictFacts.get_set_other in H.
Qed.

Lemma cart_key_inj (a b : nat) : cart_key a = cart_key b -> a = b.
Proof. unfold cart_key. simpl. intros H. inversion H. now apply of_nat_inj. Qed.

Lemma indexed_map_exact (key : nat -> string)
      (Hinj : forall a b, key a = key b -> a = b)
      (items : list (string * Z)) (k name : string) :
  Dict.get
    (fold_left (fun cm '(idx, (name, _)) => Dict.set cm (key idx) name)
               (enumerate items) Dict.empty) k
  = Some name
  <-> exists idx q, k = key idx /\ nth_error items idx = Some (name, q).
Proof.
  unfold enumerate. split.
  - intros H. apply get_indexed_fold_inv in H.
    destruct H as [(i & q & _ & Hk & Hnth)|H]; [|discriminate].
    rewrite Nat.sub_0_r in Hnth. eauto.
  - intros (idx & q & -> & Hnth).
    rewrite (get_indexed_fold key Hinj). cbn [Nat.leb].
    now rewrite Nat.sub_0_r, Hnth.
Qed.

(** X7.  Whatever page is rendered, the key map returned by
    [build_inventory_keyboard] binds a key to a name exactly when the key is
    [i{idx}] for a position [idx] of the catalog and the name is the item at
    that position; every other key, such as one issued for a longer catalog,
    is unbound. *)
Theorem callback_map_binds_exactly_item_keys
    (inventory : Dict.t Z) (page page_size : Z) (k name : string) :
  Dict.get (snd (fst (build_inventory_keyboard inventory page page_size))) k
  = Some name
  <-> exists idx q, k = item_key idx /\ nth_error inventory idx = Some (name, q).
Proof.
  unfold build_inventory_keyboard. cbn [fst snd].
  apply (indexed_map_exact item_key item_key_inj).
Qed.

(** X8.  [view_cart] on a non-empty cart stores a key map that binds a key
    to a name exactly when the key is [c{idx}] for a position [idx] of the
    cart and the name is the entry at that position; on an empty cart it
    stores nothing and only says that the cart is empty. *)
Theorem cart_map_binds_exactly_cart_keys (ctx : fsm) (k name : string) :
  (or_empty (d_cart (data ctx)) <> [] ->
   Dict.get (or_empty (d_cart_map (data (fst (view_cart ctx))))) k = Some name
   <-> exists idx q, k = cart_key idx
                     /\ nth_error (or_empty (d_cart (data ctx))) idx = Some (name, q))
  /\ (or_empty (d_cart (data ctx)) = [] ->
      view_cart ctx = (ctx, [Answer msg_cart_empty None; CallAnswer])).
Proof.
  unfold view_cart. split.
  - intros Hne. destruct (or_empty (d_cart (data ctx))) as [|item cart] eqn:E;
      [contradiction|].
    cbn [Dict.is_empty]. unfold render_cart. cbn [fst with_data data set_cart_map
      d_cart_map or_empty].
    apply (indexed_map_exact cart_key cart_key_inj).
  - intros ->. reflexivity.
Qed.

Lemma cart_map_binds_exactly_cart_keys_witness :
  Dict.get (or_empty (d_cart_map (data (fst (view_cart Sample.shopping))))) "c1"
  = Some "Oscilloscope".
Proof.
  apply (proj1 (cart_map_binds_exactly_cart_keys Sample.shopping "c1" "Oscilloscope")).
  - discriminate.
  - exists 1%nat, 1. split; reflexivity.
Defined.

Lemma in_range (a b x : Z) : In x (range a b) -> a <= x < b.
Proof.
  unfold range. intros H. apply in_map_iff in H.
  destruct H as (i & <- & Hi). apply in_seq in Hi. lia.
Qed.

(** X9.  Every item button on the rendered page resolves through the
    returned key map to the item it shows: its callback data is
    [select:i{idx}] for a catalog position [idx], its label is the name and
    quantity at that position, and the map binds [i{idx}] to that name. At
    most [page_size] item buttons are shown. *)
Theorem shown_buttons_resolve
    (inventory : Dict.t Z) (page page_size : Z) (row : list button) :
  0 < page_size ->
  let total := Z.of_nat (length inventory) in
  let shown := clamp_page page (total_pages_of total page_size) in
  let visible := range (shown * page_size)
                       (Z.min (shown * page_size + page_size) total) in
  let callback_map := snd (fst (build_inventory_keyboard inventory page page_size)) in
  Z.of_nat (length visible) <= page_size
  /\ (In row (map (item_button inventory) visible) ->
      In row (fst (fst (build_inventory_keyboard inventory page page_size)))
      /\ exists idx name q,
           nth_error inventory idx = Some (name, q)
           /\ row = [mkButton (name ++ " (" ++ PyStr.of_Z q ++ ")")
                              ("select:" ++ item_key idx)]
           /\ Dict.get callback_map (item_key idx) = Some name).
Proof.
  intros Hps total shown visible callback_map.
  pose proof (total_pages_bounds total page_size Hps) as Htp. cbv zeta in Htp.
  pose proof (clamp_page_range page (total_pages_of total page_size)
                ltac:(tauto)) as [Hshown _].
  fold shown in Hshown.
  split.
  { unfold visible, range. rewrite length_map, length_seq. lia. }
  intros Hin. split.
  { unfold build_inventory_keyboard. cbn [fst].
    fold total. fold shown. fold visible.
    rewrite <- !app_assoc. apply in_or_app. now left. }
  apply in_map_iff in Hin. destruct Hin as (idx & Hrow & Hidx).
  apply in_range in Hidx.
  assert (Hlt : (Z.to_nat idx < length inventory)%nat) by (unfold total in *; nia).
  destruct (nth_error inventory (Z.to_nat idx)) as [[name q]|] eqn:Hnth.
  2:{ apply nth_error_None in Hnth. lia. }
  exists (Z.to_nat idx), name, q. split; [assumption|]. split.
  - rewrite <- Hrow. unfold item_button.
    rewrite (nth_error_nth _ _ _ Hnth). reflexivity.
  - unfold callback_map, build_inventory_keyboard. cbn [fst snd].
    eapply callback_map_spans_catalog; eauto.
Qed.

Lemma shown_buttons_resolve_witness :
  In [mkButton "item12 (1)" "select:i12"]
     (fst (fst (build_inventory_keyboard Sample.catalog23 1 10))).
Proof.
  apply (proj2 (shown_buttons_resolve Sample.catalog23 1 10
                  [mkButton "item12 (1)" "select:i12"] ltac:(lia))).
  vm_compute. intuition.
Defined.

(* ================================================================== *)
(** ** The minus button of the cart *)
(* ================================================================== *)

Lemma get_pop_other (d : Dict.t Z) (k k' : string) :
  k <> k' -> Dict.get (Dict.pop d k) k' = Dict.get d k'.
Proof.
  intros Hne. induction d as [|[k0 v0] d IH]; cbn [Dict.pop Dict.get];
    [reflexivity|].
  destruct (String.eqb_spec k0 k) as [->|].
  - destruct (String.eqb_spec k k'); [contradiction | reflexivity].
  - cbn [Dict.get]. now rewrite IH.
Qed.

Lemma get_pop_same (d : Dict.t Z) (k : string) :
  NoDup (Dict.keys d) -> Dict.get (Dict.pop d k) k = None.
Proof.
  induction d as [|[k0 v0] d IH]; cbn [Dict.pop Dict.get Dict.keys map fst];
    [reflexivity|].
  intros H. inversion H as [|? ? Hnot Hnd]; subst.
  destruct (String.eqb_spec k0 k) as [->|Hne].
  - now apply DictFacts.get_none_not_in.
  - cbn [Dict.get]. destruct (String.eqb_spec k0 k); [contradiction|]. auto.
Qed.

Lemma pop_absent (d : Dict.t Z) (k : string) :
  Dict.get d k = None -> Dict.pop d k = d.
Proof.
  induction d as [|[k0 v0] d IH]; cbn [Dict.pop Dict.get]; [reflexivity|].
  destruct (String.eqb k0 k); [discriminate|]. intros H. now rewrite IH.
Qed.

Lemma show_cart_again_cart (ctx : fsm) (sent : list action) :
  d_cart (data (fst (show_cart_again ctx sent))) = d_cart (data ctx).
Proof.
  unfold show_cart_again. destruct (Dict.is_empty _); [reflexivity|].
  now destruct (render_cart _) as [[txt kb] cm].
Qed.

Lemma show_cart_again_sent (ctx : fsm) (sent : list action) :
  exists more, snd (show_cart_again ctx sent) = (sent ++ more)%list.
Proof.
  unfold show_cart_again. destruct (Dict.is_empty _); [eexists; reflexivity|].
  destruct (render_cart _) as [[txt kb] cm]. eexists; reflexivity.
Qed.

(** X10.  The minus button of a cart entry, for a key that the stored cart
    map binds to a name: an entry above 1 loses one unit, an entry at 1 (or
    below) is removed, every other entry is unchanged.  When the cart no
    longer holds the name, the cart is left as it is and the answer still
    says that the entry was removed. *)
Theorem cart_minus_button
    (inventory : Dict.t Z) (ctx : fsm) (key name other : string) :
  PyStr.contains_char PyStr.colon key = false ->
  lookup_name (or_empty (d_cart_map (data ctx))) key = Some name ->
  NoDup (Dict.keys (or_empty (d_cart (data ctx)))) ->
  let cart := or_empty (d_cart (data ctx)) in
  let result := cart_actions inventory ("cart:dec:" ++ key) ctx in
  let cart' := or_empty (d_cart (data (fst result))) in
  (forall q, Dict.get cart name = Some q -> 1 < q ->
             Dict.get cart' name = Some (q - 1))
  /\ (forall q, Dict.get cart name = Some q -> q <= 1 ->
                Dict.get cart' name = None)
  /\ (Dict.get cart name = None ->
      cart' = cart
      /\ exists more,
           snd result
           = (Answer ("Позиция '" ++ name ++ "' удалена из корзины.") None
              :: CallAnswer :: more))
  /\ (other <> name -> Dict.get cart' other = Dict.get cart other).
Proof.
  intros Hkey Hname Hnd cart result cart'.
  assert (E : result
              = if Dict.get_default cart name 0 <=? 1 then
                  show_cart_again
                    (with_data (set_cart (Dict.pop cart name)) ctx)
                    [Answer ("Позиция '" ++ name ++ "' удалена из корзины.") None;
                     CallAnswer]
                else
                  show_cart_again
                    (with_data (set_cart
                       (Dict.set cart name (Dict.get_default cart name 0 - 1))) ctx)
                    [Answer ("Уменьшено: " ++ name ++ " на 1. Теперь: "
                             ++ PyStr.of_Z (Dict.get_default cart name 0 - 1)) None;
                     CallAnswer]).
  { unfold result, cart_actions.
    change ("cart:dec:" ++ key) with ("cart:" ++ "dec" ++ String PyStr.colon key).
    rewrite cart_call_parts by (reflexivity || assumption).
    cbn [String.eqb Ascii.eqb Bool.eqb orb]. rewrite Hname. reflexivity. }
  assert (Ecart : cart'
                  = if Dict.get_default cart name 0 <=? 1 then Dict.pop cart name
                    else Dict.set cart name (Dict.get_default cart name 0 - 1)).
  { unfold cart'. rewrite E.
    destruct (Dict.get_default cart name 0 <=? 1);
      now rewrite show_cart_again_cart. }
  unfold Dict.get_default in Ecart.
  split; [|split; [|split]].
  - intros q Hq Hlt. rewrite Ecart, Hq.
    destruct (Z.leb_spec q 1); [lia|]. apply DictFacts.get_set_same.
  - intros q Hq Hle. rewrite Ecart, Hq.
    destruct (Z.leb_spec q 1); [|lia]. now apply get_pop_same.
  - intros Hnone. rewrite Hnone in Ecart. cbn in Ecart. split.
    + rewrite Ecart. now apply pop_absent.
    + rewrite E. unfold Dict.get_default. rewrite Hnone. cbn [Z.leb Z.compare].
      destruct (show_cart_again_sent
                  (with_data (set_cart (Dict.pop cart name)) ctx)
                  [Answer ("Позиция '" ++ name ++ "' удалена из корзины.") None;
                   CallAnswer]) as [more Hmore].
      exists more. exact Hmore.
  - intros Hne. rewrite Ecart.
    destruct (_ <=? 1).
    + apply get_pop_other. congruence.
    + apply DictFacts.get_set_other. congruence.
Qed.

Lemma cart_minus_button_witness :
  Dict.get (or_empty (d_cart (data (fst
     (cart_actions Sample.inventory "cart:dec:c0" Sample.cart_shown))))) "Laptop"
  = None.
Proof.
  apply (proj1 (proj2 (cart_minus_button Sample.inventory Sample.cart_shown
                         "c0" "Laptop" "" eq_refl eq_refl
                         ltac:(repeat constructor; simpl; intuition discriminate)))
           1); [reflexivity | lia].
Defined.

(* ================================================================== *)
(** ** Typed resources *)
(* ================================================================== *)

Lemma parse_resources_blank (text : string) :
  has_content text = false -> parse_resources text = [].
Proof.
  intros H. rewrite parse_resources_entries.
  apply fold_set_empty. split; [|reflexivity].
  apply entries_empty. now rewrite chunks_content.
Qed.

(** X11.  A typed resources text that is not blank but holds only
    separators and whitespace (such as [;]) is accepted by
    [process_resources] with an empty request; [check_availability] accepts
    an empty request whatever the inventory and the ledger hold, so
    [process_manager] then shows the confirmation for a booking of
    nothing. *)
Theorem separators_only_text_books_nothing
    (w : sheets) (ctx : fsm) (txt manager employee : string)
    (d : date) (s e : time) (requested : Dict.t Z) :
  PyStr.strip txt <> EmptyString ->
  has_content (PyStr.strip txt) = false ->
  stored_request (data ctx) = Some (d, s, e, requested) ->
  d_employee_name (data ctx) = Some employee ->
  PyStr.strip manager <> EmptyString ->
  let ctx1 := fst (process_resources txt ctx) in
  let ctx2 := fst (process_manager w manager ctx1) in
  state ctx1 = Some waiting_for_manager
  /\ d_requested_parsed (data ctx1) = Some []
  /\ d_resources (data ctx1) = Some (PyStr.strip txt)
  /\ state ctx2 = Some confirm
  /\ stored_request (data ctx2) = Some (d, s, e, []).
Proof.
  intros Htxt Hblank Hreq Hemp Hman ctx1 ctx2.
  destruct ctx as [st0 [bd st et en rs rp mn ca cm km pg ts]].
  cbn [data d_employee_name] in Hemp. subst en.
  unfold stored_request in Hreq.
  cbn [data d_booking_date d_start_time d_end_time d_requested_parsed] in Hreq.
  destruct bd as [bd|]; [|discriminate].
  destruct st as [st|]; [|discriminate].
  destruct et as [et|]; [|discriminate].
  destruct (Strptime.date_Ymd bd) as [d'|] eqn:Pd; [|discriminate].
  destruct (Strptime.time_HM st) as [s'|] eqn:Ps; [|discriminate].
  destruct (Strptime.time_HM et) as [e'|] eqn:Pe; [|discriminate].
  inversion Hreq; subst d' s' e'. clear Hreq.
  unfold ctx2, ctx1, process_manager, process_resources.
  rewrite (parse_resources_blank _ Hblank).
  destruct (PyStr.strip txt) as [|c0 t0]; [contradiction|].
  destruct (PyStr.strip manager) as [|c1 m1]; [contradiction|].
  cbn [fst data state set_state with_data set_resources set_manager_name
       d_booking_date d_start_time d_end_time d_requested_parsed
       d_employee_name d_resources].
  unfold stored_request.
  cbn -[Strptime.date_Ymd Strptime.time_HM check_availability].
  rewrite Pd, Ps, Pe.
  unfold check_availability.
  cbn -[Strptime.date_Ymd Strptime.time_HM conflicts_counts].
  rewrite Pd, Ps, Pe. repeat split; reflexivity.
Qed.

Lemma separators_only_text_books_nothing_witness :
  state (fst (process_manager Sample.sheets_taken "Bob"
                (fst (process_resources " ; " Sample.confirming))))
  = Some confirm.
Proof.
  apply (separators_only_text_books_nothing Sample.sheets_taken Sample.confirming
           " ; " "Bob" "Ann" Sample.day (mkTime 9 0) (mkTime 10 0)
           [("Oscilloscope", 2)]);
    try reflexivity; discriminate.
Defined.

Lemma forall_keys_set (P : string -> Prop) (d : Dict.t Z) (k : string) (v : Z) :
  P k -> Forall P (Dict.keys d) -> Forall P (Dict.keys (Dict.set d k v)).
Proof.
  intros Hk Hd. rewrite DictFacts.keys_set.
  destruct (Dict.mem d k); [assumption|].
  apply Forall_app. split; [assumption | constructor; [assumption | constructor]].
Qed.

Lemma parse_chunk_name_trimmed (c k : string) (v : Z) :
  parse_chunk c = Some (k, v) -> PyStr.strip k = k.
Proof.
  destruct (PyStr.strip c) eqn:E.
  - rewrite (parse_chunk_blank c E). discriminate.
  - rewrite parse_chunk_some by (rewrite E; discriminate).
    intros H. inversion H. apply StrFacts.strip_idem.
Qed.

(** X12.  Every name in the mapping returned by [parse_resources] is
    trimmed, and no name occurs twice. *)
Theorem parsed_names_are_trimmed_and_unique (text : string) :
  NoDup (Dict.keys (parse_resources text))
  /\ Forall (fun k => PyStr.strip k = k) (Dict.keys (parse_resources text)).
Proof.
  split; [apply parse_resources_nodup|].
  unfold parse_resources.
  generalize (PyStr.split PyStr.semicolon (normalize_separators text)).
  intros cs.
  assert (G : forall acc : Dict.t Z,
             Forall (fun k => PyStr.strip k = k) (Dict.keys acc) ->
             Forall (fun k => PyStr.strip k = k)
                    (Dict.keys (fold_left parse_step cs acc))).
  { induction cs as [|c cs IH]; intros acc Hacc; [exact Hacc|].
    cbn [fold_left]. apply IH. unfold parse_step.
    destruct (parse_chunk c) as [[k v]|] eqn:E; [|exact Hacc].
    apply forall_keys_set; [|exact Hacc].
    now apply parse_chunk_name_trimmed in E. }
  apply G. constructor.
Qed.

(* ================================================================== *)
(** ** The inventory sheet *)
(* ================================================================== *)

Lemma inventory_step_keeps (P : string -> Prop) (nc cc : nat)
      (inv : Dict.t Z) (r : list string) :
  (forall k, k <> EmptyString -> PyStr.strip k = k -> P k) ->
  NoDup (Dict.keys inv) /\ Forall P (Dict.keys inv) ->
  NoDup (Dict.keys (inventory_step nc cc inv r))
  /\ Forall P (Dict.keys (inventory_step nc cc inv r)).
Proof.
  intros HP [Hnd Hall]. unfold inventory_step.
  destruct (_ <=? _)%nat; [now split|].
  destruct (PyStr.strip (nth nc r EmptyString)) as [|c k] eqn:E; [now split|].
  split.
  - now apply DictFacts.set_keeps_nodup.
  - apply forall_keys_set; [|assumption].
    apply HP; [discriminate|]. rewrite <- E. apply StrFacts.strip_idem.
Qed.

Lemma read_inventory_keeps (P : string -> Prop) (values : list (list string)) :
  (forall k, k <> EmptyString -> PyStr.strip k = k -> P k) ->
  NoDup (Dict.keys (read_inventory values))
  /\ Forall P (Dict.keys (read_inventory values)).
Proof.
  intros HP. unfold read_inventory.
  destruct values as [|header [|r1 rows]]; try (split; constructor).
  destruct (find_col is_name_header _) as [nc|]; [|split; constructor].
  destruct (find_col is_count_header _) as [cc|]; [|split; constructor].
  generalize (r1 :: rows). intros rs.
  assert (G : forall acc : Dict.t Z,
             NoDup (Dict.keys acc) /\ Forall P (Dict.keys acc) ->
             NoDup (Dict.keys (fold_left (inventory_step nc cc) rs acc))
             /\ Forall P (Dict.keys (fold_left (inventory_step nc cc) rs acc))).
  { induction rs as [|r rs IH]; intros acc Hacc; [exact Hacc|].
    cbn [fold_left]. apply IH. now apply inventory_step_keeps. }
  apply G. split; constructor.
Qed.

(** X13.  The inventory read from the sheet holds no name twice, and every
    name in it is non-empty and trimmed; a sheet with fewer than two rows
    gives the empty inventory.  Hence the catalog key map built from it
    never binds a key to an empty name, and a key is treated as stale by
    [select_equipment] exactly when the map does not bind it. *)
Theorem inventory_names_are_clean (values : list (list string)) (key : string) :
  let inventory := read_inventory values in
  NoDup (Dict.keys inventory)
  /\ Forall (fun k => k <> EmptyString /\ PyStr.strip k = k) (Dict.keys inventory)
  /\ ((length values < 2)%nat -> inventory = [])
  /\ lookup_name (build_callback_map inventory) key
     = Dict.get (build_callback_map inventory) key.
Proof.
  intros inventory.
  pose proof (read_inventory_keeps
                (fun k => k <> EmptyString /\ PyStr.strip k = k) values
                ltac:(intros k H1 H2; now split)) as [Hnd Hall].
  fold inventory in Hnd, Hall.
  split; [exact Hnd|]. split; [exact Hall|]. split.
  - unfold inventory, read_inventory.
    destruct values as [|header [|r1 rows]]; cbn [length]; try reflexivity; lia.
  - unfold lookup_name.
    destruct (Dict.get (build_callback_map inventory) key) as [name|] eqn:E;
      [|reflexivity].
    apply (indexed_map_exact item_key item_key_inj) in E.
    destruct E as (idx & q & _ & Hnth).
    apply nth_error_In in Hnth.
    rewrite Forall_forall in Hall.
    destruct (Hall name) as [Hne _].
    { change name with (fst (name, q)). now apply in_map. }
    destruct name; [contradiction | reflexivity].
Qed.

(* ================================================================== *)
(** ** The confirmation never rewrites the sheets *)
(* ================================================================== *)

Lemma confirm_yes_effects (w : sheets) (ctx : fsm) (ack : list action)
      (w' : sheets) (ctx' : fsm) (sent : list action) :
  confirm_yes w ctx ack = Some (w', ctx', sent) ->
  ctx' = cleared
  /\ inventory_sheet w' = inventory_sheet w
  /\ bookings_headers w' = bookings_headers w
  /\ (bookings_rows w' = bookings_rows w
      \/ exists new_row, booking_row (data ctx) = Some new_row
                         /\ bookings_rows w' = new_row :: bookings_rows w).
Proof.
  unfold confirm_yes.
  destruct (stored_request (data ctx)) as [[[[d s] e] requested]|]; [|discriminate].
  destruct (check_availability _ _ _ _ _ _) as [[|] msg]; cbn [negb].
  - destruct (booking_row (data ctx)) as [new_row|]; [|discriminate].
    intros H. inversion H; subst. cbn. repeat split; eauto.
  - intros H. inversion H; subst. repeat split; auto.
Qed.

(** X14.  Whatever they are sent, the two confirmation handlers never touch
    the inventory, the header row or an existing booking row: they leave the
    bookings as they are or put one new row, the stored one, on top.  When
    they return, the dialogue is cleared, except that an unrecognised text
    changes nothing.  A second press of the confirm button after that raises
    (the cleared dialogue stores no request) and writes nothing. *)
Theorem confirmation_only_appends
    (w : sheets) (ctx : fsm) (input : string)
    (w' : sheets) (ctx' : fsm) (sent : list action) :
  confirm_handler w input ctx = Some (w', ctx', sent)
  \/ process_confirm_text w input ctx = Some (w', ctx', sent) ->
  (inventory_sheet w' = inventory_sheet w
   /\ bookings_headers w' = bookings_headers w
   /\ (bookings_rows w' = bookings_rows w
       \/ exists new_row, booking_row (data ctx) = Some new_row
                          /\ bookings_rows w' = new_row :: bookings_rows w))
  /\ (ctx' = cleared \/ (ctx' = ctx /\ w' = w))
  /\ (forall act, act <> "cancel" ->
        confirm_handler w' ("confirm:" ++ act) cleared = None).
Proof.
  intros H.
  assert (G : (ctx' = cleared
               /\ inventory_sheet w' = inventory_sheet w
               /\ bookings_headers w' = bookings_headers w
               /\ (bookings_rows w' = bookings_rows w
                   \/ exists new_row, booking_row (data ctx) = Some new_row
                        /\ bookings_rows w' = new_row :: bookings_rows w))
              \/ (ctx' = ctx /\ w' = w)).
  { destruct H as [H|H].
    - unfold confirm_handler in H.
      destruct (PyStr.split_first _ _) as [[p act]|]; [|discriminate].
      destruct (String.eqb act "cancel").
      + inversion H; subst. left. repeat split; auto.
      + left. eapply confirm_yes_effects; eauto.
    - unfold process_confirm_text in H.
      destruct (word_in _ negative_words).
      + inversion H; subst. left. repeat split; auto.
      + destruct (word_in _ affirmative_words).
        * left. eapply confirm_yes_effects; eauto.
        * inversion H; subst. right. split; reflexivity. }
  split; [|split].
  - destruct G as [(_ & H1 & H2 & H3)|[_ ->]]; auto.
  - destruct G as [(H0 & _)|G]; auto.
  - intros act Hact. unfold confirm_handler.
    change (PyStr.split_first PyStr.colon ("confirm:" ++ act))
      with (Some ("confirm", act)).
    cbv beta iota.
    destruct (String.eqb_spec act "cancel"); [contradiction | reflexivity].
Qed.

Lemma confirmation_only_appends_witness :
  confirm_handler
    (append_booking_row Sample.booked_row Sample.sheets_free)
    ("confirm:" ++ "yes") cleared
  = None.
Proof.
  refine (proj2 (proj2 (confirmation_only_appends
            Sample.sheets_free Sample.confirming "confirm:yes"
            (append_booking_row Sample.booked_row Sample.sheets_free) cleared
            [Answer msg_written None; CallAnswer] (or_introl _))) "yes" _).
  - reflexivity.
  - discriminate.
Defined.



